(** * Beschaffungs-Bot: the request ledger and the conversation handlers

    A shallow embedding of [bot.py].  The Google sheet is a list of rows of
    cells; every call that leaves the process (opening the sheet, reading it,
    appending a row, updating a cell, sending a chat message) asks a fault
    script whether it goes through, so that the [try]/[except] structure of
    the source can be followed branch by branch. *)

From Stdlib Require Import ZArith List Bool Lia Sorted.
From Stdlib Require Import Ascii String Decimal DecimalString DecimalNat DecimalPos.
From stdpp Require Import base gmap strings.

Import ListNotations.
Local Open Scope string_scope.
Local Open Scope Z_scope.

(** ** Python strings

    Cells, chat texts and callback data are [str] values.  A text is kept as
    the [string] of its UTF-8 bytes: comparison, concatenation, [in] and
    [replace] with an ASCII pattern are the same on the bytes as on the
    characters.  What [strip], [lower], [upper] and [int] do is written out
    for texts of the ASCII range; for a text with a character above 127
    they are whatever the four functions of the class [Unicode] are, so
    that a statement proved here holds for the tables of every Python
    version. *)

Module Py.

Definition code (c : ascii) : nat := nat_of_ascii c.

(** The whitespace of the ASCII range: TAB, LF, VT, FF, CR, the four
    separators 28..31 and the blank. *)
Definition isspace (c : ascii) : bool :=
  let n := code c in
  (((9 <=? n) && (n <=? 13)) || ((28 <=? n) && (n <=? 32)))%nat.

Definition lower_char (c : ascii) : ascii :=
  let n := code c in
  if ((65 <=? n) && (n <=? 90))%nat then ascii_of_nat (n + 32) else c.

Definition upper_char (c : ascii) : ascii :=
  let n := code c in
  if ((97 <=? n) && (n <=? 122))%nat then ascii_of_nat (n - 32) else c.

Fixpoint map_chars (f : ascii -> ascii) (s : string) : string :=
  match s with
  | EmptyString => EmptyString
  | String c s' => String (f c) (map_chars f s')
  end.

(** [s.lower()] and [s.upper()] of an ASCII text. *)
Definition lower_ascii : string -> string := map_chars lower_char.
Definition upper_ascii : string -> string := map_chars upper_char.

(** [s.lstrip()], [s.rstrip()] and [s.strip()] of an ASCII text. *)
Fixpoint lstrip (s : string) : string :=
  match s with
  | EmptyString => EmptyString
  | String c s' => if isspace c then lstrip s' else s
  end.

Fixpoint rstrip (s : string) : string :=
  match s with
  | EmptyString => EmptyString
  | String c s' =>
      match rstrip s' with
      | EmptyString => if isspace c then EmptyString else String c EmptyString
      | t => String c t
      end
  end.

Definition strip_ascii (s : string) : string := rstrip (lstrip s).

Fixpoint all_chars (p : ascii -> bool) (s : string) : bool :=
  match s with
  | EmptyString => true
  | String c s' => p c && all_chars p s'
  end.

(** The text has no character above 127. *)
Definition is_ascii_char (c : ascii) : bool := (code c <? 128)%nat.
Definition is_ascii (s : string) : bool := all_chars is_ascii_char s.

(** [needle in hay]. *)
Fixpoint contains (needle hay : string) : bool :=
  String.prefix needle hay
  || match hay with
     | EmptyString => false
     | String _ hay' => contains needle hay'
     end.

(** [s == t]. *)
Definition eqb (s t : string) : bool := String.eqb s t.

(** [str(n)] for an [int]. *)
Definition str_of_nat (n : nat) : string :=
  NilEmpty.string_of_uint (Nat.to_uint n).

Definition str_of_int (z : Z) : string :=
  NilZero.string_of_int (Z.to_int z).

(** Left padding with the digit zero up to [width] characters, the effect
    of the format specifications [03d], [02d] and [04d] on a number that
    is not negative. *)
Fixpoint zeros (n : nat) : string :=
  match n with
  | O => EmptyString
  | S k => String "0" (zeros k)
  end.

Definition zfill (width : nat) (s : string) : string :=
  zeros (width - String.length s) ++ s.

(** [s.replace(pat, "")] for a pattern that is not empty: every
    occurrence, found from left to right and not overlapping, is dropped.
    [skip] counts the characters of a found occurrence still to drop. *)
Fixpoint remove_from (pat : string) (skip : nat) (s : string) : string :=
  match s with
  | EmptyString => EmptyString
  | String c s' =>
      match skip with
      | S k => remove_from pat k s'
      | O =>
          if String.prefix pat s
          then remove_from pat (Nat.pred (String.length pat)) s'
          else String c (remove_from pat 0 s')
      end
  end.

Definition remove_all (pat s : string) : string := remove_from pat 0 s.

Definition is_digit (c : ascii) : bool :=
  ((48 <=? code c) && (code c <=? 57))%nat.

(** The digits of an [int] literal: decimal digits, single underscores
    allowed between two digits.  [prev] tells whether the character before
    was a digit. *)
Fixpoint digits_value (acc : Z) (prev : bool) (s : string) : option Z :=
  match s with
  | EmptyString => if prev then Some acc else None
  | String c s' =>
      if is_digit c
      then digits_value (10 * acc + Z.of_nat (code c - 48)) true s'
      else if (Ascii.eqb c "_" && prev)%bool
           then match s' with
                | String d _ =>
                    if is_digit d then digits_value acc false s' else None
                | EmptyString => None
                end
           else None
  end.

(** [int(s)] of an ASCII text; [None] stands for [ValueError].  (The
    bound CPython puts on the number of digits, 4300, is out of reach: the
    only text read here is callback data, of 64 bytes at most.) *)
Definition int_ascii (s : string) : option Z :=
  match strip_ascii s with
  | String "-" t => option_map Z.opp (digits_value 0 false t)
  | String "+" t => digits_value 0 false t
  | t => digits_value 0 false t
  end.

(** [str.strip], [str.lower], [str.upper] and [int] on a text that has a
    character above 127.  Nothing is assumed of them. *)
Class Unicode := {
  strip_unicode : string -> string;
  lower_unicode : string -> string;
  upper_unicode : string -> string;
  int_unicode : string -> option Z
}.

Section Text.

Context {U : Unicode}.

(** [s.strip()]. *)
Definition strip (s : string) : string :=
  if is_ascii s then strip_ascii s else strip_unicode s.

(** [s.lower()]. *)
Definition lower (s : string) : string :=
  if is_ascii s then lower_ascii s else lower_unicode s.

(** [s.upper()]. *)
Definition upper (s : string) : string :=
  if is_ascii s then upper_ascii s else upper_unicode s.

(** [int(s)]; [None] stands for [ValueError]. *)
Definition int_of_str (s : string) : option Z :=
  if is_ascii s then int_ascii s else int_unicode s.

End Text.

(** The functions of a Python that knows ASCII only, for running the
    definitions on sample data: all of it is ASCII, which never reaches the
    four fields. *)
Definition ascii_only : Unicode :=
  {| strip_unicode := strip_ascii;
     lower_unicode := lower_ascii;
     upper_unicode := upper_ascii;
     int_unicode := int_ascii |}.

End Py.

(** ** Naive datetimes

    A [datetime] without time zone.  The date is kept as its proleptic
    Gregorian ordinal (1 is the first of January of year 1, a Monday), which
    is what [toordinal], [weekday] and the subtraction of a [timedelta] of
    whole days work on; the conversions from and to year, month and day
    follow CPython's [_ymd2ord] and [_ord2ymd]. *)

Module Datetime.

Record t := mk {
  ordinal : Z;
  hour : Z;
  minute : Z;
  second : Z;
  microsecond : Z
}.

Definition is_leap (y : Z) : bool :=
  (y mod 4 =? 0) && (negb (y mod 100 =? 0) || (y mod 400 =? 0)).

Definition days_before_year (y : Z) : Z :=
  let y1 := y - 1 in y1 * 365 + y1 / 4 - y1 / 100 + y1 / 400.

Definition days_in_month (y m : Z) : Z :=
  if m =? 2 then (if is_leap y then 29 else 28)
  else if (m =? 4) || (m =? 6) || (m =? 9) || (m =? 11) then 30
  else 31.

(** Days of the year before the first day of month [m]. *)
Definition days_before_month (y m : Z) : Z :=
  nth (Z.to_nat m) [0; 0; 31; 59; 90; 120; 151; 181; 212; 243; 273; 304; 334] 0
  + (if (2 <? m) && is_leap y then 1 else 0).

Definition ymd2ord (y m d : Z) : Z :=
  days_before_year y + days_before_month y m + d.

Definition ord2ymd (n0 : Z) : Z * Z * Z :=
  let n := n0 - 1 in
  let n400 := n / 146097 in let n := n mod 146097 in
  let n100 := n / 36524 in let n := n mod 36524 in
  let n4 := n / 1461 in let n := n mod 1461 in
  let n1 := n / 365 in let n := n mod 365 in
  let year := n400 * 400 + 1 + n100 * 100 + n4 * 4 + n1 in
  if (n1 =? 4) || (n100 =? 4) then (year - 1, 12, 31)
  else
    let leapyear := (n1 =? 3) && (negb (n4 =? 24) || (n100 =? 3)) in
    let leap (m : Z) := if (2 <? m) && leapyear then 1 else 0 in
    let before (m : Z) := days_before_month 1 m + leap m in
    let month := Z.shiftr (n + 50) 5 in
    let month := if n <? before month then month - 1 else month in
    (year, month, n - before month + 1).

(** [datetime(y, m, d, H, M, S, us)]. *)
Definition of_fields (y m d H M S us : Z) : t :=
  mk (ymd2ord y m d) H M S us.

(** [d.weekday()]: Monday is 0, Sunday is 6. *)
Definition weekday (d : t) : Z := (ordinal d + 6) mod 7.

(** [d.replace(hour=H, minute=M, second=S)]: the microsecond stays. *)
Definition replace_hms (d : t) (H M S : Z) : t :=
  mk (ordinal d) H M S (microsecond d).

(** [d - timedelta(days=k)]. *)
Definition sub_days (d : t) (k : Z) : t :=
  mk (ordinal d - k) (hour d) (minute d) (second d) (microsecond d).

(** [a <= b]: the fields are compared from the most significant one. *)
Definition leb (a b : t) : bool :=
  if ordinal a <? ordinal b then true
  else if ordinal b <? ordinal a then false
  else if hour a <? hour b then true
  else if hour b <? hour a then false
  else if minute a <? minute b then true
  else if minute b <? minute a then false
  else if second a <? second b then true
  else if second b <? second a then false
  else microsecond a <=? microsecond b.

(** [a >= b]. *)
Definition geb (a b : t) : bool := leb b a.

(** What the clock can return. *)
Definition valid (d : t) : Prop :=
  1 <= ordinal d /\ 0 <= hour d < 24 /\ 0 <= minute d < 60
  /\ 0 <= second d < 60 /\ 0 <= microsecond d < 1000000.

Definition fmt (width : nat) (z : Z) : string :=
  Py.zfill width (Py.str_of_int z).

Definition date_text (d : t) : string :=
  let '(y, m, dd) := ord2ymd (ordinal d) in
  fmt 4 y ++ "-" ++ fmt 2 m ++ "-" ++ fmt 2 dd.

(** [d.strftime("%Y-%m-%d %H:%M")]. *)
Definition strftime_minutes (d : t) : string :=
  date_text d ++ " " ++ fmt 2 (hour d) ++ ":" ++ fmt 2 (minute d).

(** [d.strftime("%Y-%m-%d %H:%M:%S")]. *)
Definition strftime_seconds (d : t) : string :=
  strftime_minutes d ++ ":" ++ fmt 2 (second d).

(** A reader for the text [strftime_seconds] writes: four digits, two
    digits and two digits for the date, one blank, two digits three times
    for the time, every field in its range. *)
Fixpoint take_digits (n : nat) (acc : Z) (s : string) : option (Z * string) :=
  match n with
  | O => Some (acc, s)
  | S k =>
      match s with
      | String c s' =>
          if Py.is_digit c
          then take_digits k (10 * acc + Z.of_nat (Py.code c - 48)) s'
          else None
      | EmptyString => None
      end
  end.

Definition expect (c : ascii) (s : string) : option string :=
  match s with
  | String c' s' => if Ascii.eqb c c' then Some s' else None
  | EmptyString => None
  end.

Definition strptime_canonical (s : string) : option t :=
  '(y, s) ← take_digits 4 0 s; s ← expect "-" s;
  '(m, s) ← take_digits 2 0 s; s ← expect "-" s;
  '(d, s) ← take_digits 2 0 s; s ← expect " " s;
  '(hh, s) ← take_digits 2 0 s; s ← expect ":" s;
  '(mi, s) ← take_digits 2 0 s; s ← expect ":" s;
  '(ss, s) ← take_digits 2 0 s;
  if String.eqb s ""
     && (1 <=? y) && (1 <=? m) && (m <=? 12)
     && (1 <=? d) && (d <=? days_in_month y m)
     && (hh <=? 23) && (mi <=? 59) && (ss <=? 59)
  then Some (of_fields y m d hh mi ss 0)
  else None.

End Datetime.

(** ** Rows handed between the ledger and the handlers *)

(** One entry of the list [get_pending_orders_for_user] returns. *)
Module Pending.
Record t := mk {
  row : Z;
  order_number : string;
  timestamp : string;
  artikel : string;
  menge : string;
  dringlichkeit : string;
  kostenstelle : string
}.
End Pending.

(** One entry of the list [search_orders] returns. *)
Module Found.
Record t := mk {
  row : Z;
  order_number : string;
  timestamp : string;
  mitarbeiter : string;
  artikel : string;
  menge : string;
  dringlichkeit : string;
  kostenstelle : string;
  bestellt : string
}.
End Found.

(** The [data] dictionary [save_order] builds for [save_to_sheet]. *)
Module Order.
Record t := mk {
  timestamp : string;
  mitarbeiter : string;
  chat_id : Z;
  artikel : string;
  menge : string;
  dringlichkeit : string;
  kostenstelle : string;
  foto_id : string
}.
End Order.

(** The counters [get_weekly_summary] returns for a sheet with data rows. *)
Module Stats.
Record t := mk {
  total : nat;
  pending : nat;
  ordered : nat;
  cancelled : nat;
  by_kostenstelle : gmap string nat
}.
End Stats.

(** What [context.user_data] holds under a key. *)
Inductive value :=
| VStr (s : string)
| VOrders (l : list Pending.t).

(** The states of the two conversations; [END] is
    [ConversationHandler.END]. *)
Inductive state :=
| ARTIKEL
| MENGE
| DRINGLICHKEIT
| KOSTENSTELLE
| FOTO
| BESTAETIGUNG
| STORNO_AUSWAHL
| END.

(** Texts the bot sends; only what a text depends on is kept. *)
Inductive notice :=
| Question (next : state)
| PhotoReceived
| Overview (artikel menge dringlichkeit kostenstelle : string) (with_photo : bool)
| SavingNotice
| RestartNotice
| OrderAborted
| RequestAborted
| OrderSaved (order_number : string) (with_photo : bool)
| SaveFailed
| NothingToCancel
| ChooseOrder (rows : list Z)
| StornoAborted
| StornoDone (order_number artikel menge : string)
| StornoFailed
| AdminNewOrder (order_number : string)
| AdminPhoto (foto_id order_number : string)
| AdminStorno (order_number : string).

Inductive recipient := ToUser | ToAdmin.

Inductive chat_call :=
| Answer
| Edit (n : notice)
| Send (to : recipient) (n : notice).

(** ** The world and the monad of the handlers *)

Record world := World {
  sheet : list (list string);      (* the worksheet, header row first *)
  script : list bool;              (* outcome of the next remote calls *)
  clock : Datetime.t;              (* what [datetime.now()] returns *)
  user_data : gmap string value;   (* [context.user_data] of the caller *)
  outbox : list chat_call          (* chat calls that went through *)
}.

Definition set_sheet (s : list (list string)) (w : world) : world :=
  World s (script w) (clock w) (user_data w) (outbox w).
Definition set_script (f : list bool) (w : world) : world :=
  World (sheet w) f (clock w) (user_data w) (outbox w).
Definition set_user_data (u : gmap string value) (w : world) : world :=
  World (sheet w) (script w) (clock w) u (outbox w).
Definition set_outbox (o : list chat_call) (w : world) : world :=
  World (sheet w) (script w) (clock w) (user_data w) o.

Inductive outcome (A : Type) :=
| Ret (a : A)
| Raise.
Arguments Ret {A} a.
Arguments Raise {A}.

Definition M (A : Type) : Type := world -> outcome A * world.

Definition ret {A} (a : A) : M A := fun w => (Ret a, w).

Definition raise {A} : M A := fun w => (Raise, w).

Definition bind {A B} (m : M A) (k : A -> M B) : M B :=
  fun w =>
    match m w with
    | (Ret a, w') => k a w'
    | (Raise, w') => (Raise, w')
    end.

(** [try: m  except Exception: h].  What [m] did to the world before it
    raised stays done. *)
Definition try_except {A} (m : M A) (h : M A) : M A :=
  fun w =>
    match m w with
    | (Ret a, w') => (Ret a, w')
    | (Raise, w') => h w'
    end.

Notation "x <- m ;; k" := (bind m (fun x => k))
  (at level 100, m at next level, right associativity).
Notation "m ;; k" := (bind m (fun _ => k))
  (at level 100, right associativity).

(** A remote call reads the next entry of the script; a script that has run
    out means no fault. *)
Definition remote : M bool :=
  fun w =>
    match script w with
    | [] => (Ret true, w)
    | ok :: rest => (Ret ok, set_script rest w)
    end.

(** A remote call that raises when it does not go through. *)
Definition remote_or_raise : M unit :=
  ok <- remote ;; if ok then ret tt else raise.

Definition now : M Datetime.t := fun w => (Ret (clock w), w).

(** ** The worksheet (gspread) *)

Module Worksheet.

(** The cell at 1-based position ([r], [c]); a cell that was never written
    reads as the empty text. *)
Definition cell (s : list (list string)) (r c : Z) : string :=
  if (1 <=? r) && (1 <=? c)
  then nth (Z.to_nat (c - 1)) (nth (Z.to_nat (r - 1)) s []) ""
  else "".

Definition pad {A} (n : nat) (x : A) (l : list A) : list A :=
  l ++ replicate (n - length l)%nat x.

(** Writing the cell at 0-based position ([i], [j]); the grid grows by
    empty rows and empty cells as needed. *)
Definition write (s : list (list string)) (i j : nat) (v : string)
  : list (list string) :=
  let s' := pad (S i) [] s in
  <[i := <[j := v]> (pad (S j) "" (nth i s' []))]> s'.

(** [worksheet.get_all_values()]. *)
Definition get_all_values : M (list (list string)) :=
  remote_or_raise ;; fun w => (Ret (sheet w), w).

(** [worksheet.append_row(row, value_input_option="USER_ENTERED")]. *)
Definition append_row (r : list string) : M unit :=
  remote_or_raise ;; fun w => (Ret tt, set_sheet (sheet w ++ [r]) w).

(** [worksheet.update_cell(row, col, value)]: a position below 1 is
    refused before anything is sent. *)
Definition update_cell (r c : Z) (v : string) : M unit :=
  if (r <? 1) || (c <? 1) then raise
  else
    remote_or_raise ;;
    fun w =>
      (Ret tt, set_sheet (write (sheet w) (Z.to_nat (r - 1)) (Z.to_nat (c - 1)) v) w).

End Worksheet.

(** ** Google Sheets functions *)

Section Ledger.

Context {U : Py.Unicode}.

(** [get_google_sheet]: [Some tt] is the worksheet, [None] is [None]; the
    function catches whatever goes wrong while connecting. *)
Definition get_google_sheet : M (option unit) :=
  ok <- remote ;; ret (if ok then Some tt else None).

(** The format specification [#{order_count:03d}]. *)
Definition format_order_number (order_count : nat) : string :=
  "#" ++ Py.zfill 3 (Py.str_of_nat order_count).

Definition get_next_order_number : M string :=
  try_except
    (worksheet <- get_google_sheet ;;
     match worksheet with
     | None => ret "#001"
     | Some _ =>
         all_values <- Worksheet.get_all_values ;;
         let order_count := length all_values in
         ret (format_order_number order_count)
     end)
    (ret "#???").

Definition order_row (order_number : string) (data : Order.t) : list string :=
  [ order_number;
    Order.timestamp data;
    Order.mitarbeiter data;
    Py.str_of_int (Order.chat_id data);
    Order.artikel data;
    Order.menge data;
    Order.dringlichkeit data;
    Order.kostenstelle data;
    "";
    "" ].

Definition save_to_sheet (data : Order.t) : M (bool * string) :=
  try_except
    (worksheet <- get_google_sheet ;;
     match worksheet with
     | None => ret (false, "")
     | Some _ =>
         order_number <- get_next_order_number ;;
         Worksheet.append_row (order_row order_number data) ;;
         ret (true, order_number)
     end)
    (ret (false, "")).

(** [enumerate(l, start)]. *)
Fixpoint enumerate {A} (start : Z) (l : list A) : list (Z * A) :=
  match l with
  | [] => []
  | x :: l' => (start, x) :: enumerate (start + 1) l'
  end.

(** [row[k] if len(row) > k else ""]. *)
Definition cell_or_empty (r : list string) (k : nat) : string :=
  if (k <? length r)%nat then nth k r "" else "".

(** The test of the loop of [get_pending_orders_for_user]. *)
Definition is_pending_for (chat_id : Z) (r : list string) : bool :=
  (9 <=? length r)%nat
  && Py.eqb (Py.str_of_int chat_id) (cell_or_empty r 3)
  && Py.eqb (Py.strip (cell_or_empty r 8)) "".

Definition pending_entry (i : Z) (r : list string) : Pending.t :=
  Pending.mk i (nth 0 r "") (nth 1 r "") (nth 4 r "") (nth 5 r "")
             (nth 6 r "") (nth 7 r "").

Definition get_pending_orders_for_user (chat_id : Z) : M (list Pending.t) :=
  try_except
    (worksheet <- get_google_sheet ;;
     match worksheet with
     | None => ret []
     | Some _ =>
         all_values <- Worksheet.get_all_values ;;
         if (length all_values <=? 1)%nat then ret []
         else
           ret (fold_left
                  (fun (pending : list Pending.t) '(i, r) =>
                     if is_pending_for chat_id r
                     then (pending ++ [pending_entry i r])%list
                     else pending)
                  (enumerate 2 (tl all_values)) [])
     end)
    (ret []).

Definition cancel_order (row_number : Z) : M bool :=
  try_except
    (worksheet <- get_google_sheet ;;
     match worksheet with
     | None => ret false
     | Some _ =>
         Worksheet.update_cell row_number 9 "STORNIERT" ;;
         t <- now ;;
         Worksheet.update_cell row_number 10 (Datetime.strftime_minutes t) ;;
         ret true
     end)
    (ret false).

(** The test of the loop of [search_orders]. *)
Definition matches (search_lower : string) (r : list string) : bool :=
  (8 <=? length r)%nat
  && (Py.contains search_lower (Py.lower (cell_or_empty r 4))
      || Py.contains search_lower (Py.lower (cell_or_empty r 2))
      || Py.contains search_lower (Py.lower (cell_or_empty r 7))).

Definition found_entry (i : Z) (r : list string) : Found.t :=
  Found.mk i (nth 0 r "") (nth 1 r "") (nth 2 r "") (nth 4 r "") (nth 5 r "")
           (nth 6 r "") (nth 7 r "") (cell_or_empty r 8).

Definition search_orders (search_term : string) : M (list Found.t) :=
  try_except
    (worksheet <- get_google_sheet ;;
     match worksheet with
     | None => ret []
     | Some _ =>
         all_values <- Worksheet.get_all_values ;;
         if (length all_values <=? 1)%nat then ret []
         else
           let search_lower := Py.lower search_term in
           let results :=
             fold_left
               (fun (results : list Found.t) '(i, r) =>
                  if matches search_lower r
                  then (results ++ [found_entry i r])%list
                  else results)
               (enumerate 2 (tl all_values)) [] in
           ret (firstn 10 results)
     end)
    (ret []).

End Ledger.

(** ** The weekly summary *)

(** What [get_weekly_summary] returns: the empty dictionary, the four zero
    counters of a sheet without data rows, or the counters of the week. *)
Inductive summary :=
| Unavailable
| NoOrders
| Counted (s : Stats.t).

Section Weekly.

Context {U : Py.Unicode}.

(** [datetime.strptime(text, "%Y-%m-%d %H:%M:%S")], [None] standing for
    the [ValueError] of a text that does not parse.  The summary is
    defined, and its properties hold, for any reader. *)
Variable strptime : string -> option Datetime.t.

(** [today.replace(hour=0, minute=0, second=0)
     - timedelta(days=today.weekday())]. *)
Definition week_start_of (today : Datetime.t) : Datetime.t :=
  Datetime.sub_days (Datetime.replace_hms today 0 0 0) (Datetime.weekday today).

(** The guard of the loop body: the row has its nine cells, its timestamp
    parses (a [ValueError] ends in the bare [except]) and is not older
    than [week_start]. *)
Definition in_week (week_start : Datetime.t) (r : list string) : bool :=
  (9 <=? length r)%nat
  && match strptime (nth 1 r "") with
     | Some order_date => Datetime.geb order_date week_start
     | None => false
     end.

(** One turn of the loop. *)
Definition tally (week_start : Datetime.t) (acc : Stats.t) (r : list string)
  : Stats.t :=
  if in_week week_start r then
    let status := Py.upper (Py.strip (nth 8 r "")) in
    let ks := nth 7 r "" in
    Stats.mk
      (Stats.total acc + 1)
      (if Py.eqb status "" then Stats.pending acc + 1
       else Stats.pending acc)
      (if Py.eqb status "" then Stats.ordered acc
       else if Py.eqb status "STORNIERT" then Stats.ordered acc
       else Stats.ordered acc + 1)
      (if Py.eqb status "" then Stats.cancelled acc
       else if Py.eqb status "STORNIERT" then Stats.cancelled acc + 1
       else Stats.cancelled acc)
      (<[ks := (default 0 (Stats.by_kostenstelle acc !! ks) + 1)%nat]>
         (Stats.by_kostenstelle acc))
  else acc.

Definition get_weekly_summary : M summary :=
  try_except
    (worksheet <- get_google_sheet ;;
     match worksheet with
     | None => ret Unavailable
     | Some _ =>
         all_values <- Worksheet.get_all_values ;;
         if (length all_values <=? 1)%nat then ret NoOrders
         else
           today <- now ;;
           let week_start := week_start_of today in
           ret (Counted (fold_left (tally week_start) (tl all_values)
                                   (Stats.mk 0 0 0 0 ∅)))
     end)
    (ret Unavailable).

End Weekly.

(** [stats.get('total', 0)], the way the statistics command reads the
    result. *)
Definition total_of (s : summary) : nat :=
  match s with
  | Counted c => Stats.total c
  | _ => 0%nat
  end.

(** ** Telegram bot handlers *)

Module User.
Record t := mk {
  first_name : string;
  last_name : option string
}.
End User.

(** A call on the bot or on the callback query: it raises when it does not
    go through. *)
Definition chat (c : chat_call) : M unit :=
  remote_or_raise ;;
  fun w => (Ret tt, set_outbox (outbox w ++ [c]) w).

(** [context.user_data[key] = v]. *)
Definition set_item (key : string) (v : value) : M unit :=
  fun w => (Ret tt, set_user_data (<[key := v]> (user_data w)) w).

(** [context.user_data[key]]: a missing key is a [KeyError]. *)
Definition get_item (key : string) : M value :=
  fun w =>
    match user_data w !! key with
    | Some v => (Ret v, w)
    | None => (Raise, w)
    end.

(** [context.user_data.get(key)]. *)
Definition get_item_opt (key : string) : M (option value) :=
  fun w => (Ret (user_data w !! key), w).

(** [context.user_data.clear()]. *)
Definition clear : M unit :=
  fun w => (Ret tt, set_user_data ∅ w).

(** The text under one of the keys of an order; the handlers only ever store
    texts under them. *)
Definition text_of (v : value) : string :=
  match v with
  | VStr s => s
  | VOrders _ => ""
  end.

(** Truth value of a text. *)
Definition truthy (s : string) : bool := negb (Py.eqb s "").

Section Handlers.

Context {U : Py.Unicode}.

(** The environment variable [ADMIN_CHAT_ID]. *)
Variable ADMIN_CHAT_ID : option string.

Definition admin_configured : bool :=
  match ADMIN_CHAT_ID with
  | Some s => truthy s
  | None => false
  end.

Definition start : M state :=
  chat (Send ToUser (Question ARTIKEL)) ;;
  ret ARTIKEL.

Definition artikel (text : string) : M state :=
  set_item "artikel" (VStr text) ;;
  chat (Send ToUser (Question MENGE)) ;;
  ret MENGE.

Definition menge (text : string) : M state :=
  set_item "menge" (VStr text) ;;
  chat (Send ToUser (Question DRINGLICHKEIT)) ;;
  ret DRINGLICHKEIT.

Definition dringlichkeit (text : string) : M state :=
  set_item "dringlichkeit" (VStr text) ;;
  chat (Send ToUser (Question KOSTENSTELLE)) ;;
  ret KOSTENSTELLE.

Definition kostenstelle (text : string) : M state :=
  set_item "kostenstelle" (VStr text) ;;
  chat (Send ToUser (Question FOTO)) ;;
  ret FOTO.

Definition show_confirmation : M state :=
  f <- get_item_opt "foto_id" ;;
  a <- get_item "artikel" ;;
  m <- get_item "menge" ;;
  d <- get_item "dringlichkeit" ;;
  k <- get_item "kostenstelle" ;;
  chat (Send ToUser
          (Overview (text_of a) (text_of m) (text_of d) (text_of k)
                    (match f with Some v => truthy (text_of v) | None => false end))) ;;
  ret BESTAETIGUNG.

(** [photo] lists the file identifiers of the sizes of the picture, the
    largest one last. *)
Definition foto_received (photo : list string) : M state :=
  match photo with
  | [] => ret tt
  | _ =>
      set_item "foto_id" (VStr (List.last photo "")) ;;
      chat (Send ToUser PhotoReceived)
  end ;;
  show_confirmation.

Definition foto_skip : M state :=
  set_item "foto_id" (VStr "") ;;
  show_confirmation.

(** [f"{user.first_name} {user.last_name or ''}".strip()]. *)
Definition full_name (user : User.t) : string :=
  Py.strip (User.first_name user ++ " "
            ++ match User.last_name user with
               | Some l => l
               | None => ""
               end).

Definition save_order (chat_id : Z) (user : User.t) : M state :=
  t <- now ;;
  a <- get_item "artikel" ;;
  m <- get_item "menge" ;;
  d <- get_item "dringlichkeit" ;;
  k <- get_item "kostenstelle" ;;
  f <- get_item_opt "foto_id" ;;
  let data :=
    Order.mk (Datetime.strftime_seconds t) (full_name user) chat_id
             (text_of a) (text_of m) (text_of d) (text_of k)
             (match f with Some v => text_of v | None => "" end) in
  saved <- save_to_sheet data ;;
  let '(success, order_number) := saved in
  (if success : bool then
     chat (Send ToUser (OrderSaved order_number (truthy (Order.foto_id data)))) ;;
     if admin_configured then
       try_except
         (chat (Send ToAdmin (AdminNewOrder order_number)) ;;
          if truthy (Order.foto_id data)
          then chat (Send ToAdmin (AdminPhoto (Order.foto_id data) order_number))
          else ret tt)
         (ret tt)
     else ret tt
   else
     chat (Send ToUser SaveFailed)) ;;
  clear ;;
  ret END.

Definition confirmation_callback (data : string) (chat_id : Z) (user : User.t)
  : M state :=
  chat Answer ;;
  if Py.eqb data "confirm_yes" then
    chat (Edit SavingNotice) ;;
    save_order chat_id user
  else if Py.eqb data "confirm_restart" then
    chat (Edit RestartNotice) ;;
    clear ;;
    chat (Send ToUser (Question ARTIKEL)) ;;
    ret ARTIKEL
  else
    chat (Edit OrderAborted) ;;
    clear ;;
    ret END.

Definition cancel : M state :=
  chat (Send ToUser RequestAborted) ;;
  clear ;;
  ret END.

Definition stornieren_start (chat_id : Z) : M state :=
  pending <- get_pending_orders_for_user chat_id ;;
  match pending with
  | [] =>
      chat (Send ToUser NothingToCancel) ;;
      ret END
  | _ =>
      set_item "pending_orders" (VOrders pending) ;;
      chat (Send ToUser (ChooseOrder (map Pending.row pending))) ;;
      ret STORNO_AUSWAHL
  end.

(** [context.user_data.get("pending_orders", [])], as far as the search
    for the chosen row walks through it. *)
Definition cached_orders : M (list Pending.t) :=
  v <- get_item_opt "pending_orders" ;;
  match v with
  | None => ret []
  | Some (VOrders l) => ret l
  | Some (VStr s) => if truthy s then raise else ret []
  end.

Definition stornieren_callback (data : string) : M state :=
  chat Answer ;;
  if Py.eqb data "cancel_abort" then
    chat (Edit StornoAborted) ;;
    ret END
  else
    match Py.int_of_str (Py.remove_all "cancel_" data) with
    | None => raise
    | Some row_number =>
        pending <- cached_orders ;;
        let order := find (fun o => Pending.row o =? row_number) pending in
        (match order with
         | Some o =>
             cancelled <- cancel_order row_number ;;
             if cancelled : bool then
               chat (Edit (StornoDone (Pending.order_number o)
                                      (Pending.artikel o) (Pending.menge o))) ;;
               if admin_configured then
                 try_except
                   (chat (Send ToAdmin (AdminStorno (Pending.order_number o))))
                   (ret tt)
               else ret tt
             else chat (Edit StornoFailed)
         | None => chat (Edit StornoFailed)
         end) ;;
        clear ;;
        ret END
    end.

End Handlers.

(** ** Runs and vocabulary of the statements *)

(** The next [n] remote calls go through. *)
Definition all_ok (n : nat) (l : list bool) : Prop :=
  forallb id (firstn n l) = true.

Definition calm (n : nat) (w : world) : Prop := all_ok n (script w).

(** Appends made one after the other.  Each entry pairs the number of rows
    the sheet holds when the append begins with what the append returns. *)
Fixpoint appends (ds : list Order.t) (w : world)
  : list (nat * (bool * string)) * world :=
  match ds with
  | [] => ([], w)
  | d :: ds' =>
      match save_to_sheet d w with
      | (Ret r, w') =>
          let '(rs, w'') := appends ds' w' in
          ((length (sheet w), r) :: rs, w'')
      | (Raise, w') => ([], w')
      end
  end.

Definition succeeded (e : nat * (bool * string)) : bool := fst (snd e).
Definition number_of (e : nat * (bool * string)) : string := snd (snd e).

(** The number an order number stands for: the digits after the hash sign,
    read in base ten. *)
Definition order_value (s : string) : option nat :=
  match s with
  | String "#" digits =>
      match digits with
      | EmptyString => None
      | _ => option_map Nat.of_uint (NilEmpty.uint_of_string digits)
      end
  | _ => None
  end.

(** Monday 00:00:00 sharp of the week of [today], the beginning of the
    window in the words of the specification; [week_start_of] is what the
    code computes. *)
Definition monday_midnight (today : Datetime.t) : Datetime.t :=
  Datetime.mk (Datetime.ordinal today - Datetime.weekday today) 0 0 0 0.

(** One second later. *)
Definition monday_first_second (today : Datetime.t) : Datetime.t :=
  Datetime.mk (Datetime.ordinal today - Datetime.weekday today) 0 0 1 0.

(** A row with its 1-based position in the sheet. *)
Definition entry_of_pending (p : Z * list string) : Pending.t :=
  pending_entry (fst p) (snd p).

Definition entry_of_found (p : Z * list string) : Found.t :=
  found_entry (fst p) (snd p).

(** The data rows of a sheet with their positions: row 2 is the first one
    under the header. *)
Definition data_rows (s : list (list string)) : list (Z * list string) :=
  enumerate 2 (tl s).

Section Blank.

Context {U : Py.Unicode}.

(** The row has a status cell, and the cell holds nothing but whitespace:
    nothing is left of it once [strip] has taken the whitespace at its two
    ends away. *)
Definition blank_status (r : list string) : bool :=
  (9 <=? length r)%nat && Py.eqb (Py.strip (nth 8 r "")) "".

End Blank.

(** The counters the statistics command reads from a summary with
    [stats.get(key, 0)]. *)
Definition counters (s : summary) : Stats.t :=
  match s with
  | Counted c => c
  | _ => Stats.mk 0 0 0 0 ∅
  end.

(** Of two sets of counters, the first has one order more, a pending
    one. *)
Definition one_more_pending (a b : Stats.t) : Prop :=
  Stats.total a = S (Stats.total b)
  /\ Stats.pending a = S (Stats.pending b)
  /\ Stats.ordered a = Stats.ordered b
  /\ Stats.cancelled a = Stats.cancelled b.

(** When handler [m] is started in a world that satisfies [P] and returns,
    what it returns and the world it leaves satisfy [Q]. *)
Definition hoare {A} (P : world -> Prop) (m : M A) (Q : A -> world -> Prop)
  : Prop :=
  forall w a w', P w -> m w = (Ret a, w') -> Q a w'.

(** The session data of the caller is empty. *)
Definition scratch_empty (w : world) : Prop := user_data w = ∅.

(** The first [k] remote calls go through and the next one fails. *)
Definition first_fault (k : nat) (l : list bool) : Prop :=
  all_ok k l /\ l !! k = Some false.

(** ** Sample data *)

Definition sample_header : list string :=
  [ "BestellNr"; "Timestamp"; "Mitarbeiter"; "ChatId"; "Artikel"; "Menge";
    "Dringlichkeit"; "Kostenstelle"; "Bestellt?"; "Bestellt am" ].

(** Wednesday the 6th of March 2024, 10:30:15 and a quarter of a second. *)
Definition sample_clock : Datetime.t :=
  Datetime.of_fields 2024 3 6 10 30 15 250000.

Definition order_a : Order.t :=
  Order.mk "2024-03-06 10:30:15" "Max Muster" 42 "Toner" "2" "Normal" "Lager" "".

Definition order_b : Order.t :=
  Order.mk "2024-03-06 10:31:40" "Eva Beispiel" 77 "Handschuhe" "10" "Dringend"
           "Stahlhalle" "".

(** A sheet with nothing but the header, and no fault ahead. *)
Definition fresh_world : world :=
  World [sample_header] [] sample_clock ∅ [].

(** The same sheet; the second append will not get its connection for the
    order number. *)
Definition world_number_fault : world :=
  World [sample_header] [true; true; true; true; true; false; true]
        sample_clock ∅ [].

Definition row_of (order_number : string) (data : Order.t) (status at_ : string)
  : list string :=
  <[9%nat := at_]> (<[8%nat := status]> (order_row order_number data)).

(** The connection opens, the next remote call fails. *)
Definition world_second_call_fails : world :=
  World [sample_header; order_row "#001" order_a] [true; false] sample_clock ∅ [].

(** One order of chat 42 whose status cell holds a blank. *)
Definition world_blank_status : world :=
  World [sample_header; row_of "#001" order_a " " ""] [] sample_clock ∅ [].

(** A sheet of seven columns, without one for the cost center, and one
    order in it. *)
Definition world_narrow_sheet : world :=
  World [ [ "BestellNr"; "Timestamp"; "Mitarbeiter"; "ChatId"; "Artikel";
            "Menge"; "Dringlichkeit" ];
          [ "#001"; "2024-03-06 10:30:15"; "Max Muster"; "42"; "Toner"; "2";
            "Normal" ] ]
        [] sample_clock ∅ [].

(** Two orders under the header. *)
Definition world_two_orders : world :=
  World [sample_header; order_row "#001" order_a; order_row "#002" order_b]
        [] sample_clock ∅ [].

(** An order stamped three days after the clock of the world. *)
Definition world_future_order : world :=
  World [sample_header;
         order_row "#001"
           (Order.mk "2024-03-09 12:00:00" "Max Muster" 42 "Toner" "2" "Normal"
                     "Lager" "")]
        [] sample_clock ∅ [].

(** An order stamped on the Monday of the week of the clock, at 00:00:00. *)
Definition world_monday_order : world :=
  World [sample_header;
         order_row "#001"
           (Order.mk "2024-03-04 00:00:00" "Max Muster" 42 "Toner" "2" "Normal"
                     "Lager" "")]
        [] sample_clock ∅ [].

(** The world after chat 42 has asked to cancel an order on the sheet of
    [world_two_orders]: its one pending order is cached in the session data
    and offered as a choice beside the abort button. *)
Definition world_selecting : world :=
  World [sample_header; order_row "#001" order_a; order_row "#002" order_b]
        [] sample_clock
        {[ "pending_orders" :=
             VOrders [Pending.mk 2 "#001" "2024-03-06 10:30:15" "Toner" "2"
                                 "Normal" "Lager"] ]}
        [Send ToUser (ChooseOrder [2])].

(** [world_two_orders] after the order in row 2 was cancelled. *)
Definition world_cancelled : world :=
  World [sample_header;
         row_of "#001" order_a "STORNIERT" "2024-03-06 10:30";
         order_row "#002" order_b]
        [] sample_clock ∅ [].

(** The same, after chat 42 has placed one more order. *)
Definition world_cancelled_later : world :=
  World [sample_header;
         row_of "#001" order_a "STORNIERT" "2024-03-06 10:30";
         order_row "#002" order_b;
         order_row "#003" order_a]
        [] sample_clock ∅ [].

Definition max_muster : User.t := User.mk "Max" (Some "Muster").

(** A whole order conversation of chat 42, without a photo, submitted. *)
Definition order_conversation {U : Py.Unicode} : M state :=
  start ;;
  artikel "Toner" ;;
  menge "2" ;;
  dringlichkeit "Normal" ;;
  kostenstelle "Lager" ;;
  foto_skip ;;
  confirmation_callback None "confirm_yes" 42 max_muster.

(** ** Further vocabulary *)

(** Nothing but the fault script differs between the two worlds. *)
Definition same_but_script (w w' : world) : Prop :=
  sheet w' = sheet w /\ clock w' = clock w
  /\ user_data w' = user_data w /\ outbox w' = outbox w.

(** A world that differs from [w] by its clock and its fault script. *)
Definition at_time (t : Datetime.t) (f : list bool) (w : world) : world :=
  World (sheet w) f t (user_data w) (outbox w).

(** The sum of the counters of a dictionary. *)
Definition sum_counts (m : gmap string nat) : nat :=
  map_fold (fun _ v acc => (v + acc)%nat) 0%nat m.

(** The mark the search command puts before an order: the conditional
    expression over [order['bestellt']] in [suche_command]. *)
Inductive mark := Ordered | Cancelled | Waiting.

Definition status_mark (bestellt : string) : mark :=
  if truthy bestellt && negb (Py.eqb bestellt "STORNIERT") then Ordered
  else if Py.eqb bestellt "STORNIERT" then Cancelled
  else Waiting.

(** The callback token of the button [stornieren_start] makes for a row:
    [f"cancel_{order['row']}"]. *)
Definition cancel_token (row : Z) : string :=
  "cancel_" ++ Py.str_of_int row.

(** The orders cached in the session data by [stornieren_start]. *)
Definition offered (w : world) : list Pending.t :=
  match user_data w !! "pending_orders" with
  | Some (VOrders l) => l
  | _ => []
  end.

(** Whatever [m] returns or raises, the sheet is after it what it was. *)
Definition keeps_sheet {A} (m : M A) : Prop :=
  forall w, sheet (snd (m w)) = sheet w.

(** The four fields of an order are in the session data. *)
Definition fields_present (w : world) : Prop :=
  is_Some (user_data w !! "artikel") /\ is_Some (user_data w !! "menge")
  /\ is_Some (user_data w !! "dringlichkeit")
  /\ is_Some (user_data w !! "kostenstelle").

(** The text the session data holds under a key, empty when there is
    none. *)
Definition field (w : world) (key : string) : string :=
  match user_data w !! key with
  | Some v => text_of v
  | None => ""
  end.

(** The order [save_order] makes of the session data of [w] for a chat and
    a user, at the clock of [w]. *)
Definition order_of_session {U : Py.Unicode} (chat_id : Z) (user : User.t)
           (w : world) : Order.t :=
  Order.mk (Datetime.strftime_seconds (clock w)) (full_name user) chat_id
           (field w "artikel") (field w "menge") (field w "dringlichkeit")
           (field w "kostenstelle") (field w "foto_id").

(** The answers of a user who orders without a photo and confirms. *)
Definition order_dialogue {U : Py.Unicode} (ADMIN_CHAT_ID : option string)
           (a m d k : string) (chat_id : Z) (user : User.t) : M state :=
  start ;;
  artikel a ;;
  menge m ;;
  dringlichkeit d ;;
  kostenstelle k ;;
  foto_skip ;;
  confirmation_callback ADMIN_CHAT_ID "confirm_yes" chat_id user.

(** The session holds a complete order; the five calls of the append and of
    the confirmation for the user will go through, the notification of the
    administrator will not. *)
Definition world_confirming : world :=
  World [sample_header] [true; true; true; true; true; false] sample_clock
        (<["foto_id" := VStr ""]>
           (<["kostenstelle" := VStr "Lager"]>
              (<["dringlichkeit" := VStr "Normal"]>
                 (<["menge" := VStr "2"]>
                    (<["artikel" := VStr "Toner"]> ∅)))))
        [].

(** The store is down and the chat works: the connection fails, the message
    to the user goes through. *)
Definition world_store_down : world :=
  World [sample_header; order_row "#001" order_a] [false; true] sample_clock
        (<["kostenstelle" := VStr "Lager"]>
           (<["dringlichkeit" := VStr "Normal"]>
              (<["menge" := VStr "2"]>
                 (<["artikel" := VStr "Toner"]> ∅))))
        [].

(** Sample data is run with the functions of [Py.ascii_only]. *)
Existing Instance Py.ascii_only.

(** ** Sample evaluations of the Python primitives

    The texts are ASCII: what is computed holds whatever the Python at hand
    does with other texts. *)

Section Samples.

Context {U : Py.Unicode}.

Example lower_mixed : Py.lower "Toner HP-12" = "toner hp-12".
Proof. reflexivity. Qed.

Example strip_blank : Py.strip (String (ascii_of_nat 9) "  ") = "".
Proof. reflexivity. Qed.

Example strip_inner : Py.strip "  ja  nein " = "ja  nein".
Proof. reflexivity. Qed.

Example contains_mid : Py.contains "ne" "Toner" = true.
Proof. reflexivity. Qed.

Example str_of_int_neg : Py.str_of_int (-1001234) = "-1001234".
Proof. reflexivity. Qed.

Example int_of_str_row :
  Py.int_of_str (Py.remove_all "cancel_" "cancel_17") = Some 17.
Proof. reflexivity. Qed.

Example int_of_str_word :
  Py.int_of_str (Py.remove_all "cancel_" "confirm_yes") = None.
Proof. reflexivity. Qed.

Example ordinal_2024_01_01 : Datetime.ymd2ord 2024 1 1 = 738886.
Proof. reflexivity. Qed.

Example weekday_2024_01_01 :
  Datetime.weekday (Datetime.of_fields 2024 1 1 0 0 0 0) = 0.
Proof. reflexivity. Qed.

Example weekday_2024_02_29 :
  Datetime.weekday (Datetime.of_fields 2024 2 29 12 0 0 0) = 3.
Proof. reflexivity. Qed.

Example ord2ymd_leap_day : Datetime.ord2ymd (Datetime.ymd2ord 2024 2 29) = (2024, 2, 29).
Proof. reflexivity. Qed.

Example ord2ymd_last_day : Datetime.ord2ymd (Datetime.ymd2ord 2023 12 31) = (2023, 12, 31).
Proof. reflexivity. Qed.

Example strftime_sample :
  Datetime.strftime_seconds (Datetime.of_fields 2024 3 5 9 7 2 123456)
  = "2024-03-05 09:07:02".
Proof. reflexivity. Qed.

Example strptime_sample :
  Datetime.strptime_canonical "2024-03-05 09:07:02"
  = Some (Datetime.of_fields 2024 3 5 9 7 2 0).
Proof. reflexivity. Qed.

Example strptime_bad_day : Datetime.strptime_canonical "2023-02-29 09:07:02" = None.
Proof. reflexivity. Qed.

Example strptime_words : Datetime.strptime_canonical "gestern" = None.
Proof. reflexivity. Qed.

(** ** Sample runs *)

(** The conversation ends, the sheet has one more row with an empty status
    and the number made from the count of rows before, and the session data
    is empty. *)
Example order_conversation_submits :
  fst (order_conversation fresh_world) = Ret END
  /\ sheet (snd (order_conversation fresh_world))
     = [sample_header;
        ["#001"; "2024-03-06 10:30:15"; "Max Muster"; "42"; "Toner"; "2";
         "Normal"; "Lager"; ""; ""]]
  /\ user_data (snd (order_conversation fresh_world)) = ∅
  /\ List.last (outbox (snd (order_conversation fresh_world))) Answer
     = Send ToUser (OrderSaved "#001" false).
Proof. repeat split; vm_compute; reflexivity. Qed.

(** Two pending orders of chat 42 and one of chat 77: chat 42 is shown its
    two, in the order of the sheet. *)
Example pending_of_two_chats :
  fst (get_pending_orders_for_user 42
         (World [sample_header; order_row "#001" order_a; order_row "#002" order_b;
                 order_row "#003" order_a]
                [] sample_clock ∅ []))
  = Ret [Pending.mk 2 "#001" "2024-03-06 10:30:15" "Toner" "2" "Normal" "Lager";
         Pending.mk 4 "#003" "2024-03-06 10:30:15" "Toner" "2" "Normal" "Lager"].
Proof. reflexivity. Qed.

(** A cancelled order is still found by the search, with its marker. *)
Example search_finds_cancelled :
  fst (search_orders "toner" world_cancelled)
  = Ret [Found.mk 2 "#001" "2024-03-06 10:30:15" "Max Muster" "Toner" "2"
                  "Normal" "Lager" "STORNIERT"].
Proof. reflexivity. Qed.

(** Three pending, one cancelled and two ordered rows of the week. *)
Example weekly_classes :
  fst (get_weekly_summary Datetime.strptime_canonical
         (World [sample_header;
                 row_of "#001" order_a "" "";
                 row_of "#002" order_a "ja" "2024-03-06";
                 row_of "#003" order_b "storniert" "2024-03-06 11:00";
                 row_of "#004" order_a " " "";
                 row_of "#005" order_b "" "";
                 row_of "#006" order_b "x" ""]
                [] sample_clock ∅ []))
  = Ret (Counted (Stats.mk 6 3 2 1
                    (<["Stahlhalle" := 3%nat]> (<["Lager" := 3%nat]> ∅)))).
Proof. vm_compute. reflexivity. Qed.

End Samples.
(** ** Texts *)

Lemma lstrip_blank (s : string) :
  Py.all_chars Py.isspace s = true -> Py.lstrip s = "".
Proof.
  induction s as [|c s IH]; simpl; [reflexivity|].
  intros H. apply andb_prop in H as [Hc Hs]. rewrite Hc. auto.
Qed.

Lemma strip_blank_text (s : string) :
  Py.all_chars Py.isspace s = true -> Py.strip_ascii s = "".
Proof.
  intros H. unfold Py.strip_ascii. rewrite (lstrip_blank s H). reflexivity.
Qed.

Lemma rstrip_empty (s : string) :
  Py.rstrip s = "" -> Py.all_chars Py.isspace s = true.
Proof.
  induction s as [|c s IH]; [reflexivity|]. simpl.
  destruct (Py.rstrip s) as [|d t]; [|discriminate].
  destruct (Py.isspace c); [intros _; apply IH; reflexivity | discriminate].
Qed.

Lemma lstrip_rest_blank (s : string) :
  Py.all_chars Py.isspace (Py.lstrip s) = true -> Py.all_chars Py.isspace s = true.
Proof.
  induction s as [|c s IH]; [reflexivity|]. simpl.
  destruct (Py.isspace c) eqn:E; [exact IH|].
  simpl. rewrite E. discriminate.
Qed.

(** On the ASCII range [strip] leaves nothing exactly of the texts made of
    whitespace. *)
Lemma strip_ascii_empty (s : string) :
  Py.strip_ascii s = "" <-> Py.all_chars Py.isspace s = true.
Proof.
  split; [|apply strip_blank_text].
  intros H. apply lstrip_rest_blank, rstrip_empty, H.
Qed.

Lemma all_chars_impl (p q : ascii -> bool) (s : string) :
  (forall c, p c = true -> q c = true) ->
  Py.all_chars p s = true -> Py.all_chars q s = true.
Proof.
  intros H. induction s as [|c s IH]; simpl; [reflexivity|].
  intros E. apply andb_prop in E as [Ec Es]. rewrite (H c Ec). auto.
Qed.

Section Hybrid.

Context {U : Py.Unicode}.

Lemma strip_of_ascii (s : string) :
  Py.is_ascii s = true -> Py.strip s = Py.strip_ascii s.
Proof. intros H. unfold Py.strip. rewrite H. reflexivity. Qed.

Lemma lower_of_ascii (s : string) :
  Py.is_ascii s = true -> Py.lower s = Py.lower_ascii s.
Proof. intros H. unfold Py.lower. rewrite H. reflexivity. Qed.

Lemma int_of_ascii (s : string) :
  Py.is_ascii s = true -> Py.int_of_str s = Py.int_ascii s.
Proof. intros H. unfold Py.int_of_str. rewrite H. reflexivity. Qed.

(** An ASCII text is whitespace all through exactly when nothing is left of
    it after [strip]. *)
Lemma strip_empty_of_ascii (s : string) :
  Py.is_ascii s = true ->
  Py.eqb (Py.strip s) "" = Py.all_chars Py.isspace s.
Proof.
  intros H. rewrite (strip_of_ascii s H). unfold Py.eqb.
  destruct (String.eqb_spec (Py.strip_ascii s) "") as [E | E].
  - symmetry. apply strip_ascii_empty, E.
  - destruct (Py.all_chars Py.isspace s) eqn:A; [|reflexivity].
    apply strip_ascii_empty in A. congruence.
Qed.

End Hybrid.

Lemma append_cons (c : ascii) (a b : string) :
  String c a ++ b = String c (a ++ b).
Proof. reflexivity. Qed.

Lemma append_nil (b : string) : "" ++ b = b.
Proof. reflexivity. Qed.

Lemma prefix_split (a b : string) :
  String.prefix a b = true <-> exists post, b = a ++ post.
Proof.
  revert b. induction a as [|c a IH]; intros b.
  - split; [intros _; exists b; reflexivity | intros _; destruct b; reflexivity].
  - destruct b as [|d b]; simpl.
    + split; [discriminate | intros [post H]; discriminate].
    + destruct (ascii_dec c d) as [->|Hne].
      * rewrite IH. split; intros [post H]; exists post;
          rewrite append_cons in *; congruence.
      * split; [discriminate | intros [post H]; rewrite append_cons in H; congruence].
Qed.

Lemma contains_nil (a : string) :
  Py.contains a "" = String.prefix a "" || false.
Proof. reflexivity. Qed.

Lemma contains_cons (a : string) (d : ascii) (b : string) :
  Py.contains a (String d b) = String.prefix a (String d b) || Py.contains a b.
Proof. reflexivity. Qed.

(** [needle in hay] holds exactly when [hay] is some text, then [needle],
    then some text. *)
Lemma contains_split (a b : string) :
  Py.contains a b = true <-> exists pre post, b = pre ++ a ++ post.
Proof.
  induction b as [|d b IH].
  - rewrite contains_nil, orb_false_r, prefix_split. split.
    + intros [post H]. exists "", post. exact H.
    + intros (pre & post & H). destruct pre; [eauto|discriminate].
  - rewrite contains_cons, orb_true_iff, IH, prefix_split. split.
    + intros [[post H] | (pre & post & H)].
      * exists "", post. exact H.
      * exists (String d pre), post. rewrite append_cons, H. reflexivity.
    + intros (pre & post & H). destruct pre as [|e pre].
      * left. eauto.
      * right. exists pre, post. rewrite append_cons in H. congruence.
Qed.

(** ** Lists *)

Lemma fold_collect {A B} (p : A -> bool) (f : A -> B) (l : list A) (init : list B) :
  fold_left (fun acc x => if p x then (acc ++ [f x])%list else acc) l init
  = (init ++ map f (List.filter p l))%list.
Proof.
  revert init. induction l as [|x l IH]; intros init; simpl.
  - rewrite app_nil_r. reflexivity.
  - rewrite IH. destruct (p x); simpl; [rewrite <- app_assoc|]; reflexivity.
Qed.

Lemma enumerate_lookup {A} (l : list A) (k i : Z) (x : A) :
  In (i, x) (enumerate k l) -> k <= i /\ l !! Z.to_nat (i - k) = Some x.
Proof.
  revert k. induction l as [|y l IH]; intros k; simpl; [tauto|].
  intros [H | H].
  - inversion H; subst. split; [lia|]. replace (i - i) with 0 by lia. reflexivity.
  - apply IH in H as [Hle Hl]. split; [lia|].
    replace (Z.to_nat (i - k)) with (S (Z.to_nat (i - (k + 1)))) by lia.
    exact Hl.
Qed.

Lemma enumerate_In {A} (l : list A) (k : Z) (n : nat) (x : A) :
  l !! n = Some x -> In (k + Z.of_nat n, x) (enumerate k l).
Proof.
  revert k n. induction l as [|y l IH]; intros k n; [discriminate|].
  change (enumerate k (y :: l)) with ((k, y) :: enumerate (k + 1) l).
  destruct n as [|n].
  - intros [= ->]. left. f_equal. lia.
  - intros H. right. specialize (IH (k + 1) n H).
    replace (k + Z.of_nat (S n)) with (k + 1 + Z.of_nat n) by lia. exact IH.
Qed.

Lemma enumerate_length {A} (l : list A) (k : Z) :
  length (enumerate k l) = length l.
Proof. revert k. induction l; intros k; simpl; auto. Qed.

(** The position a data row is listed with is its position in the sheet,
    counted from 1. *)
Lemma data_rows_position (s : list (list string)) (i : Z) (r : list string) :
  In (i, r) (data_rows s) <-> 2 <= i /\ s !! Z.to_nat (i - 1) = Some r.
Proof.
  unfold data_rows. split.
  - intros H. apply enumerate_lookup in H as [Hle Hl]. split; [exact Hle|].
    destruct s as [|h s]; [discriminate|]. simpl in Hl.
    replace (Z.to_nat (i - 1)) with (S (Z.to_nat (i - 2))) by lia. exact Hl.
  - intros [Hle Hl]. destruct s as [|h s]; [discriminate|].
    replace (Z.to_nat (i - 1)) with (S (Z.to_nat (i - 2))) in Hl by lia.
    simpl in *. apply (enumerate_In s 2) in Hl.
    replace (2 + Z.of_nat (Z.to_nat (i - 2))) with i in Hl by lia. exact Hl.
Qed.

(** ** Order numbers *)

Lemma length_append (a b : string) :
  String.length (a ++ b) = (String.length a + String.length b)%nat.
Proof. induction a as [|c a IH]; [reflexivity|]. rewrite append_cons. simpl. lia. Qed.

Lemma length_zeros (n : nat) : String.length (Py.zeros n) = n.
Proof. induction n; simpl; auto. Qed.

Lemma zfill_length (width : nat) (s : string) :
  String.length (Py.zfill width s) = Nat.max width (String.length s).
Proof. unfold Py.zfill. rewrite length_append, length_zeros. lia. Qed.

Lemma uint_of_zeros (n : nat) (s : string) :
  NilEmpty.uint_of_string (Py.zeros n ++ s)
  = option_map (Nat.iter n D0) (NilEmpty.uint_of_string s).
Proof.
  induction n as [|n IH].
  - rewrite append_nil. destruct (NilEmpty.uint_of_string s); reflexivity.
  - change (Py.zeros (S n)) with (String "0" (Py.zeros n)). rewrite append_cons.
    change (NilEmpty.uint_of_string (String "0" (Py.zeros n ++ s)))
      with (uint_of_char "0" (NilEmpty.uint_of_string (Py.zeros n ++ s))).
    rewrite IH. destruct (NilEmpty.uint_of_string s); reflexivity.
Qed.

Lemma of_uint_leading_zeros (n : nat) (d : uint) :
  Nat.of_uint (Nat.iter n D0 d) = Nat.of_uint d.
Proof. induction n as [|n IH]; [reflexivity|]. simpl. exact IH. Qed.

(** The digits of an order number read back as the count they were made
    from. *)
Lemma order_value_format (k : nat) :
  order_value (format_order_number k) = Some k.
Proof.
  unfold format_order_number. rewrite append_cons, append_nil.
  unfold order_value.
  assert (Hlen : (3 <= String.length (Py.zfill 3 (Py.str_of_nat k)))%nat)
    by (rewrite zfill_length; lia).
  destruct (Py.zfill 3 (Py.str_of_nat k)) as [|c t] eqn:E; [simpl in Hlen; lia|].
  rewrite <- E. unfold Py.zfill, Py.str_of_nat.
  rewrite uint_of_zeros, NilEmpty.usu. simpl.
  rewrite of_uint_leading_zeros, DecimalNat.Unsigned.of_to. reflexivity.
Qed.

(** An order number has the hash sign and at least three digits. *)
Lemma format_order_number_length (k : nat) :
  (4 <= String.length (format_order_number k))%nat.
Proof.
  unfold format_order_number. rewrite append_cons, append_nil. simpl.
  rewrite zfill_length. lia.
Qed.

Lemma format_order_number_inj (j k : nat) :
  format_order_number j = format_order_number k -> j = k.
Proof.
  intros H. apply (f_equal order_value) in H.
  rewrite !order_value_format in H. congruence.
Qed.

(** ** Running the ledger functions *)

Ltac unfold_monad :=
  cbv [try_except bind ret raise remote remote_or_raise now
       get_google_sheet Worksheet.get_all_values Worksheet.append_row
       chat set_item get_item get_item_opt clear
       set_script set_sheet set_user_data set_outbox
       script sheet clock user_data outbox].

Lemma all_ok_nil (n : nat) : all_ok n [].
Proof. unfold all_ok. destruct n; reflexivity. Qed.

Lemma all_ok_cons (n : nat) (b : bool) (l : list bool) :
  all_ok (S n) (b :: l) <-> b = true /\ all_ok n l.
Proof. unfold all_ok. simpl. rewrite andb_true_iff. destruct b; simpl; tauto. Qed.

Lemma all_ok_plus (m n : nat) (l : list bool) :
  all_ok (m + n) l <-> all_ok m l /\ all_ok n (skipn m l).
Proof.
  revert l. induction m as [|m IH]; intros l.
  - simpl. unfold all_ok at 2. simpl. tauto.
  - destruct l as [|b l].
    + simpl. split; [intros _; split; apply all_ok_nil | intros _; apply all_ok_nil].
    + change (S m + n)%nat with (S (m + n)). rewrite !all_ok_cons, IH. simpl. tauto.
Qed.

Ltac split_ok H :=
  repeat match type of H with
         | all_ok (S _) (_ :: _) => apply all_ok_cons in H as [-> H]
         end.

(** An append during which nothing fails: the order number is made from the
    number of rows, header included, and the row goes to the end of the
    sheet. *)
Lemma save_to_sheet_clean (data : Order.t) (w : world) :
  calm 4 w ->
  save_to_sheet data w
  = (Ret (true, format_order_number (length (sheet w))),
     set_script (skipn 4 (script w))
       (set_sheet (sheet w ++ [order_row (format_order_number (length (sheet w))) data]) w)).
Proof.
  destruct w as [sh sc cl ud ob]. unfold calm. simpl. intros H.
  destruct sc as [|b1 [|b2 [|b3 [|b4 sc]]]]; split_ok H; reflexivity.
Qed.

Lemma appends_from (ds : list Order.t) (w : world) :
  calm (4 * length ds) w ->
  fst (appends ds w)
  = map (fun k => (k, (true, format_order_number k)))
        (seq (length (sheet w)) (length ds)).
Proof.
  revert w. induction ds as [|d ds IH]; intros w H; [reflexivity|].
  unfold calm in H.
  replace (4 * length (d :: ds))%nat with (4 + 4 * length ds)%nat in H by (simpl; lia).
  apply all_ok_plus in H as [H4 Hrest].
  simpl. rewrite (save_to_sheet_clean d w H4).
  match goal with |- context [appends ds ?w1] => specialize (IH w1) end.
  destruct (appends ds _) as [rs w2]. simpl in *.
  rewrite IH by exact Hrest. rewrite length_app. simpl.
  replace (length (sheet w) + 1)%nat with (S (length (sheet w))) by lia.
  reflexivity.
Qed.

(** ** Order numbers of successive appends *)

(** C1, as amended: starting from a sheet that holds only the header row, N
    appends made one after the other, during which every connection and
    every round trip goes through (those of the order-number derivation
    included), all succeed, and the k-th one is given the number made from
    k, the count of rows, header included, at that moment: the numbers are
    #001, #002, ..., they read back as 1, ..., N, and have at least three
    digits. *)
Theorem appends_number_rows (h : list string) (ds : list Order.t) (w : world) :
  sheet w = [h] ->
  calm (4 * length ds) w ->
  fst (appends ds w)
  = map (fun k => (k, (true, format_order_number k))) (seq 1 (length ds))
  /\ map order_value (map number_of (fst (appends ds w)))
     = map Some (seq 1 (length ds))
  /\ Forall (fun e => (4 <= String.length (number_of e))%nat) (fst (appends ds w)).
Proof.
  intros Hsheet Hcalm.
  pose proof (appends_from ds w Hcalm) as E. rewrite Hsheet in E. simpl in E.
  rewrite E. split; [reflexivity|]. split.
  - rewrite !map_map. apply map_ext. intros k. apply order_value_format.
  - apply List.Forall_forall. intros e He. apply in_map_iff in He as (k & <- & _).
    apply format_order_number_length.
Qed.

(** Two appends on a fresh sheet, nothing failing. *)
Lemma appends_number_rows_witness :
  sheet fresh_world = [sample_header]
  /\ calm (4 * length [order_a; order_b]) fresh_world
  /\ fst (appends [order_a; order_b] fresh_world)
     = [(1%nat, (true, "#001")); (2%nat, (true, "#002"))].
Proof.
  split; [reflexivity|]. split; [reflexivity|].
  exact (proj1 (appends_number_rows sample_header [order_a; order_b] fresh_world
                  eq_refl eq_refl)).
Defined.

(** C1, as stated, fails: two appends that both report success, the second
    one without a connection for its order number, are both given #001. *)
Lemma appends_duplicate_number :
  sheet world_number_fault = [sample_header]
  /\ forallb succeeded (fst (appends [order_a; order_b] world_number_fault)) = true
  /\ map number_of (fst (appends [order_a; order_b] world_number_fault))
     = ["#001"; "#001"]
  /\ map number_of (fst (appends [order_a; order_b] world_number_fault))
     <> map format_order_number (seq 1 2).
Proof.
  split; [reflexivity|]. split; [reflexivity|]. split; [reflexivity|].
  vm_compute. discriminate.
Qed.

(** ** Appends whose order number could not be derived *)

(** C9: when the connection of the order-number derivation gives no handle,
    or its read of the rows raises, and the append is otherwise successful,
    the append reports success and the row is written at the end of the
    sheet, with #001 in the first case and #??? in the second in its first
    cell, the cell of the order number, before the fields of the order,
    whatever the sheet holds; #??? is not a number. *)
Theorem append_with_placeholder (data : Order.t) (w : world) (rest : list bool) :
  all_ok 1 rest ->
  (script w = true :: false :: rest ->
   save_to_sheet data w
   = (Ret (true, "#001"),
      set_script (skipn 1 rest)
        (set_sheet
           (sheet w
            ++ [["#001"; Order.timestamp data; Order.mitarbeiter data;
                 Py.str_of_int (Order.chat_id data); Order.artikel data;
                 Order.menge data; Order.dringlichkeit data;
                 Order.kostenstelle data; ""; ""]])
           w)))
  /\ (script w = true :: true :: false :: rest ->
      save_to_sheet data w
      = (Ret (true, "#???"),
         set_script (skipn 1 rest)
           (set_sheet
              (sheet w
               ++ [["#???"; Order.timestamp data; Order.mitarbeiter data;
                    Py.str_of_int (Order.chat_id data); Order.artikel data;
                    Order.menge data; Order.dringlichkeit data;
                    Order.kostenstelle data; ""; ""]])
              w)))
  /\ order_value "#???" = None.
Proof.
  intros H. destruct w as [sh sc cl ud ob]. simpl.
  split; [|split; [|reflexivity]]; intros ->;
    destruct rest as [|b rest]; split_ok H; reflexivity.
Qed.

(** The read of the rows for the order number raises; the sheet has one order. *)
Lemma append_with_placeholder_witness :
  all_ok 1 [true]
  /\ script (World [sample_header; order_row "#001" order_a]
                   [true; true; false; true] sample_clock ∅ [])
     = [true; true; false; true]
  /\ save_to_sheet order_b
       (World [sample_header; order_row "#001" order_a] [true; true; false; true]
              sample_clock ∅ [])
     = (Ret (true, "#???"),
        World [sample_header;
               ["#001"; "2024-03-06 10:30:15"; "Max Muster"; "42"; "Toner"; "2";
                "Normal"; "Lager"; ""; ""];
               ["#???"; "2024-03-06 10:31:40"; "Eva Beispiel"; "77";
                "Handschuhe"; "10"; "Dringend"; "Stahlhalle"; ""; ""]]
              [] sample_clock ∅ []).
Proof.
  split; [reflexivity|]. split; [reflexivity|].
  exact (proj1 (proj2 (append_with_placeholder order_b
                         (World [sample_header; order_row "#001" order_a]
                                [true; true; false; true] sample_clock ∅ [])
                         [true] eq_refl))
               eq_refl).
Defined.

(** ** Failures of the store *)

Lemma try_except_returns {A} (m : M A) (x : A) (w : world) :
  exists a w', try_except m (ret x) w = (Ret a, w').
Proof.
  unfold try_except, ret. destruct (m w) as [[a|] w']; eauto.
Qed.

Lemma first_fault_0 (l : list bool) :
  first_fault 0 l -> exists rest, l = false :: rest.
Proof.
  intros [_ H]. destruct l as [|b l]; [discriminate|].
  simpl in H. injection H as ->. eauto.
Qed.

Lemma first_fault_1 (l : list bool) :
  first_fault 1 l -> exists rest, l = true :: false :: rest.
Proof.
  intros [Hok H]. destruct l as [|b [|c l]]; try discriminate.
  split_ok Hok. simpl in H. injection H as ->. eauto.
Qed.

Lemma first_fault_2 (l : list bool) :
  first_fault 2 l -> exists rest, l = true :: true :: false :: rest.
Proof.
  intros [Hok H]. destruct l as [|b [|c [|d l]]]; try discriminate.
  split_ok Hok. simpl in H. injection H as ->. eauto.
Qed.

Ltac fault_cases k H :=
  let rest := fresh "rest" in
  match k with
  | O => apply first_fault_0 in H as [rest H]
  | S O => apply first_fault_1 in H as [rest H]
  | S (S O) => apply first_fault_2 in H as [rest H]
  end.

Lemma save_to_sheet_no_connection (data : Order.t) (w : world) :
  first_fault 0 (script w) ->
  save_to_sheet data w = (Ret (false, ""), set_script (skipn 1 (script w)) w).
Proof.
  intros H. fault_cases 0%nat H. destruct w as [sh sc cl ud ob]. simpl in *.
  subst sc. reflexivity.
Qed.

Lemma save_to_sheet_write_fails (data : Order.t) (w : world)
      (numbering rest : list bool) :
  In numbering [[false]; [true; false]; [true; true]] ->
  script w = (true :: numbering ++ false :: rest)%list ->
  fst (save_to_sheet data w) = Ret (false, "")
  /\ sheet (snd (save_to_sheet data w)) = sheet w.
Proof.
  destruct w as [sh sc cl ud ob]. simpl.
  intros [<- | [<- | [<- | []]]] ->; split; reflexivity.
Qed.

Section Faults.

Context {U : Py.Unicode}.

Lemma pending_fault (chat_id : Z) (w : world) (k : nat) :
  (k < 2)%nat -> first_fault k (script w) ->
  fst (get_pending_orders_for_user chat_id w) = Ret [].
Proof.
  intros Hk H. destruct w as [sh sc cl ud ob]. simpl in H.
  destruct k as [|[|k]]; [fault_cases 0%nat H | fault_cases 1%nat H | lia];
    subst sc; reflexivity.
Qed.

Lemma search_fault (term : string) (w : world) (k : nat) :
  (k < 2)%nat -> first_fault k (script w) ->
  fst (search_orders term w) = Ret [].
Proof.
  intros Hk H. destruct w as [sh sc cl ud ob]. simpl in H.
  destruct k as [|[|k]]; [fault_cases 0%nat H | fault_cases 1%nat H | lia];
    subst sc; reflexivity.
Qed.

Lemma weekly_fault (strptime : string -> option Datetime.t) (w : world) (k : nat) :
  (k < 2)%nat -> first_fault k (script w) ->
  fst (get_weekly_summary strptime w) = Ret Unavailable.
Proof.
  intros Hk H. destruct w as [sh sc cl ud ob]. simpl in H.
  destruct k as [|[|k]]; [fault_cases 0%nat H | fault_cases 1%nat H | lia];
    subst sc; reflexivity.
Qed.

Lemma cancel_fault (row_number : Z) (w : world) (k : nat) :
  (k < 3)%nat -> first_fault k (script w) ->
  fst (cancel_order row_number w) = Ret false.
Proof.
  intros Hk H. destruct w as [sh sc cl ud ob]. simpl in H.
  destruct k as [|[|[|k]]];
    [fault_cases 0%nat H | fault_cases 1%nat H | fault_cases 2%nat H | lia];
    subst sc; unfold cancel_order, Worksheet.update_cell; unfold_monad;
    destruct (row_number <? 1); reflexivity.
Qed.

(** C8, as amended: no ledger function lets an exception out, whatever
    fails; each returns its failure value -- (False, ""), the empty list,
    False, the empty dictionary -- when its own connection gives no handle
    or one of its own reads or writes raises.  For the append these are its
    connection and the write of the row: a failure inside the derivation of
    the order number is taken up there and does not fail the append. *)
Theorem ledger_failures_contained :
  (forall data w, exists r w', save_to_sheet data w = (Ret r, w'))
  /\ (forall chat_id w, exists r w', get_pending_orders_for_user chat_id w = (Ret r, w'))
  /\ (forall row_number w, exists r w', cancel_order row_number w = (Ret r, w'))
  /\ (forall term w, exists r w', search_orders term w = (Ret r, w'))
  /\ (forall strptime w, exists r w', get_weekly_summary strptime w = (Ret r, w'))
  /\ (forall data w,
        first_fault 0 (script w) ->
        fst (save_to_sheet data w) = Ret (false, "")
        /\ sheet (snd (save_to_sheet data w)) = sheet w)
  /\ (forall data w numbering rest,
        In numbering [[false]; [true; false]; [true; true]] ->
        script w = (true :: numbering ++ false :: rest)%list ->
        fst (save_to_sheet data w) = Ret (false, "")
        /\ sheet (snd (save_to_sheet data w)) = sheet w)
  /\ (forall chat_id w k,
        (k < 2)%nat -> first_fault k (script w) ->
        fst (get_pending_orders_for_user chat_id w) = Ret [])
  /\ (forall row_number w k,
        (k < 3)%nat -> first_fault k (script w) ->
        fst (cancel_order row_number w) = Ret false)
  /\ (forall term w k,
        (k < 2)%nat -> first_fault k (script w) ->
        fst (search_orders term w) = Ret [])
  /\ (forall strptime w k,
        (k < 2)%nat -> first_fault k (script w) ->
        fst (get_weekly_summary strptime w) = Ret Unavailable).
Proof.
  repeat split.
  - intros. apply try_except_returns.
  - intros. apply try_except_returns.
  - intros. apply try_except_returns.
  - intros. apply try_except_returns.
  - intros. apply try_except_returns.
  - rewrite save_to_sheet_no_connection by assumption. reflexivity.
  - rewrite save_to_sheet_no_connection by assumption. reflexivity.
  - eapply save_to_sheet_write_fails; eassumption.
  - eapply save_to_sheet_write_fails; eassumption.
  - intros. eapply pending_fault; eassumption.
  - intros. eapply cancel_fault; eassumption.
  - intros. eapply search_fault; eassumption.
  - intros. eapply weekly_fault; eassumption.
Qed.

End Faults.

(** The read of the rows raises while the pending orders are listed. *)
Lemma ledger_failures_contained_witness :
  (1 < 2)%nat
  /\ first_fault 1 (script world_second_call_fails)
  /\ fst (get_pending_orders_for_user 42 world_second_call_fails) = Ret [].
Proof.
  assert (H1 : (1 < 2)%nat) by (apply Nat.ltb_lt; reflexivity).
  assert (H2 : first_fault 1 (script world_second_call_fails))
    by (split; reflexivity).
  split; [exact H1|]. split; [exact H2|].
  exact (proj1 (proj2 (proj2 (proj2 (proj2 (proj2 (proj2
           (proj2 ledger_failures_contained)))))))
           42 world_second_call_fails 1%nat H1 H2).
Defined.

(** C8, as stated, fails: the connection of the order-number derivation
    gives no handle, and the append returns success with the number #001
    instead of (False, ""). *)
Lemma append_succeeds_despite_fault :
  first_fault 1 (script world_second_call_fails)
  /\ fst (save_to_sheet order_b world_second_call_fails) = Ret (true, "#001")
  /\ fst (save_to_sheet order_b world_second_call_fails) <> Ret (false, "").
Proof.
  split; [split; reflexivity|]. split; [reflexivity|]. vm_compute. discriminate.
Qed.

(** ** Pending orders and search *)

Lemma fold_collect_rows {B} (p : list string -> bool) (f : Z -> list string -> B)
      (l : list (Z * list string)) (init : list B) :
  fold_left (fun (acc : list B) '(i, r) =>
               if p r then (acc ++ [f i r])%list else acc) l init
  = (init ++ map (fun x => f (fst x) (snd x))
                 (List.filter (fun x => p (snd x)) l))%list.
Proof.
  revert init. induction l as [|[i r] l IH]; intros init; simpl.
  - rewrite app_nil_r. reflexivity.
  - rewrite IH. destruct (p r); simpl; [rewrite <- app_assoc|]; reflexivity.
Qed.

Lemma calm_or_fault (l : list bool) :
  all_ok 2 l \/ first_fault 0 l \/ first_fault 1 l.
Proof.
  destruct l as [|[] [|[] l]];
    first [ left; reflexivity
          | right; left; split; reflexivity
          | right; right; split; reflexivity ].
Qed.

Lemma short_sheet_no_data (s : list (list string)) :
  (length s <=? 1)%nat = true -> data_rows s = [].
Proof.
  intros H. apply Nat.leb_le in H.
  destruct s as [|h [|r s]]; [reflexivity | reflexivity | simpl in H; lia].
Qed.

Section PendingOrders.

Context {U : Py.Unicode}.

(** What [get_pending_orders_for_user] returns when the sheet can be read:
    the data rows that pass the test of the loop, in the order of the
    sheet, each with its position. *)
Lemma pending_result (chat_id : Z) (w : world) :
  calm 2 w ->
  get_pending_orders_for_user chat_id w
  = (Ret (map entry_of_pending
              (List.filter (fun p => is_pending_for chat_id (snd p))
                           (data_rows (sheet w)))),
     set_script (skipn 2 (script w)) w).
Proof.
  destruct w as [sh sc cl ud ob]. unfold calm. simpl. intros H.
  assert (E : forall sc',
             (if (length sh <=? 1)%nat
              then @ret (list Pending.t) []
              else ret (fold_left
                          (fun (pending : list Pending.t) '(i, r) =>
                             if is_pending_for chat_id r
                             then (pending ++ [pending_entry i r])%list
                             else pending)
                          (enumerate 2 (tl sh)) []))
               (World sh sc' cl ud ob)
             = (Ret (map entry_of_pending
                         (List.filter (fun p => is_pending_for chat_id (snd p))
                                      (data_rows sh))),
                World sh sc' cl ud ob)).
  { intros sc'. destruct (length sh <=? 1)%nat eqn:El.
    - rewrite (short_sheet_no_data sh El). reflexivity.
    - rewrite fold_collect_rows. reflexivity. }
  destruct sc as [|b1 [|b2 sc]]; split_ok H;
    unfold get_pending_orders_for_user; unfold_monad; unfold ret in E;
    rewrite E; reflexivity.
Qed.

Lemma pending_sound (chat_id : Z) (w w' : world) (l : list Pending.t) :
  get_pending_orders_for_user chat_id w = (Ret l, w') ->
  forall o, In o l ->
  exists i r, In (i, r) (data_rows (sheet w))
              /\ is_pending_for chat_id r = true
              /\ o = pending_entry i r.
Proof.
  intros E o Ho.
  destruct (calm_or_fault (script w)) as [H | [H | H]].
  - rewrite (pending_result chat_id w H) in E. injection E as <- _.
    apply in_map_iff in Ho as ([i r] & <- & Hin).
    apply filter_In in Hin as [Hin Hp]. exists i, r. auto.
  - apply (pending_fault chat_id w 0) in H; [|lia].
    rewrite E in H. simpl in H. injection H as ->. destruct Ho.
  - apply (pending_fault chat_id w 1) in H; [|lia].
    rewrite E in H. simpl in H. injection H as ->. destruct Ho.
Qed.

Lemma enumerate_snd {A} (l : list A) (k i : Z) (x : A) :
  In (i, x) (enumerate k l) -> In x l.
Proof.
  intros H. apply enumerate_lookup in H as [_ H].
  apply list_elem_of_In. eapply list_elem_of_lookup_2. exact H.
Qed.

Lemma cell_or_empty_nth (r : list string) (k : nat) :
  cell_or_empty r k = nth k r "".
Proof.
  unfold cell_or_empty. destruct (k <? length r)%nat eqn:E; [reflexivity|].
  apply Nat.ltb_ge in E. symmetry. apply nth_overflow. exact E.
Qed.

(** C2, as amended: when the sheet can be read, and its data rows have the
    cells up to the status, the list returned holds exactly the data rows
    whose chat identifier is the text of the caller's and of whose status
    [strip] leaves nothing -- the status is empty or all whitespace --, in
    the order of the sheet, each with the position of its row in the sheet
    (the first data row is row 2) and its number, timestamp, article,
    quantity, urgency and cost center. *)
Theorem pending_rows_exactly (chat_id : Z) (w : world) :
  calm 2 w ->
  Forall (fun r => (9 <= length r)%nat) (tl (sheet w)) ->
  fst (get_pending_orders_for_user chat_id w)
  = Ret (map (fun p => Pending.mk (fst p) (nth 0 (snd p) "") (nth 1 (snd p) "")
                                  (nth 4 (snd p) "") (nth 5 (snd p) "")
                                  (nth 6 (snd p) "") (nth 7 (snd p) ""))
             (List.filter
                (fun p => Py.eqb (Py.str_of_int chat_id) (nth 3 (snd p) "")
                          && Py.eqb (Py.strip (nth 8 (snd p) "")) "")
                (data_rows (sheet w))))
  /\ (forall i r, In (i, r) (data_rows (sheet w))
                  <-> 2 <= i /\ sheet w !! Z.to_nat (i - 1) = Some r).
Proof.
  intros Hcalm Hrows. split.
  - rewrite (pending_result chat_id w Hcalm). simpl. f_equal.
    change (map entry_of_pending)
      with (map (fun p : Z * list string =>
                   Pending.mk (fst p) (nth 0 (snd p) "") (nth 1 (snd p) "")
                              (nth 4 (snd p) "") (nth 5 (snd p) "")
                              (nth 6 (snd p) "") (nth 7 (snd p) ""))).
    f_equal.
    apply filter_ext_in. intros [i r] Hin. simpl.
    apply enumerate_snd in Hin. rewrite List.Forall_forall in Hrows.
    specialize (Hrows r Hin). unfold is_pending_for.
    rewrite !cell_or_empty_nth.
    apply Nat.leb_le in Hrows. rewrite Hrows. reflexivity.
  - intros i r. apply data_rows_position.
Qed.

End PendingOrders.

(** The one order of chat 42, with a blank as its status. *)
Lemma pending_rows_exactly_witness :
  calm 2 world_blank_status
  /\ Forall (fun r => (9 <= length r)%nat) (tl (sheet world_blank_status))
  /\ fst (get_pending_orders_for_user 42 world_blank_status)
     = Ret [Pending.mk 2 "#001" "2024-03-06 10:30:15" "Toner" "2" "Normal" "Lager"].
Proof.
  assert (H1 : calm 2 world_blank_status) by reflexivity.
  assert (H2 : Forall (fun r => (9 <= length r)%nat) (tl (sheet world_blank_status))).
  { repeat constructor. }
  split; [exact H1|]. split; [exact H2|].
  exact (proj1 (pending_rows_exactly 42 world_blank_status H1 H2)).
Defined.

(** C2, as stated, fails: the order in row 2 has a status that is not empty,
    a single blank, and is returned all the same. *)
Lemma pending_returns_blank_status :
  Worksheet.cell (sheet world_blank_status) 2 9 = " "
  /\ Worksheet.cell (sheet world_blank_status) 2 9 <> ""
  /\ fst (get_pending_orders_for_user 42 world_blank_status)
     = Ret [Pending.mk 2 "#001" "2024-03-06 10:30:15" "Toner" "2" "Normal" "Lager"].
Proof.
  split; [reflexivity|]. split; [vm_compute; discriminate | reflexivity].
Qed.

Section Search.

Context {U : Py.Unicode}.

Lemma search_result (term : string) (w : world) :
  calm 2 w ->
  search_orders term w
  = (Ret (firstn 10
            (map entry_of_found
                 (List.filter (fun p => matches (Py.lower term) (snd p))
                              (data_rows (sheet w))))),
     set_script (skipn 2 (script w)) w).
Proof.
  destruct w as [sh sc cl ud ob]. unfold calm. simpl. intros H.
  assert (E : forall sc',
             (if (length sh <=? 1)%nat
              then (fun w => (@Ret (list Found.t) [], w))
              else (fun w =>
                      (Ret (firstn 10
                              (fold_left
                                 (fun (results : list Found.t) '(i, r) =>
                                    if matches (Py.lower term) r
                                    then (results ++ [found_entry i r])%list
                                    else results)
                                 (enumerate 2 (tl sh)) [])), w)))
               (World sh sc' cl ud ob)
             = (Ret (firstn 10
                       (map entry_of_found
                            (List.filter (fun p => matches (Py.lower term) (snd p))
                                         (data_rows sh)))),
                World sh sc' cl ud ob)).
  { intros sc'. destruct (length sh <=? 1)%nat eqn:El.
    - rewrite (short_sheet_no_data sh El). reflexivity.
    - rewrite fold_collect_rows. reflexivity. }
  destruct sc as [|b1 [|b2 sc]]; split_ok H;
    unfold search_orders; unfold_monad; rewrite E; reflexivity.
Qed.

Lemma search_at_most_ten (term : string) (w w' : world) (l : list Found.t) :
  search_orders term w = (Ret l, w') -> (length l <= 10)%nat.
Proof.
  intros E.
  destruct (calm_or_fault (script w)) as [H | [H | H]].
  - rewrite (search_result term w H) in E. injection E as <- _.
    rewrite length_firstn. lia.
  - apply (search_fault term w 0) in H; [|lia].
    rewrite E in H. simpl in H. injection H as ->. simpl. lia.
  - apply (search_fault term w 1) in H; [|lia].
    rewrite E in H. simpl in H. injection H as ->. simpl. lia.
Qed.

(** C5, as amended: when the sheet can be read, and its data rows have the
    cells up to the cost center, the search returns the first ten, or all if
    there are fewer, of the data rows whose article, requester name or cost
    center, put in lower case, contains the term put in lower case, in the
    order of the sheet, each with the position of its row and its cells; it
    never returns more than ten, whatever the sheet. *)
Theorem search_first_ten (term : string) (w : world) :
  calm 2 w ->
  Forall (fun r => (8 <= length r)%nat) (tl (sheet w)) ->
  fst (search_orders term w)
  = Ret (firstn 10
           (map (fun p => Found.mk (fst p) (nth 0 (snd p) "") (nth 1 (snd p) "")
                                   (nth 2 (snd p) "") (nth 4 (snd p) "")
                                   (nth 5 (snd p) "") (nth 6 (snd p) "")
                                   (nth 7 (snd p) "") (nth 8 (snd p) ""))
                (List.filter
                   (fun p =>
                      Py.contains (Py.lower term) (Py.lower (nth 4 (snd p) ""))
                      || Py.contains (Py.lower term) (Py.lower (nth 2 (snd p) ""))
                      || Py.contains (Py.lower term) (Py.lower (nth 7 (snd p) "")))
                   (data_rows (sheet w)))))
  /\ (forall i r, In (i, r) (data_rows (sheet w))
                  <-> 2 <= i /\ sheet w !! Z.to_nat (i - 1) = Some r)
  /\ (forall w0 l w', search_orders term w0 = (Ret l, w') -> (length l <= 10)%nat).
Proof.
  intros Hcalm Hrows. split; [|split].
  - rewrite (search_result term w Hcalm). simpl. do 2 f_equal.
    transitivity
      (map (fun p : Z * list string =>
              Found.mk (fst p) (nth 0 (snd p) "") (nth 1 (snd p) "")
                       (nth 2 (snd p) "") (nth 4 (snd p) "") (nth 5 (snd p) "")
                       (nth 6 (snd p) "") (nth 7 (snd p) "") (nth 8 (snd p) ""))
           (List.filter (fun p => matches (Py.lower term) (snd p))
                        (data_rows (sheet w)))).
    { apply map_ext. intros [i r]. unfold entry_of_found, found_entry. simpl.
      rewrite cell_or_empty_nth. reflexivity. }
    f_equal.
    apply filter_ext_in. intros [i r] Hin. simpl.
    apply enumerate_snd in Hin. rewrite List.Forall_forall in Hrows.
    specialize (Hrows r Hin). unfold matches.
    rewrite !cell_or_empty_nth.
    apply Nat.leb_le in Hrows. rewrite Hrows. reflexivity.
  - intros i r. apply data_rows_position.
  - intros w0 l w'. apply search_at_most_ten.
Qed.

End Search.

(** A term in capitals finds the gloves of the second order. *)
Lemma search_first_ten_witness :
  calm 2 world_two_orders
  /\ Forall (fun r => (8 <= length r)%nat) (tl (sheet world_two_orders))
  /\ fst (search_orders "HANDSCH" world_two_orders)
     = Ret [Found.mk 3 "#002" "2024-03-06 10:31:40" "Eva Beispiel" "Handschuhe"
                     "10" "Dringend" "Stahlhalle" ""].
Proof.
  assert (H1 : calm 2 world_two_orders) by reflexivity.
  assert (H2 : Forall (fun r => (8 <= length r)%nat) (tl (sheet world_two_orders))).
  { repeat constructor. }
  split; [exact H1|]. split; [exact H2|].
  exact (proj1 (search_first_ten "HANDSCH" world_two_orders H1 H2)).
Defined.

(** C5, as stated, fails: the order in row 2 of a sheet that has no column
    for the cost center has the term in its article, and is not returned. *)
Lemma search_skips_narrow_row :
  sheet world_narrow_sheet !! 1%nat
  = Some ["#001"; "2024-03-06 10:30:15"; "Max Muster"; "42"; "Toner"; "2";
          "Normal"]
  /\ Py.contains (Py.lower "toner") (Py.lower "Toner") = true
  /\ search_orders "toner" world_narrow_sheet = (Ret [], world_narrow_sheet)
  /\ search_orders "Max" world_narrow_sheet = (Ret [], world_narrow_sheet).
Proof. repeat split; reflexivity. Qed.

Section SearchTerm.

Context {U : Py.Unicode}.

(** The search sees a term through its lower-case form only. *)
Lemma search_case_blind (t1 t2 : string) (w : world) :
  Py.lower t1 = Py.lower t2 -> search_orders t1 w = search_orders t2 w.
Proof. intros H. unfold search_orders. rewrite H. reflexivity. Qed.

End SearchTerm.

Lemma lower_upper_char (c : ascii) :
  Py.lower_char (Py.upper_char c) = Py.lower_char c.
Proof. destruct c as [[] [] [] [] [] [] [] []]; reflexivity. Qed.

Lemma lower_upper (s : string) :
  Py.lower_ascii (Py.upper_ascii s) = Py.lower_ascii s.
Proof.
  induction s as [|c s IH]; [reflexivity|].
  unfold Py.lower_ascii, Py.upper_ascii in *. simpl.
  rewrite lower_upper_char, IH. reflexivity.
Qed.

(** ** Writing cells *)

Lemma nth_pad {A} (n k : nat) (x : A) (l : list A) :
  nth k (Worksheet.pad n x l) x = nth k l x.
Proof.
  unfold Worksheet.pad. destruct (Nat.lt_ge_cases k (length l)) as [H | H].
  - apply app_nth1. exact H.
  - rewrite app_nth2 by exact H. rewrite (nth_overflow l x H).
    rewrite !nth_lookup. destruct (replicate _ x !! _) as [y|] eqn:E; [|reflexivity].
    apply lookup_replicate in E as [-> _]. reflexivity.
Qed.

Lemma length_pad {A} (n : nat) (x : A) (l : list A) :
  (n <= length (Worksheet.pad n x l))%nat.
Proof. unfold Worksheet.pad. rewrite length_app, length_replicate. lia. Qed.

Lemma nth_insert_same {A} (i : nat) (y d : A) (l : list A) :
  (i < length l)%nat -> nth i (<[i := y]> l) d = y.
Proof. intros H. rewrite nth_lookup, list_lookup_insert_eq by exact H. reflexivity. Qed.

Lemma nth_insert_other {A} (i k : nat) (y d : A) (l : list A) :
  i <> k -> nth k (<[i := y]> l) d = nth k l d.
Proof. intros H. rewrite !nth_lookup, list_lookup_insert_ne by exact H. reflexivity. Qed.

Lemma write_same (s : list (list string)) (i j : nat) (v : string) :
  nth j (nth i (Worksheet.write s i j v) []) "" = v.
Proof.
  unfold Worksheet.write.
  rewrite nth_insert_same by (pose proof (length_pad (S i) ([] : list string) s); lia).
  apply nth_insert_same. pose proof (length_pad (S j) "" (nth i (Worksheet.pad (S i) [] s) [])). lia.
Qed.

Lemma write_other (s : list (list string)) (i j i' j' : nat) (v : string) :
  (i', j') <> (i, j) ->
  nth j' (nth i' (Worksheet.write s i j v) []) ""
  = nth j' (nth i' s []) "".
Proof.
  intros Hne. unfold Worksheet.write.
  destruct (Nat.eq_dec i i') as [<- | Hi].
  - rewrite nth_insert_same by (pose proof (length_pad (S i) ([] : list string) s); lia).
    rewrite nth_insert_other by congruence.
    rewrite !nth_pad. reflexivity.
  - rewrite nth_insert_other by exact Hi. rewrite nth_pad. reflexivity.
Qed.

Lemma cell_write_same (s : list (list string)) (r c : Z) (v : string) :
  1 <= r -> 1 <= c ->
  Worksheet.cell (Worksheet.write s (Z.to_nat (r - 1)) (Z.to_nat (c - 1)) v) r c = v.
Proof.
  intros Hr Hc. unfold Worksheet.cell.
  destruct (Z.leb_spec 1 r); [|lia]. destruct (Z.leb_spec 1 c); [|lia]. simpl.
  apply write_same.
Qed.

Lemma cell_write_other (s : list (list string)) (r c r' c' : Z) (v : string) :
  1 <= r -> 1 <= c -> (r', c') <> (r, c) ->
  Worksheet.cell (Worksheet.write s (Z.to_nat (r - 1)) (Z.to_nat (c - 1)) v) r' c'
  = Worksheet.cell s r' c'.
Proof.
  intros Hr Hc Hne. unfold Worksheet.cell.
  destruct (Z.leb_spec 1 r'); [|reflexivity].
  destruct (Z.leb_spec 1 c'); [|reflexivity]. simpl.
  apply write_other. intros [= E1 E2]. apply Hne. f_equal; lia.
Qed.

(** ** Cancelling *)

(** A cancellation that returns [True] has written its two cells, and
    nothing else has happened to the world but the three remote calls. *)
Lemma cancel_order_true (row_number : Z) (w w' : world) :
  cancel_order row_number w = (Ret true, w') ->
  1 <= row_number
  /\ w' = set_script (skipn 3 (script w))
            (set_sheet
               (Worksheet.write
                  (Worksheet.write (sheet w) (Z.to_nat (row_number - 1))
                                   (Z.to_nat (9 - 1)) "STORNIERT")
                  (Z.to_nat (row_number - 1)) (Z.to_nat (10 - 1))
                  (Datetime.strftime_minutes (clock w)))
               w).
Proof.
  destruct w as [sh sc cl ud ob].
  unfold cancel_order, Worksheet.update_cell. unfold_monad.
  destruct (Z.ltb_spec row_number 1) as [Hlt | Hge]; simpl.
  - destruct sc as [|[] sc]; discriminate.
  - destruct sc as [|[] [|[] [|[] sc]]]; intros E; try discriminate;
      injection E as <-; (split; [lia | reflexivity]).
Qed.

(** The cells of the sheet after a cancellation that returned [True]. *)
Lemma cancel_order_cells (row_number : Z) (w w' : world) :
  cancel_order row_number w = (Ret true, w') ->
  Worksheet.cell (sheet w') row_number 9 = "STORNIERT"
  /\ Worksheet.cell (sheet w') row_number 10 = Datetime.strftime_minutes (clock w)
  /\ (forall r c,
        (r, c) <> (row_number, 9) -> (r, c) <> (row_number, 10) ->
        Worksheet.cell (sheet w') r c = Worksheet.cell (sheet w) r c).
Proof.
  intros E. apply cancel_order_true in E as [Hr ->]. simpl.
  split; [|split].
  - rewrite cell_write_other by (lia || congruence).
    apply cell_write_same; lia.
  - apply cell_write_same; lia.
  - intros r c H9 H10.
    rewrite cell_write_other by (lia || assumption).
    apply cell_write_other; (lia || assumption).
Qed.

(** C3: a cancellation that succeeds leaves the cancelled marker in the
    status cell of the row and the time of the clock, to the minute, in the
    cell after it; every other cell of the sheet, in that row or in another
    one, reads as before, and so does the session data. *)
Theorem cancel_order_frame (row_number : Z) (w w' : world) :
  cancel_order row_number w = (Ret true, w') ->
  Worksheet.cell (sheet w') row_number 9 = "STORNIERT"
  /\ Worksheet.cell (sheet w') row_number 10 = Datetime.strftime_minutes (clock w)
  /\ (forall r c,
        (r, c) <> (row_number, 9) -> (r, c) <> (row_number, 10) ->
        Worksheet.cell (sheet w') r c = Worksheet.cell (sheet w) r c)
  /\ user_data w' = user_data w.
Proof.
  intros E. pose proof (cancel_order_cells row_number w w' E) as (H9 & H10 & Hrest).
  repeat (split; [assumption|]).
  apply cancel_order_true in E as [_ ->]. reflexivity.
Qed.

(** The order in row 2 of two is cancelled at 10:30. *)
Lemma cancel_order_frame_witness :
  cancel_order 2 world_two_orders = (Ret true, world_cancelled)
  /\ Worksheet.cell (sheet world_cancelled) 2 9 = "STORNIERT"
  /\ Worksheet.cell (sheet world_cancelled) 2 10 = "2024-03-06 10:30".
Proof.
  assert (E : cancel_order 2 world_two_orders = (Ret true, world_cancelled))
    by reflexivity.
  split; [exact E|].
  destruct (cancel_order_frame 2 world_two_orders world_cancelled E)
    as (H9 & H10 & _).
  split; [exact H9 | exact H10].
Defined.

Lemma data_row_cell (s : list (list string)) (i : Z) (r : list string) (c : Z) :
  In (i, r) (data_rows s) -> 1 <= c ->
  Worksheet.cell s i c = nth (Z.to_nat (c - 1)) r "".
Proof.
  intros Hin Hc. apply data_rows_position in Hin as [Hi Hl].
  unfold Worksheet.cell.
  destruct (Z.leb_spec 1 i); [|lia]. destruct (Z.leb_spec 1 c); [|lia]. simpl.
  rewrite (nth_lookup s), Hl. reflexivity.
Qed.

Section Cancelled.

Context {U : Py.Unicode}.

(** C4: once a cancellation of a row has succeeded, and as long as the
    status cell of that row reads what the cancellation left there, no list
    of pending orders, for whatever chat identifier, has an entry with the
    position of that row. *)
Theorem cancelled_row_not_pending (row_number : Z) (w w' : world) :
  cancel_order row_number w = (Ret true, w') ->
  forall (chat_id : Z) (later later' : world) (l : list Pending.t),
    Worksheet.cell (sheet later) row_number 9 = Worksheet.cell (sheet w') row_number 9 ->
    get_pending_orders_for_user chat_id later = (Ret l, later') ->
    forall o, In o l -> Pending.row o <> row_number.
Proof.
  intros E chat_id later later' l Hcell Hl o Ho Hrow.
  apply cancel_order_cells in E as (Hst & _).
  rewrite Hst in Hcell.
  destruct (pending_sound chat_id later later' l Hl o Ho) as (i & r & Hin & Hp & ->).
  simpl in Hrow. subst i.
  rewrite (data_row_cell _ _ _ 9 Hin) in Hcell by lia.
  change (Z.to_nat (9 - 1)) with 8%nat in Hcell.
  unfold is_pending_for in Hp. rewrite !cell_or_empty_nth, Hcell in Hp.
  rewrite andb_true_iff in Hp. destruct Hp as [_ Hp]. discriminate Hp.
Qed.

End Cancelled.

(** Row 2 is cancelled; later chat 42 has one pending order, in row 4. *)
Lemma cancelled_row_not_pending_witness :
  cancel_order 2 world_two_orders = (Ret true, world_cancelled)
  /\ Worksheet.cell (sheet world_cancelled_later) 2 9
     = Worksheet.cell (sheet world_cancelled) 2 9
  /\ get_pending_orders_for_user 42 world_cancelled_later
     = (Ret [Pending.mk 4 "#003" "2024-03-06 10:30:15" "Toner" "2" "Normal" "Lager"],
        world_cancelled_later)
  /\ forall o,
       In o [Pending.mk 4 "#003" "2024-03-06 10:30:15" "Toner" "2" "Normal" "Lager"] ->
       Pending.row o <> 2.
Proof.
  assert (E : cancel_order 2 world_two_orders = (Ret true, world_cancelled))
    by reflexivity.
  assert (C : Worksheet.cell (sheet world_cancelled_later) 2 9
              = Worksheet.cell (sheet world_cancelled) 2 9) by reflexivity.
  assert (P : get_pending_orders_for_user 42 world_cancelled_later
              = (Ret [Pending.mk 4 "#003" "2024-03-06 10:30:15" "Toner" "2"
                                 "Normal" "Lager"],
                 world_cancelled_later)) by reflexivity.
  split; [exact E|]. split; [exact C|]. split; [exact P|].
  exact (cancelled_row_not_pending 2 world_two_orders world_cancelled E 42
           world_cancelled_later world_cancelled_later _ C P).
Defined.

(** ** The weekly summary *)

Lemma leb_lex (a b : Datetime.t) :
  Datetime.leb a b = true <->
  (Datetime.ordinal a < Datetime.ordinal b
   \/ Datetime.ordinal a = Datetime.ordinal b
      /\ (Datetime.hour a < Datetime.hour b
          \/ Datetime.hour a = Datetime.hour b
             /\ (Datetime.minute a < Datetime.minute b
                 \/ Datetime.minute a = Datetime.minute b
                    /\ (Datetime.second a < Datetime.second b
                        \/ Datetime.second a = Datetime.second b
                           /\ Datetime.microsecond a <= Datetime.microsecond b)))).
Proof.
  unfold Datetime.leb.
  repeat match goal with
         | |- context [?x <? ?y] => destruct (Z.ltb_spec x y)
         end;
    rewrite ?Z.leb_le; split; (lia || discriminate || (intros _; lia) || idtac).
Qed.

(** The beginning of the window in the words of the specification is a
    Monday, the last one that is not after the day of the clock. *)
Lemma monday_midnight_is_monday (today : Datetime.t) :
  Datetime.weekday (monday_midnight today) = 0
  /\ Datetime.ordinal today - 6 <= Datetime.ordinal (monday_midnight today)
     <= Datetime.ordinal today.
Proof.
  unfold monday_midnight, Datetime.weekday. simpl.
  pose proof (Z.mod_pos_bound (Datetime.ordinal today + 6) 7 ltac:(lia)) as Hb.
  split; [|lia].
  pose proof (Z.div_mod (Datetime.ordinal today + 6) 7 ltac:(lia)) as Hd.
  replace (Datetime.ordinal today - (Datetime.ordinal today + 6) mod 7 + 6)
    with (((Datetime.ordinal today + 6) / 7) * 7) by lia.
  apply Z.mod_mul. lia.
Qed.

(** What the code takes as the start of the week lies between Monday
    00:00:00 and Monday 00:00:01. *)
Lemma week_start_between (today d : Datetime.t) :
  0 <= Datetime.microsecond today ->
  (Datetime.geb d (week_start_of today) = true ->
   Datetime.leb (monday_midnight today) d = true)
  /\ (Datetime.leb (monday_first_second today) d = true ->
      Datetime.geb d (week_start_of today) = true).
Proof.
  intros Hus. unfold Datetime.geb. rewrite !leb_lex.
  unfold week_start_of, monday_midnight, monday_first_second,
    Datetime.sub_days, Datetime.replace_hms. simpl.
  split; lia.
Qed.

Section WeeklyCounts.

Context {U : Py.Unicode}.

Lemma tally_total (strptime : string -> option Datetime.t) (ws : Datetime.t)
      (l : list (list string)) (acc : Stats.t) :
  Stats.total (fold_left (tally strptime ws) l acc)
  = (Stats.total acc + length (List.filter (in_week strptime ws) l))%nat.
Proof.
  revert acc. induction l as [|r l IH]; intros acc; simpl; [lia|].
  rewrite IH. unfold tally. destruct (in_week strptime ws r); simpl; lia.
Qed.

(** Every row counted falls in one of the three classes. *)
Lemma tally_classes (strptime : string -> option Datetime.t) (ws : Datetime.t)
      (l : list (list string)) (acc : Stats.t) :
  (Stats.pending acc + Stats.ordered acc + Stats.cancelled acc = Stats.total acc)%nat ->
  let s := fold_left (tally strptime ws) l acc in
  (Stats.pending s + Stats.ordered s + Stats.cancelled s = Stats.total s)%nat.
Proof.
  revert acc. induction l as [|r l IH]; intros acc H; simpl; [exact H|].
  apply IH. unfold tally. destruct (in_week strptime ws r); [|exact H]. simpl.
  destruct (Py.eqb _ ""); [lia|]. destruct (Py.eqb _ "STORNIERT"); lia.
Qed.

Lemma weekly_result (strptime : string -> option Datetime.t) (w : world) :
  calm 2 w ->
  get_weekly_summary strptime w
  = (Ret (if (length (sheet w) <=? 1)%nat then NoOrders
          else Counted (fold_left (tally strptime (week_start_of (clock w)))
                                  (tl (sheet w)) (Stats.mk 0 0 0 0 ∅))),
     set_script (skipn 2 (script w)) w).
Proof.
  destruct w as [sh sc cl ud ob]. unfold calm. simpl. intros H.
  destruct sc as [|b1 [|b2 sc]]; split_ok H;
    unfold get_weekly_summary; unfold_monad;
    destruct (length sh <=? 1)%nat; reflexivity.
Qed.

(** C6, as amended: when the sheet can be read, and its data rows have the
    cells up to the status, the total of the summary is the number of data
    rows that pass the guard of the loop.  A row passes it only if its
    timestamp parses and is not before Monday 00:00:00 of the week of the
    clock, and passes it whenever its timestamp parses and is not before
    Monday 00:00:01, be it later than the clock; a row whose timestamp does
    not parse does not pass, and nothing is raised. *)
Theorem weekly_counts_rows (strptime : string -> option Datetime.t) (w : world) :
  calm 2 w ->
  Datetime.valid (clock w) ->
  Forall (fun r => (9 <= length r)%nat) (tl (sheet w)) ->
  exists s w',
    get_weekly_summary strptime w = (Ret s, w')
    /\ total_of s
       = length (List.filter (in_week strptime (week_start_of (clock w)))
                             (tl (sheet w)))
    /\ forall r, In r (tl (sheet w)) ->
         (in_week strptime (week_start_of (clock w)) r = true ->
          exists d, strptime (nth 1 r "") = Some d
                    /\ Datetime.leb (monday_midnight (clock w)) d = true)
         /\ (forall d, strptime (nth 1 r "") = Some d ->
                       Datetime.leb (monday_first_second (clock w)) d = true ->
                       in_week strptime (week_start_of (clock w)) r = true)
         /\ (strptime (nth 1 r "") = None ->
             in_week strptime (week_start_of (clock w)) r = false).
Proof.
  intros Hcalm Hvalid Hrows.
  eexists _, _. split; [apply (weekly_result strptime w Hcalm)|]. split.
  - destruct (length (sheet w) <=? 1)%nat eqn:El.
    + apply short_sheet_no_data in El. unfold data_rows in El.
      destruct (tl (sheet w)); [reflexivity|discriminate].
    + simpl. rewrite tally_total. reflexivity.
  - intros r Hin. rewrite List.Forall_forall in Hrows.
    specialize (Hrows r Hin). apply Nat.leb_le in Hrows.
    assert (Hus : 0 <= Datetime.microsecond (clock w)) by (destruct Hvalid; lia).
    unfold in_week. rewrite Hrows. simpl.
    destruct (strptime (nth 1 r "")) as [d|].
    + destruct (week_start_between (clock w) d Hus) as [Hlo Hhi].
      split; [|split].
      * intros H. exists d. auto.
      * intros d' [= <-]. exact Hhi.
      * discriminate.
    + split; [discriminate|]. split; [discriminate|reflexivity].
Qed.

End WeeklyCounts.

(** Two orders of the day of the clock. *)
Lemma weekly_counts_rows_witness :
  calm 2 world_two_orders
  /\ Datetime.valid (clock world_two_orders)
  /\ Forall (fun r => (9 <= length r)%nat) (tl (sheet world_two_orders))
  /\ exists s w',
       get_weekly_summary Datetime.strptime_canonical world_two_orders = (Ret s, w')
       /\ total_of s = 2%nat.
Proof.
  assert (H1 : calm 2 world_two_orders) by reflexivity.
  assert (H2 : Datetime.valid (clock world_two_orders)).
  { repeat split; apply Z.leb_le || apply Z.ltb_lt; reflexivity. }
  assert (H3 : Forall (fun r => (9 <= length r)%nat) (tl (sheet world_two_orders))).
  { repeat constructor. }
  split; [exact H1|]. split; [exact H2|]. split; [exact H3|].
  destruct (weekly_counts_rows Datetime.strptime_canonical world_two_orders H1 H2 H3)
    as (s & w' & E & Ht & _).
  exists s, w'. split; [exact E|]. rewrite Ht. reflexivity.
Defined.

(** C6, as stated, fails: the order of world_future_order is stamped three
    days after the clock, outside the window that ends at the clock, and
    is counted. *)
Lemma weekly_counts_future_order :
  Datetime.strptime_canonical "2024-03-09 12:00:00"
  = Some (Datetime.of_fields 2024 3 9 12 0 0 0)
  /\ Datetime.leb (Datetime.of_fields 2024 3 9 12 0 0 0) (clock world_future_order)
     = false
  /\ fst (get_weekly_summary Datetime.strptime_canonical world_future_order)
     = Ret (Counted (Stats.mk 1 1 0 0 (<["Lager" := 1%nat]> ∅))).
Proof. repeat split; vm_compute; reflexivity. Qed.

Section MondayMidnight.

Context {U : Py.Unicode}.

(** The start of the week keeps the microseconds of the clock: an order
    stamped Monday 00:00:00 is left out when the clock shows a fraction of
    a second, and is counted when it shows none. *)
Example weekly_skips_monday_midnight :
  fst (get_weekly_summary Datetime.strptime_canonical world_monday_order)
  = Ret (Counted (Stats.mk 0 0 0 0 ∅))
  /\ fst (get_weekly_summary Datetime.strptime_canonical
            (World (sheet world_monday_order) []
                   (Datetime.of_fields 2024 3 6 10 30 15 0) ∅ []))
     = Ret (Counted (Stats.mk 1 1 0 0 (<["Lager" := 1%nat]> ∅))).
Proof. split; vm_compute; reflexivity. Qed.

End MondayMidnight.

(** ** A status made of whitespace *)

Lemma enumerate_append {A} (l1 l2 : list A) (k : Z) :
  enumerate k (l1 ++ l2)
  = (enumerate k l1 ++ enumerate (k + Z.of_nat (length l1)) l2)%list.
Proof.
  revert k. induction l1 as [|x l1 IH]; intros k.
  - simpl. f_equal. lia.
  - change (enumerate k ((x :: l1) ++ l2))
      with ((k, x) :: enumerate (k + 1) (l1 ++ l2)).
    rewrite IH. change (length (x :: l1)) with (S (length l1)).
    rewrite Nat2Z.inj_succ.
    replace (k + 1 + Z.of_nat (length l1)) with (k + Z.succ (Z.of_nat (length l1)))
      by lia.
    reflexivity.
Qed.

Lemma space_is_ascii (c : ascii) :
  Py.isspace c = true -> Py.is_ascii_char c = true.
Proof. destruct c as [[] [] [] [] [] [] [] []]; (discriminate || reflexivity). Qed.

Section Blank.

Context {U : Py.Unicode}.

Lemma blank_status_strip (r : list string) :
  blank_status r = true -> (9 <= length r)%nat /\ Py.strip (nth 8 r "") = "".
Proof.
  unfold blank_status. intros H. apply andb_prop in H as [Hl H].
  apply Nat.leb_le in Hl. split; [exact Hl|].
  unfold Py.eqb in H. apply String.eqb_eq in H. exact H.
Qed.

(** A status cell of ASCII whitespace is such a cell. *)
Lemma blank_status_ascii (r : list string) :
  (9 <= length r)%nat ->
  Py.all_chars Py.isspace (nth 8 r "") = true ->
  blank_status r = true.
Proof.
  intros Hl Hs. unfold blank_status.
  apply Nat.leb_le in Hl. rewrite Hl. simpl.
  rewrite strip_empty_of_ascii; [exact Hs|].
  unfold Py.is_ascii. eapply all_chars_impl; [apply space_is_ascii | exact Hs].
Qed.

Lemma emptied_cell_length (r : list string) :
  length (<[8%nat := ""]> r) = length r.
Proof. apply length_insert. Qed.

Lemma emptied_cell_nth (r : list string) (k : nat) :
  k <> 8%nat -> nth k (<[8%nat := ""]> r) "" = nth k r "".
Proof. intros H. apply nth_insert_other. congruence. Qed.

Lemma emptied_cell_status (r : list string) :
  blank_status r = true ->
  Py.strip (nth 8 (<[8%nat := ""]> r) "") = Py.strip (nth 8 r "").
Proof.
  intros H. apply blank_status_strip in H as [Hl ->].
  rewrite nth_insert_same by lia. reflexivity.
Qed.

Lemma emptied_cell_is_pending (chat_id : Z) (r : list string) :
  blank_status r = true ->
  is_pending_for chat_id (<[8%nat := ""]> r) = is_pending_for chat_id r.
Proof.
  intros H. unfold is_pending_for.
  rewrite !cell_or_empty_nth, emptied_cell_length, (emptied_cell_status r H).
  rewrite emptied_cell_nth by lia. reflexivity.
Qed.

Lemma emptied_cell_entry (i : Z) (r : list string) :
  pending_entry i (<[8%nat := ""]> r) = pending_entry i r.
Proof. unfold pending_entry. rewrite !emptied_cell_nth by lia. reflexivity. Qed.

Lemma emptied_cell_tally (strptime : string -> option Datetime.t)
      (ws : Datetime.t) (acc : Stats.t) (r : list string) :
  blank_status r = true ->
  tally strptime ws acc (<[8%nat := ""]> r) = tally strptime ws acc r.
Proof.
  intros H. unfold tally, in_week.
  rewrite emptied_cell_length, (emptied_cell_status r H).
  rewrite !emptied_cell_nth by lia. reflexivity.
Qed.

(** A row of the week with such a status is one more pending order. *)
Lemma tally_blank (strptime : string -> option Datetime.t) (ws : Datetime.t)
      (acc : Stats.t) (r : list string) :
  blank_status r = true ->
  in_week strptime ws r = true ->
  one_more_pending (tally strptime ws acc r) acc.
Proof.
  intros Hb Hw. apply blank_status_strip in Hb as [_ Hb].
  unfold tally. rewrite Hw, Hb. unfold one_more_pending. simpl.
  repeat split; lia.
Qed.

Lemma tally_one_more (strptime : string -> option Datetime.t) (ws : Datetime.t)
      (l : list (list string)) (a b : Stats.t) :
  one_more_pending a b ->
  one_more_pending (fold_left (tally strptime ws) l a)
                   (fold_left (tally strptime ws) l b).
Proof.
  revert a b. induction l as [|r l IH]; intros a b H; [exact H|]. simpl.
  apply IH. destruct H as (Ht & Hp & Ho & Hc).
  unfold tally, one_more_pending. destruct (in_week strptime ws r); simpl.
  - destruct (Py.eqb _ ""); [repeat split; lia|].
    destruct (Py.eqb _ "STORNIERT"); repeat split; lia.
  - repeat split; assumption.
Qed.

(** The pending orders of a chat on a sheet one of whose rows is pending for
    it: what the rows before give, the row, what the rows after give. *)
Lemma pending_around (chat_id : Z) (w : world) (h : list string)
      (before : list (list string)) (r : list string) (after : list (list string)) :
  calm 2 w ->
  sheet w = h :: (before ++ r :: after)%list ->
  is_pending_for chat_id r = true ->
  fst (get_pending_orders_for_user chat_id w)
  = Ret (map entry_of_pending
             (List.filter (fun p => is_pending_for chat_id (snd p))
                          (enumerate 2 before))
         ++ pending_entry (Z.of_nat (length before) + 2) r
         :: map entry_of_pending
              (List.filter (fun p => is_pending_for chat_id (snd p))
                 (enumerate (2 + Z.of_nat (length before) + 1) after)))%list.
Proof.
  intros Hcalm Hs Hp. rewrite (pending_result chat_id w Hcalm), Hs. simpl.
  unfold data_rows. simpl. rewrite enumerate_append. simpl.
  rewrite List.filter_app, map_app. simpl. rewrite Hp. simpl.
  unfold entry_of_pending at 2. simpl.
  replace (2 + Z.of_nat (length before)) with (Z.of_nat (length before) + 2) by lia.
  reflexivity.
Qed.

Lemma weekly_around (strptime : string -> option Datetime.t) (w : world)
      (h : list string) (before : list (list string)) (r : list string)
      (after : list (list string)) :
  calm 2 w ->
  sheet w = h :: (before ++ r :: after)%list ->
  fst (get_weekly_summary strptime w)
  = Ret (Counted
           (fold_left (tally strptime (week_start_of (clock w))) after
              (tally strptime (week_start_of (clock w))
                 (fold_left (tally strptime (week_start_of (clock w))) before
                            (Stats.mk 0 0 0 0 ∅))
                 r))).
Proof.
  intros Hcalm Hs. rewrite (weekly_result strptime w Hcalm), Hs. simpl.
  assert (E : (length (before ++ r :: after) <=? 0)%nat = false).
  { apply Nat.leb_gt. rewrite length_app. simpl. lia. }
  rewrite E, fold_left_app. reflexivity.
Qed.

Lemma weekly_without (strptime : string -> option Datetime.t) (w : world)
      (h : list string) (rows : list (list string)) :
  calm 2 w ->
  exists s,
    fst (get_weekly_summary strptime (set_sheet (h :: rows) w)) = Ret s
    /\ counters s
       = fold_left (tally strptime (week_start_of (clock w))) rows
                   (Stats.mk 0 0 0 0 ∅).
Proof.
  intros Hcalm.
  rewrite (weekly_result strptime (set_sheet (h :: rows) w)) by exact Hcalm.
  simpl. destruct rows as [|r rows]; simpl; eexists; split; reflexivity.
Qed.

(** C10: a row whose status cell holds nothing but whitespace is treated as
    if the cell were empty.  When the sheet can be read, the row is returned
    to the chat it belongs to among its pending orders, with its position
    and its fields, and the list is the one returned for the sheet in which
    the cell is emptied; the weekly summary is the one of that sheet as
    well, and when the row falls in the week the summary counts it as
    pending: against the summary of the sheet without the row, the total
    and the pending orders are one more, the ordered and the cancelled ones
    as many. *)
Theorem blank_status_is_pending (strptime : string -> option Datetime.t)
        (chat_id : Z) (w : world) (h : list string)
        (before : list (list string)) (r : list string)
        (after : list (list string)) :
  calm 2 w ->
  sheet w = h :: (before ++ r :: after)%list ->
  blank_status r = true ->
  Py.str_of_int chat_id = nth 3 r "" ->
  (exists l1 l2,
     fst (get_pending_orders_for_user chat_id w)
     = Ret (l1 ++ Pending.mk (Z.of_nat (length before) + 2) (nth 0 r "")
                             (nth 1 r "") (nth 4 r "") (nth 5 r "") (nth 6 r "")
                             (nth 7 r "") :: l2)%list)
  /\ fst (get_pending_orders_for_user chat_id w)
     = fst (get_pending_orders_for_user chat_id
              (set_sheet (h :: before ++ <[8%nat := ""]> r :: after)%list w))
  /\ fst (get_weekly_summary strptime w)
     = fst (get_weekly_summary strptime
              (set_sheet (h :: before ++ <[8%nat := ""]> r :: after)%list w))
  /\ (in_week strptime (week_start_of (clock w)) r = true ->
      exists s s',
        fst (get_weekly_summary strptime w) = Ret (Counted s)
        /\ fst (get_weekly_summary strptime
                  (set_sheet (h :: before ++ after)%list w)) = Ret s'
        /\ Stats.total s = S (Stats.total (counters s'))
        /\ Stats.pending s = S (Stats.pending (counters s'))
        /\ Stats.ordered s = Stats.ordered (counters s')
        /\ Stats.cancelled s = Stats.cancelled (counters s')).
Proof.
  intros Hcalm Hs Hb Hid.
  assert (Hp : is_pending_for chat_id r = true).
  { destruct (blank_status_strip r Hb) as [Hl Hst].
    unfold is_pending_for. rewrite !cell_or_empty_nth, <- Hid, Hst.
    apply Nat.leb_le in Hl. rewrite Hl. unfold Py.eqb.
    rewrite String.eqb_refl. reflexivity. }
  assert (Hcalm' : forall s, calm 2 (set_sheet s w)) by (intros s; exact Hcalm).
  split; [|split; [|split]].
  - rewrite (pending_around chat_id w h before r after Hcalm Hs Hp).
    eexists _, _. reflexivity.
  - rewrite (pending_around chat_id w h before r after Hcalm Hs Hp).
    rewrite (pending_around chat_id _ h before (<[8%nat := ""]> r) after
               (Hcalm' _) eq_refl)
      by (rewrite (emptied_cell_is_pending chat_id r Hb); exact Hp).
    rewrite emptied_cell_entry. reflexivity.
  - rewrite (weekly_around strptime w h before r after Hcalm Hs).
    rewrite (weekly_around strptime _ h before (<[8%nat := ""]> r) after
               (Hcalm' _) eq_refl).
    simpl. rewrite (emptied_cell_tally strptime _ _ r Hb). reflexivity.
  - intros Hw.
    destruct (weekly_without strptime w h (before ++ after) Hcalm) as (s' & E' & Hc).
    eexists _, s'.
    split; [apply (weekly_around strptime w h before r after Hcalm Hs)|].
    split; [exact E'|].
    rewrite Hc, fold_left_app.
    apply tally_one_more, tally_blank; assumption.
Qed.

End Blank.

(** The order of chat 42 with a blank as its status, stamped on the day of
    the clock: it is pending for chat 42, and the one pending order of the
    week. *)
Lemma blank_status_is_pending_witness :
  calm 2 world_blank_status
  /\ sheet world_blank_status
     = sample_header :: ([] ++ row_of "#001" order_a " " "" :: [])%list
  /\ blank_status (row_of "#001" order_a " " "") = true
  /\ Py.str_of_int 42 = nth 3 (row_of "#001" order_a " " "") ""
  /\ in_week Datetime.strptime_canonical (week_start_of (clock world_blank_status))
             (row_of "#001" order_a " " "") = true
  /\ (exists l1 l2,
        fst (get_pending_orders_for_user 42 world_blank_status)
        = Ret (l1 ++ Pending.mk 2 "#001" "2024-03-06 10:30:15" "Toner" "2"
                                "Normal" "Lager" :: l2)%list)
  /\ exists s,
       fst (get_weekly_summary Datetime.strptime_canonical world_blank_status)
       = Ret (Counted s)
       /\ Stats.total s = 1%nat /\ Stats.pending s = 1%nat
       /\ Stats.ordered s = 0%nat /\ Stats.cancelled s = 0%nat.
Proof.
  assert (H1 : calm 2 world_blank_status) by reflexivity.
  assert (H2 : sheet world_blank_status
               = sample_header :: ([] ++ row_of "#001" order_a " " "" :: [])%list)
    by reflexivity.
  assert (H3 : blank_status (row_of "#001" order_a " " "") = true) by reflexivity.
  assert (H4 : Py.str_of_int 42 = nth 3 (row_of "#001" order_a " " "") "")
    by reflexivity.
  assert (H5 : in_week Datetime.strptime_canonical
                       (week_start_of (clock world_blank_status))
                       (row_of "#001" order_a " " "") = true)
    by (vm_compute; reflexivity).
  repeat (split; [assumption|]).
  destruct (blank_status_is_pending Datetime.strptime_canonical 42
              world_blank_status sample_header [] _ [] H1 H2 H3 H4)
    as (Hp & _ & _ & Hw).
  split; [exact Hp|].
  destruct (Hw H5) as (s & s' & Es & Es' & Ht & Hpe & Ho & Hc).
  exists s. split; [exact Es|].
  assert (E0 : fst (get_weekly_summary Datetime.strptime_canonical
                      (set_sheet (sample_header :: [] ++ [])%list world_blank_status))
               = Ret NoOrders) by reflexivity.
  rewrite E0 in Es'. injection Es' as <-.
  repeat split; assumption.
Defined.

(** ** The session data at the end of a conversation *)

Lemma hoare_bind {A B} (P : world -> Prop) (R : A -> world -> Prop)
      (Q : B -> world -> Prop) (m : M A) (k : A -> M B) :
  hoare P m R -> (forall a, hoare (R a) (k a) Q) -> hoare P (bind m k) Q.
Proof.
  intros Hm Hk w b w' HP E. unfold bind in E.
  destruct (m w) as [[a|] w1] eqn:Em; [|discriminate].
  exact (Hk a w1 b w' (Hm w a w1 HP Em) E).
Qed.

Lemma hoare_any {A} (P : world -> Prop) (m : M A) :
  hoare P m (fun _ _ => True).
Proof. intros w a w' _ _. exact I. Qed.

(** Whatever runs first, what runs last decides. *)
Lemma hoare_then {A B} (P : world -> Prop) (Q : B -> world -> Prop)
      (m : M A) (k : A -> M B) :
  (forall a, hoare (fun _ => True) (k a) Q) -> hoare P (bind m k) Q.
Proof. intros Hk. eapply hoare_bind; [apply hoare_any | exact Hk]. Qed.

Lemma hoare_weaken {A} (P P' : world -> Prop) (m : M A) (Q : A -> world -> Prop) :
  (forall w, P w -> P' w) -> hoare P' m Q -> hoare P m Q.
Proof. intros HP H w a w' Hw. apply H, HP, Hw. Qed.

Lemma hoare_raise {A} (P : world -> Prop) (Q : A -> world -> Prop) :
  hoare P raise Q.
Proof. intros w a w' _ E. discriminate E. Qed.

Lemma clear_empties : hoare (fun _ => True) clear (fun _ w => scratch_empty w).
Proof. intros w a w' _ [= _ <-]. reflexivity. Qed.

Lemma chat_keeps_scratch (c : chat_call) (P : gmap string value -> Prop) :
  hoare (fun w => P (user_data w)) (chat c) (fun _ w => P (user_data w)).
Proof.
  intros [sh sc cl ud ob] a w' HP E. unfold chat in E. revert E. unfold_monad.
  destruct sc as [|[] sc]; intros E; try discriminate E;
    injection E as _ <-; exact HP.
Qed.

Lemma ret_keeps {A} (a : A) (P : world -> Prop) :
  hoare P (ret a) (fun _ w => P w).
Proof. intros w b w' HP [= _ <-]. exact HP. Qed.

(** [context.user_data.clear()] followed by the return of the next state. *)
Lemma clear_then_return (s : state) :
  hoare (fun _ => True) (clear ;; ret s) (fun _ w => scratch_empty w).
Proof.
  eapply hoare_bind; [apply clear_empties|].
  intros ?. apply (ret_keeps s scratch_empty).
Qed.

Section HandlersClear.

Context {U : Py.Unicode}.

Variable ADMIN_CHAT_ID : option string.

(** Saving an order ends with empty session data, saved or not. *)
Lemma save_order_clears (chat_id : Z) (user : User.t) :
  hoare (fun _ => True) (save_order ADMIN_CHAT_ID chat_id user)
        (fun _ w => scratch_empty w).
Proof.
  unfold save_order.
  do 6 (apply hoare_then; intros ?).
  apply hoare_then. intros [success order_number].
  apply hoare_then. intros ?. apply clear_then_return.
Qed.

(** Submit, restart and abort of the order conversation. *)
Lemma confirmation_callback_clears (data : string) (chat_id : Z) (user : User.t) :
  hoare (fun _ => True) (confirmation_callback ADMIN_CHAT_ID data chat_id user)
        (fun _ w => scratch_empty w).
Proof.
  unfold confirmation_callback. apply hoare_then. intros ?.
  destruct (Py.eqb data "confirm_yes").
  - apply hoare_then. intros ?. apply save_order_clears.
  - destruct (Py.eqb data "confirm_restart").
    + apply hoare_then. intros ?.
      eapply hoare_bind; [apply clear_empties|]. intros ?.
      eapply hoare_bind; [apply (chat_keeps_scratch _ (fun u => u = ∅))|].
      intros ?. apply (ret_keeps ARTIKEL scratch_empty).
    + apply hoare_then. intros ?. apply clear_then_return.
Qed.

(** The abort command, in whichever conversation. *)
Lemma cancel_clears :
  hoare (fun _ => True) cancel (fun _ w => scratch_empty w).
Proof. unfold cancel. apply hoare_then. intros ?. apply clear_then_return. Qed.

(** The choice of an order in the cancellation conversation. *)
Lemma stornieren_choice_clears (data : string) :
  Py.eqb data "cancel_abort" = false ->
  hoare (fun _ => True) (stornieren_callback ADMIN_CHAT_ID data)
        (fun _ w => scratch_empty w).
Proof.
  intros Hdata. unfold stornieren_callback. rewrite Hdata.
  apply hoare_then. intros ?.
  destruct (Py.int_of_str _) as [row_number|]; [|apply hoare_raise].
  do 2 (apply hoare_then; intros ?). apply clear_then_return.
Qed.

(** The abort button of the cancellation conversation: the session data
    is what it was. *)
Lemma stornieren_abort_keeps (P : gmap string value -> Prop) :
  hoare (fun w => P (user_data w))
        (stornieren_callback ADMIN_CHAT_ID "cancel_abort")
        (fun s w => s = END /\ P (user_data w)).
Proof.
  unfold stornieren_callback. simpl.
  eapply hoare_bind; [apply (chat_keeps_scratch _ P)|]. intros ?.
  eapply hoare_bind; [apply (chat_keeps_scratch _ P)|]. intros ?.
  intros w s w' HP E. injection E as <- <-. auto.
Qed.

End HandlersClear.

Section AbortButton.

Context {U : Py.Unicode}.

(** C7 fails on the abort button of the cancellation conversation.  Chat 42
    asks to cancel, its pending order is cached in the session data, it
    presses the abort button: the conversation ends and the session data
    still holds the cached order.  (Submit, restart and abort of the order
    conversation, the abort command and the choice of an order do end with
    empty session data: see the lemmas above.) *)
Theorem stornieren_abort_leaves_session (ADMIN_CHAT_ID : option string) :
  stornieren_start 42 world_two_orders = (Ret STORNO_AUSWAHL, world_selecting)
  /\ exists w',
       stornieren_callback ADMIN_CHAT_ID "cancel_abort" world_selecting
       = (Ret END, w')
       /\ user_data w' !! "pending_orders"
          = Some (VOrders [Pending.mk 2 "#001" "2024-03-06 10:30:15" "Toner" "2"
                                      "Normal" "Lager"])
       /\ ~ scratch_empty w'.
Proof.
  split; [reflexivity|].
  eexists. split; [reflexivity|]. split; [reflexivity|].
  unfold scratch_empty. simpl. intros H.
  apply (f_equal (fun m => m !! "pending_orders")) in H.
  rewrite lookup_empty in H. discriminate H.
Qed.

End AbortButton.

(** ** More on the ledger functions *)

Tactic Notation "split_script" integer(n) ident(sc) :=
  do n (try (destruct sc as [|[] sc])).

(** What an append can return, and what it has then done to the world. *)
Lemma save_to_sheet_cases (data : Order.t) (w : world) :
  exists ok n w',
    save_to_sheet data w = (Ret (ok, n), w')
    /\ user_data w' = user_data w /\ outbox w' = outbox w
    /\ ((ok = false /\ n = "" /\ sheet w' = sheet w)
        \/ (ok = true
            /\ sheet w' = (sheet w ++ [order_row n data])%list
            /\ (n = "#001" \/ n = "#???"
                \/ n = format_order_number (length (sheet w))))).
Proof.
  destruct w as [sh sc cl ud ob].
  split_script 4 sc;
    do 3 eexists; (split; [reflexivity|]); simpl;
      (split; [reflexivity|]); (split; [reflexivity|]);
      first [ left; repeat split; reflexivity
            | right; split; [reflexivity|]; split; [reflexivity|];
              first [ left; reflexivity
                    | right; left; reflexivity
                    | right; right; reflexivity ] ].
Qed.

(** X1: an append never touches the rows the sheet has.  It either returns
    (False, "") and leaves the sheet as it is, or returns True with a number
    and has put exactly one row after the last row: the number, the
    timestamp, the name, the chat identifier as text, the article, the
    quantity, the urgency, the cost center and two empty cells.  The number
    is the one made from the count of rows, or one of the two placeholders;
    the session data and the outbox stay. *)
Theorem save_to_sheet_appends_only (data : Order.t) (w : world) :
  exists ok n w',
    save_to_sheet data w = (Ret (ok, n), w')
    /\ user_data w' = user_data w /\ outbox w' = outbox w
    /\ ((ok = false /\ n = "" /\ sheet w' = sheet w)
        \/ (ok = true
            /\ sheet w'
               = (sheet w
                  ++ [[n; Order.timestamp data; Order.mitarbeiter data;
                       Py.str_of_int (Order.chat_id data); Order.artikel data;
                       Order.menge data; Order.dringlichkeit data;
                       Order.kostenstelle data; ""; ""]])%list
            /\ (n = "#001" \/ n = "#???"
                \/ n = format_order_number (length (sheet w))))).
Proof.
  destruct (save_to_sheet_cases data w) as (ok & n & w' & E & Hu & Ho & Hc).
  exists ok, n, w'. repeat (split; [assumption|]).
  destruct Hc as [Hc | (Hok & Hs & Hn)]; [left; exact Hc|].
  right. split; [exact Hok|]. split; [|exact Hn].
  rewrite Hs. reflexivity.
Qed.

Section Reads.

Context {U : Py.Unicode}.

(** X2: the functions that read the ledger -- the next order number, the
    pending orders, the search, the weekly summary -- change nothing: the
    sheet, the session data and the outbox are after the call what they were
    before, whatever fails. *)
Theorem ledger_reads_change_nothing (w : world) :
  same_but_script w (snd (get_next_order_number w))
  /\ (forall chat_id, same_but_script w (snd (get_pending_orders_for_user chat_id w)))
  /\ (forall term, same_but_script w (snd (search_orders term w)))
  /\ (forall strptime, same_but_script w (snd (get_weekly_summary strptime w))).
Proof.
  destruct w as [sh sc cl ud ob].
  split; [|split; [|split]]; intros;
    split_script 2 sc;
    unfold get_next_order_number, get_pending_orders_for_user, search_orders,
      get_weekly_summary; unfold_monad;
    try (destruct (length sh <=? 1)%nat); repeat split.
Qed.

End Reads.

(** X3: a row position below 1 is never cancelled: the cancellation returns
    False and the sheet is as before. *)
Theorem cancel_order_below_one (row_number : Z) (w : world) :
  row_number < 1 ->
  fst (cancel_order row_number w) = Ret false
  /\ sheet (snd (cancel_order row_number w)) = sheet w.
Proof.
  intros H. destruct w as [sh sc cl ud ob].
  unfold cancel_order, Worksheet.update_cell. unfold_monad.
  destruct (Z.ltb_spec row_number 1) as [_ | Hge]; [|lia]. simpl.
  split_script 1 sc; split; reflexivity.
Qed.

(** Row 0 of a sheet with two orders. *)
Lemma cancel_order_below_one_witness :
  0 < 1
  /\ fst (cancel_order 0 world_two_orders) = Ret false
  /\ sheet (snd (cancel_order 0 world_two_orders)) = sheet world_two_orders.
Proof.
  assert (H : 0 < 1) by reflexivity.
  split; [exact H|]. exact (cancel_order_below_one 0 world_two_orders H).
Defined.

(** X4: a cancellation is not all or nothing.  When the marker is written
    and the write of the time raises, the cancellation returns False, yet
    the status cell of the row holds the marker; the cell for the time and
    every other cell read as before. *)
Theorem cancel_order_half_done (row_number : Z) (w : world) (rest : list bool) :
  1 <= row_number ->
  script w = true :: true :: false :: rest ->
  fst (cancel_order row_number w) = Ret false
  /\ Worksheet.cell (sheet (snd (cancel_order row_number w))) row_number 9
     = "STORNIERT"
  /\ (forall r c,
        (r, c) <> (row_number, 9) ->
        Worksheet.cell (sheet (snd (cancel_order row_number w))) r c
        = Worksheet.cell (sheet w) r c).
Proof.
  intros Hr Hs. destruct w as [sh sc cl ud ob]. simpl in Hs. subst sc.
  unfold cancel_order, Worksheet.update_cell. unfold_monad.
  destruct (Z.ltb_spec row_number 1) as [Hlt | _]; [lia|]. simpl.
  split; [reflexivity|]. split.
  - apply cell_write_same; lia.
  - intros r c Hne. apply cell_write_other; (lia || assumption).
Qed.

(** The write of the time fails while row 2 is cancelled. *)
Lemma cancel_order_half_done_witness :
  1 <= 2
  /\ script (at_time sample_clock [true; true; false] world_two_orders)
     = [true; true; false]
  /\ fst (cancel_order 2 (at_time sample_clock [true; true; false] world_two_orders))
     = Ret false
  /\ Worksheet.cell
       (sheet (snd (cancel_order 2
                      (at_time sample_clock [true; true; false] world_two_orders))))
       2 9 = "STORNIERT".
Proof.
  assert (H1 : 1 <= 2) by (apply Z.leb_le; reflexivity).
  split; [exact H1|]. split; [reflexivity|].
  destruct (cancel_order_half_done 2
              (at_time sample_clock [true; true; false] world_two_orders) []
              H1 eq_refl) as (Hf & Hc & _).
  split; [exact Hf | exact Hc].
Defined.

(** X5: cancelling a row that is cancelled already succeeds again; the
    status cell keeps the marker, the cell after it takes the time of the
    second cancellation, and every other cell reads as after the first. *)
Theorem cancel_order_again (row_number : Z) (w w1 w2 : world)
        (t : Datetime.t) (f : list bool) :
  cancel_order row_number w = (Ret true, w1) ->
  cancel_order row_number (at_time t f w1) = (Ret true, w2) ->
  Worksheet.cell (sheet w2) row_number 9 = "STORNIERT"
  /\ Worksheet.cell (sheet w2) row_number 10 = Datetime.strftime_minutes t
  /\ (forall r c,
        (r, c) <> (row_number, 10) ->
        Worksheet.cell (sheet w2) r c = Worksheet.cell (sheet w1) r c).
Proof.
  intros E1 E2.
  apply cancel_order_cells in E1 as (H9 & _ & _).
  apply cancel_order_cells in E2 as (H9' & H10' & Hrest).
  split; [exact H9'|]. split; [exact H10'|].
  intros r c Hne.
  destruct (decide ((r, c) = (row_number, 9))) as [[= -> ->] | Hne9].
  - rewrite H9'. symmetry. exact H9.
  - apply Hrest; assumption.
Qed.

(** Row 2 is cancelled at 10:30 and again the day after at 08:05. *)
Lemma cancel_order_again_witness :
  cancel_order 2 world_two_orders = (Ret true, world_cancelled)
  /\ fst (cancel_order 2
            (at_time (Datetime.of_fields 2024 3 7 8 5 0 0) [] world_cancelled))
     = Ret true
  /\ Worksheet.cell
       (sheet (snd (cancel_order 2
                      (at_time (Datetime.of_fields 2024 3 7 8 5 0 0) []
                               world_cancelled))))
       2 10 = "2024-03-07 08:05".
Proof.
  assert (E1 : cancel_order 2 world_two_orders = (Ret true, world_cancelled))
    by reflexivity.
  assert (E2 : cancel_order 2
                 (at_time (Datetime.of_fields 2024 3 7 8 5 0 0) [] world_cancelled)
               = (Ret true,
                  snd (cancel_order 2
                         (at_time (Datetime.of_fields 2024 3 7 8 5 0 0) []
                                  world_cancelled)))) by reflexivity.
  split; [exact E1|]. split; [reflexivity|].
  exact (proj1 (proj2 (cancel_order_again 2 world_two_orders world_cancelled _
                         (Datetime.of_fields 2024 3 7 8 5 0 0) [] E1 E2))).
Defined.

(** ** More on the queries *)


Section EmptyTerm.

Context {U : Py.Unicode}.


End EmptyTerm.


Lemma enumerate_filter_sorted {A} (p : Z * A -> bool) (l : list A) (k : Z) :
  StronglySorted Z.lt (map fst (List.filter p (enumerate k l)))
  /\ List.Forall (fun i => k <= i) (map fst (List.filter p (enumerate k l))).
Proof.
  revert k. induction l as [|x l IH]; intros k; simpl.
  - split; constructor.
  - destruct (IH (k + 1)) as [Hs Hf].
    assert (Hf' : List.Forall (fun i => k <= i)
                    (map fst (List.filter p (enumerate (k + 1) l)))).
    { eapply List.Forall_impl; [|exact Hf]. simpl. intros; lia. }
    destruct (p (k, x)); simpl; [|split; assumption].
    split.
    + constructor; [exact Hs|].
      eapply List.Forall_impl; [|exact Hf]. simpl. intros; lia.
    + constructor; [lia | exact Hf'].
Qed.

Lemma in_firstn {A} (n : nat) (l : list A) (y : A) :
  In y (firstn n l) -> In y l.
Proof.
  revert n. induction l as [|x l IH]; intros n; destruct n; simpl; try tauto.
  intros [H | H]; [left; exact H | right; exact (IH n H)].
Qed.

Lemma sorted_firstn {A} (R : A -> A -> Prop) (n : nat) (l : list A) :
  StronglySorted R l -> StronglySorted R (firstn n l).
Proof.
  revert n. induction l as [|x l IH]; intros n H; destruct n; simpl;
    try constructor.
  - apply IH. inversion H; assumption.
  - inversion H as [|? ? _ Hall]; subst.
    rewrite List.Forall_forall in *. intros y Hy. apply Hall.
    eapply in_firstn. exact Hy.
Qed.

Lemma forall_firstn {A} (P : A -> Prop) (n : nat) (l : list A) :
  List.Forall P l -> List.Forall P (firstn n l).
Proof.
  rewrite !List.Forall_forall. intros H y Hy. apply H.
  eapply in_firstn. exact Hy.
Qed.

Section Ascending.

Context {U : Py.Unicode}.

(** X7: the entries of a list of pending orders, and of a search result,
    come with row positions that grow strictly along the list and are never
    below 2: no row is returned twice, and the header row is never
    returned. *)
Theorem rows_ascending (w : world) :
  (forall chat_id l w',
     get_pending_orders_for_user chat_id w = (Ret l, w') ->
     StronglySorted Z.lt (map Pending.row l)
     /\ List.Forall (fun i => 2 <= i) (map Pending.row l))
  /\ (forall term l w',
        search_orders term w = (Ret l, w') ->
        StronglySorted Z.lt (map Found.row l)
        /\ List.Forall (fun i => 2 <= i) (map Found.row l)).
Proof.
  split.
  - intros chat_id l w' E.
    destruct (calm_or_fault (script w)) as [H | [H | H]].
    + rewrite (pending_result chat_id w H) in E. injection E as <- _.
      rewrite map_map. simpl. apply enumerate_filter_sorted.
    + apply (pending_fault chat_id w 0) in H; [|lia].
      rewrite E in H. injection H as ->. split; constructor.
    + apply (pending_fault chat_id w 1) in H; [|lia].
      rewrite E in H. injection H as ->. split; constructor.
  - intros term l w' E.
    destruct (calm_or_fault (script w)) as [H | [H | H]].
    + rewrite (search_result term w H) in E. injection E as <- _.
      rewrite <- firstn_map, map_map. simpl.
      destruct (enumerate_filter_sorted
                  (fun p => matches (Py.lower term) (snd p)) (tl (sheet w)) 2)
        as [Hs Hf].
      split; [apply sorted_firstn | apply forall_firstn]; assumption.
    + apply (search_fault term w 0) in H; [|lia].
      rewrite E in H. injection H as ->. split; constructor.
    + apply (search_fault term w 1) in H; [|lia].
      rewrite E in H. injection H as ->. split; constructor.
Qed.

End Ascending.

(** The pending orders of chat 42 on a sheet of three orders. *)
Lemma rows_ascending_witness :
  get_pending_orders_for_user 42 world_cancelled_later
  = (Ret [Pending.mk 4 "#003" "2024-03-06 10:30:15" "Toner" "2" "Normal" "Lager"],
     world_cancelled_later)
  /\ List.Forall (fun i => 2 <= i) [4].
Proof.
  assert (E : get_pending_orders_for_user 42 world_cancelled_later
              = (Ret [Pending.mk 4 "#003" "2024-03-06 10:30:15" "Toner" "2"
                                 "Normal" "Lager"],
                 world_cancelled_later)) by reflexivity.
  split; [exact E|].
  exact (proj2 (proj1 (rows_ascending world_cancelled_later) 42 _ _ E)).
Defined.

(** ** The counters of the weekly summary *)

Lemma sum_counts_comm (z1 z2 y : nat) :
  (z1 + (z2 + y) = z2 + (z1 + y))%nat.
Proof. lia. Qed.

(** Counting one more order for a cost center adds one to the sum of the
    dictionary, be the cost center in it or not. *)
Lemma sum_counts_bump (ks : string) (m : gmap string nat) :
  sum_counts (<[ks := (default 0 (m !! ks) + 1)%nat]> m) = S (sum_counts m).
Proof.
  unfold sum_counts. destruct (m !! ks) as [v|] eqn:E; simpl.
  - rewrite <- (insert_delete_eq m ks).
    rewrite map_fold_insert_L;
      [| intros; apply sum_counts_comm | apply lookup_delete_eq].
    rewrite (map_fold_delete_L _ _ ks v m);
      [| intros; apply sum_counts_comm | exact E].
    lia.
  - rewrite map_fold_insert_L; [| intros; apply sum_counts_comm | exact E].
    lia.
Qed.

Section CostCenters.

Context {U : Py.Unicode}.

Lemma tally_by_kostenstelle (strptime : string -> option Datetime.t)
      (ws : Datetime.t) (l : list (list string)) (acc : Stats.t) :
  sum_counts (Stats.by_kostenstelle acc) = Stats.total acc ->
  sum_counts (Stats.by_kostenstelle (fold_left (tally strptime ws) l acc))
  = Stats.total (fold_left (tally strptime ws) l acc).
Proof.
  revert acc. induction l as [|r l IH]; intros acc H; simpl; [exact H|].
  apply IH. unfold tally. destruct (in_week strptime ws r); [|exact H]. simpl.
  rewrite sum_counts_bump, H. lia.
Qed.

(** X8: in every summary with counters, the pending, the ordered and the
    cancelled orders add up to the total, and so do the counters of the
    cost centers. *)
Theorem weekly_counters_add_up (strptime : string -> option Datetime.t)
        (w w' : world) (s : Stats.t) :
  get_weekly_summary strptime w = (Ret (Counted s), w') ->
  (Stats.pending s + Stats.ordered s + Stats.cancelled s = Stats.total s)%nat
  /\ sum_counts (Stats.by_kostenstelle s) = Stats.total s.
Proof.
  intros E.
  destruct (calm_or_fault (script w)) as [H | [H | H]].
  - rewrite (weekly_result strptime w H) in E.
    destruct (length (sheet w) <=? 1)%nat; [discriminate|].
    injection E as <- _. split.
    + apply tally_classes. reflexivity.
    + apply tally_by_kostenstelle. reflexivity.
  - apply (weekly_fault strptime w 0) in H; [|lia].
    rewrite E in H. discriminate H.
  - apply (weekly_fault strptime w 1) in H; [|lia].
    rewrite E in H. discriminate H.
Qed.

End CostCenters.

(** The summary of the sample sheet of two orders. *)
Lemma weekly_counters_add_up_witness :
  get_weekly_summary Datetime.strptime_canonical world_two_orders
  = (Ret (Counted (Stats.mk 2 2 0 0
                     (<["Stahlhalle" := 1%nat]> (<["Lager" := 1%nat]> ∅)))),
     world_two_orders)
  /\ sum_counts (<["Stahlhalle" := 1%nat]> (<["Lager" := 1%nat]> ∅)) = 2%nat.
Proof.
  assert (E : get_weekly_summary Datetime.strptime_canonical world_two_orders
              = (Ret (Counted (Stats.mk 2 2 0 0
                                 (<["Stahlhalle" := 1%nat]>
                                    (<["Lager" := 1%nat]> ∅)))),
                 world_two_orders)) by (vm_compute; reflexivity).
  split; [exact E|].
  exact (proj2 (weekly_counters_add_up _ _ _ _ E)).
Defined.

(** ** An order after it was saved *)

Lemma enumerate_app {A} (l : list A) (x : A) (k : Z) :
  enumerate k (l ++ [x]) = (enumerate k l ++ [(k + Z.of_nat (length l), x)])%list.
Proof.
  revert k. induction l as [|y l IH]; intros k.
  - simpl. do 2 f_equal. lia.
  - change (enumerate k ((y :: l) ++ [x]))
      with ((k, y) :: enumerate (k + 1) (l ++ [x])).
    rewrite IH. change (length (y :: l)) with (S (length l)).
    rewrite Nat2Z.inj_succ.
    replace (k + 1 + Z.of_nat (length l)) with (k + Z.succ (Z.of_nat (length l)))
      by lia.
    reflexivity.
Qed.

Lemma data_rows_app (s : list (list string)) (r : list string) :
  s <> [] ->
  data_rows (s ++ [r]) = (data_rows s ++ [(Z.of_nat (length s) + 1, r)])%list.
Proof.
  intros H. unfold data_rows. destruct s as [|h s]; [congruence|].
  change (tl ((h :: s) ++ [r])) with (s ++ [r])%list.
  change (tl (h :: s)) with s. rewrite enumerate_app.
  change (length (h :: s)) with (S (length s)). rewrite Nat2Z.inj_succ.
  replace (2 + Z.of_nat (length s)) with (Z.succ (Z.of_nat (length s)) + 1) by lia.
  reflexivity.
Qed.

Section Saved.

Context {U : Py.Unicode}.

Lemma order_row_is_pending (n : string) (data : Order.t) :
  is_pending_for (Order.chat_id data) (order_row n data) = true.
Proof.
  unfold is_pending_for, cell_or_empty, order_row, Py.eqb. simpl.
  rewrite String.eqb_refl. reflexivity.
Qed.

(** X9: an order that was saved on a sheet with a header row is the last of
    the pending orders of its chat for as long as the sheet is not changed:
    it is listed with the position after the rows the sheet had, the number
    the append returned and the fields it was saved with. *)
Theorem saved_order_is_pending (data : Order.t) (w w' : world) (n : string) :
  sheet w <> [] ->
  save_to_sheet data w = (Ret (true, n), w') ->
  forall later,
    sheet later = sheet w' ->
    calm 2 later ->
    exists l,
      fst (get_pending_orders_for_user (Order.chat_id data) later)
      = Ret (l ++ [Pending.mk (Z.of_nat (length (sheet w)) + 1) n
                              (Order.timestamp data) (Order.artikel data)
                              (Order.menge data) (Order.dringlichkeit data)
                              (Order.kostenstelle data)])%list.
Proof.
  intros Hne E later Hsheet Hcalm.
  destruct (save_to_sheet_cases data w) as (ok & n' & w1 & E1 & _ & _ & Hc).
  rewrite E in E1. injection E1 as <- <- <-.
  destruct Hc as [(Hf & _) | (_ & Hs & _)]; [discriminate|].
  rewrite (pending_result _ later Hcalm), Hsheet, Hs. simpl.
  rewrite (data_rows_app _ _ Hne), List.filter_app, map_app. simpl.
  rewrite order_row_is_pending. simpl. eexists. reflexivity.
Qed.

End Saved.

(** A second order of chat 42 on the sheet of two orders. *)
Lemma saved_order_is_pending_witness :
  sheet world_two_orders <> []
  /\ save_to_sheet order_a world_two_orders
     = (Ret (true, "#003"),
        set_sheet (sheet world_two_orders ++ [order_row "#003" order_a])
                  world_two_orders)
  /\ calm 2 (set_sheet (sheet world_two_orders ++ [order_row "#003" order_a])
                       world_two_orders)
  /\ exists l,
       fst (get_pending_orders_for_user 42
              (set_sheet (sheet world_two_orders ++ [order_row "#003" order_a])
                         world_two_orders))
       = Ret (l ++ [Pending.mk 4 "#003" "2024-03-06 10:30:15" "Toner" "2"
                               "Normal" "Lager"])%list.
Proof.
  assert (H1 : sheet world_two_orders <> []) by discriminate.
  assert (H2 : save_to_sheet order_a world_two_orders
               = (Ret (true, "#003"),
                  set_sheet (sheet world_two_orders ++ [order_row "#003" order_a])
                            world_two_orders)) by reflexivity.
  assert (H3 : calm 2 (set_sheet (sheet world_two_orders
                                  ++ [order_row "#003" order_a])
                                 world_two_orders)) by reflexivity.
  split; [exact H1|]. split; [exact H2|]. split; [exact H3|].
  exact (saved_order_is_pending order_a world_two_orders _ "#003" H1 H2 _
           eq_refl H3).
Defined.


(** ** The token of a cancel button *)

Lemma digits_value_digit (c : ascii) (s : string) (acc : Z) (prev : bool) :
  Py.is_digit c = true ->
  Py.digits_value acc prev (String c s)
  = Py.digits_value (10 * acc + Z.of_nat (Py.code c - 48)) true s.
Proof. intros H. simpl. rewrite H. reflexivity. Qed.

Lemma digits_value_acc (d : uint) (acc : positive) :
  Py.digits_value (Z.pos acc) true (NilEmpty.string_of_uint d)
  = Some (Z.pos (Pos.of_uint_acc d acc)).
Proof.
  revert acc. induction d as [|d IH|d IH|d IH|d IH|d IH|d IH|d IH|d IH|d IH|d IH];
    intros acc; [reflexivity|..];
    cbn [NilEmpty.string_of_uint Pos.of_uint_acc];
    rewrite digits_value_digit by reflexivity;
    rewrite <- IH; f_equal; vm_compute (Z.of_nat _); lia.
Qed.

Lemma digits_value_zero (d : uint) :
  Py.digits_value 0 true (NilEmpty.string_of_uint d)
  = Some (Z.of_N (Pos.of_uint d)).
Proof.
  induction d as [|d IH|d IH|d IH|d IH|d IH|d IH|d IH|d IH|d IH|d IH];
    [reflexivity|..];
    cbn [NilEmpty.string_of_uint Pos.of_uint];
    rewrite digits_value_digit by reflexivity;
    [exact IH | ..]; apply digits_value_acc.
Qed.

Lemma digits_value_start (d : uint) :
  d <> Nil ->
  Py.digits_value 0 false (NilEmpty.string_of_uint d)
  = Some (Z.of_N (Pos.of_uint d)).
Proof.
  intros H. rewrite <- digits_value_zero.
  destruct d; [congruence|..]; cbn [NilEmpty.string_of_uint];
    rewrite !digits_value_digit by reflexivity; reflexivity.
Qed.

Lemma digits_of_uint (d : uint) :
  Py.all_chars Py.is_digit (NilEmpty.string_of_uint d) = true.
Proof. induction d; simpl; auto. Qed.

Lemma digit_not_space (c : ascii) :
  Py.is_digit c = true -> negb (Py.isspace c) = true.
Proof. destruct c as [[] [] [] [] [] [] [] []]; (discriminate || reflexivity). Qed.

Lemma digit_not_c (c : ascii) :
  Py.is_digit c = true -> negb (Ascii.eqb c "c") = true.
Proof. destruct c as [[] [] [] [] [] [] [] []]; (discriminate || reflexivity). Qed.

Lemma lstrip_solid (s : string) :
  Py.all_chars (fun c => negb (Py.isspace c)) s = true -> Py.lstrip s = s.
Proof.
  destruct s as [|c s]; [reflexivity|]. simpl. intros H.
  apply andb_prop in H as [H _]. apply negb_true_iff in H. rewrite H. reflexivity.
Qed.

Lemma rstrip_solid (s : string) :
  Py.all_chars (fun c => negb (Py.isspace c)) s = true -> Py.rstrip s = s.
Proof.
  induction s as [|c s IH]; [reflexivity|]. simpl. intros H.
  apply andb_prop in H as [Hc Hs]. rewrite (IH Hs).
  apply negb_true_iff in Hc. destruct s; [rewrite Hc|]; reflexivity.
Qed.

Lemma strip_solid (s : string) :
  Py.all_chars (fun c => negb (Py.isspace c)) s = true -> Py.strip_ascii s = s.
Proof.
  intros H. unfold Py.strip_ascii. rewrite (lstrip_solid s H).
  apply rstrip_solid, H.
Qed.

Lemma remove_from_other (pat : string) (c0 : ascii) (rest s : string) :
  pat = String c0 rest ->
  Py.all_chars (fun c => negb (Ascii.eqb c c0)) s = true ->
  Py.remove_from pat 0 s = s.
Proof.
  intros ->. induction s as [|c s IH]; [reflexivity|].
  intros H. simpl in H. apply andb_prop in H as [Hc Hs].
  apply negb_true_iff in Hc.
  change (Py.remove_from (String c0 rest) 0 (String c s))
    with (if String.prefix (String c0 rest) (String c s)
          then Py.remove_from (String c0 rest)
                 (Nat.pred (String.length (String c0 rest))) s
          else String c (Py.remove_from (String c0 rest) 0 s)).
  assert (Hp : String.prefix (String c0 rest) (String c s) = false).
  { simpl. destruct (ascii_dec c0 c) as [-> | _]; [|reflexivity].
    rewrite Ascii.eqb_refl in Hc. discriminate. }
  rewrite Hp, (IH Hs). reflexivity.
Qed.

Lemma remove_cancel_prefix (s : string) :
  Py.remove_all "cancel_" ("cancel_" ++ s) = Py.remove_all "cancel_" s.
Proof.
  unfold Py.remove_all.
  change ("cancel_" ++ s) with
    (String "c" (String "a" (String "n" (String "c" (String "e"
       (String "l" (String "_" s))))))).
  assert (Hp : String.prefix "cancel_"
                 (String "c" (String "a" (String "n" (String "c" (String "e"
                    (String "l" (String "_" s))))))) = true).
  { apply prefix_split. exists s. reflexivity. }
  cbn [Py.remove_from]. rewrite Hp. reflexivity.
Qed.

Lemma int_of_str_unsigned (s : string) :
  Py.all_chars Py.is_digit s = true ->
  Py.int_ascii s = Py.digits_value 0 false s.
Proof.
  intros H. unfold Py.int_ascii.
  rewrite strip_solid by (eapply all_chars_impl; [apply digit_not_space | exact H]).
  destruct s as [|c t]; [reflexivity|].
  apply andb_prop in H as [H _].
  destruct c as [[] [] [] [] [] [] [] []]; (discriminate H || reflexivity).
Qed.

Lemma int_of_str_minus (t : string) :
  Py.all_chars Py.is_digit t = true ->
  Py.int_ascii (String "-" t) = option_map Z.opp (Py.digits_value 0 false t).
Proof.
  intros H. unfold Py.int_ascii.
  rewrite strip_solid; [reflexivity|].
  simpl. eapply all_chars_impl; [apply digit_not_space | exact H].
Qed.

Lemma str_of_int_positive (p : positive) :
  Py.str_of_int (Z.pos p) = NilEmpty.string_of_uint (Pos.to_uint p).
Proof.
  unfold Py.str_of_int. simpl.
  pose proof (Unsigned.to_uint_nonnil p) as H.
  unfold NilZero.string_of_uint. destruct (Pos.to_uint p); [congruence|..]; reflexivity.
Qed.

Lemma str_of_int_negative (p : positive) :
  Py.str_of_int (Z.neg p) = String "-" (NilEmpty.string_of_uint (Pos.to_uint p)).
Proof.
  unfold Py.str_of_int. simpl.
  pose proof (Unsigned.to_uint_nonnil p) as H.
  unfold NilZero.string_of_uint. destruct (Pos.to_uint p); [congruence|..]; reflexivity.
Qed.

(** [int(str(z))] is [z]. *)
Lemma int_of_str_of_int (z : Z) : Py.int_ascii (Py.str_of_int z) = Some z.
Proof.
  destruct z as [|p|p].
  - reflexivity.
  - rewrite str_of_int_positive, int_of_str_unsigned by apply digits_of_uint.
    rewrite digits_value_start by apply Unsigned.to_uint_nonnil.
    rewrite Unsigned.of_to. reflexivity.
  - rewrite str_of_int_negative, int_of_str_minus by apply digits_of_uint.
    rewrite digits_value_start by apply Unsigned.to_uint_nonnil.
    rewrite Unsigned.of_to. reflexivity.
Qed.

Lemma str_of_int_no_c (z : Z) :
  Py.all_chars (fun c => negb (Ascii.eqb c "c")) (Py.str_of_int z) = true.
Proof.
  destruct z as [|p|p].
  - reflexivity.
  - rewrite str_of_int_positive.
    eapply all_chars_impl; [apply digit_not_c | apply digits_of_uint].
  - rewrite str_of_int_negative. simpl.
    eapply all_chars_impl; [apply digit_not_c | apply digits_of_uint].
Qed.

Lemma digit_is_ascii (c : ascii) :
  Py.is_digit c = true -> Py.is_ascii_char c = true.
Proof. destruct c as [[] [] [] [] [] [] [] []]; (discriminate || reflexivity). Qed.

(** [str(z)] is an ASCII text. *)
Lemma str_of_int_ascii (z : Z) : Py.is_ascii (Py.str_of_int z) = true.
Proof.
  unfold Py.is_ascii. destruct z as [|p|p].
  - reflexivity.
  - rewrite str_of_int_positive.
    eapply all_chars_impl; [apply digit_is_ascii | apply digits_of_uint].
  - rewrite str_of_int_negative. simpl.
    eapply all_chars_impl; [apply digit_is_ascii | apply digits_of_uint].
Qed.

Lemma cancel_token_rest (row : Z) :
  Py.remove_all "cancel_" (cancel_token row) = Py.str_of_int row.
Proof.
  unfold cancel_token. rewrite remove_cancel_prefix. unfold Py.remove_all.
  apply (remove_from_other "cancel_" "c" "ancel_");
    (reflexivity || apply str_of_int_no_c).
Qed.

Section Token.

Context {U : Py.Unicode}.

Lemma cancel_token_parses (row : Z) :
  Py.int_of_str (Py.remove_all "cancel_" (cancel_token row)) = Some row.
Proof.
  rewrite cancel_token_rest.
  rewrite int_of_ascii by apply str_of_int_ascii.
  apply int_of_str_of_int.
Qed.

(** X11: the token a cancel button is made with for a row reads back as
    that row: dropping the word from the token and reading the rest as an
    integer gives the row position, for every integer. *)
Theorem cancel_token_round_trip (row : Z) :
  Py.int_of_str (Py.remove_all "cancel_" (cancel_token row)) = Some row
  /\ Py.eqb (cancel_token row) "cancel_abort" = false.
Proof.
  split; [apply cancel_token_parses|].
  unfold cancel_token, Py.eqb.
  destruct row as [|p|p]; [reflexivity| |].
  - rewrite str_of_int_positive.
    pose proof (digits_of_uint (Pos.to_uint p)) as H.
    destruct (NilEmpty.string_of_uint (Pos.to_uint p)) as [|c t]; [reflexivity|].
    apply andb_prop in H as [H _].
    destruct c as [[] [] [] [] [] [] [] []]; (discriminate H || reflexivity).
  - rewrite str_of_int_negative. reflexivity.
Qed.

End Token.

(** ** What the handlers do to the sheet *)

Lemma keeps_ret {A} (a : A) : keeps_sheet (ret a).
Proof. intros w. reflexivity. Qed.

Lemma keeps_raise {A} : keeps_sheet (@raise A).
Proof. intros w. reflexivity. Qed.

Lemma keeps_bind {A B} (m : M A) (k : A -> M B) :
  keeps_sheet m -> (forall a, keeps_sheet (k a)) -> keeps_sheet (bind m k).
Proof.
  intros Hm Hk w. unfold bind. specialize (Hm w).
  destruct (m w) as [[a|] w1]; simpl in *; [|exact Hm].
  rewrite Hk. exact Hm.
Qed.

Lemma keeps_try {A} (m h : M A) :
  keeps_sheet m -> keeps_sheet h -> keeps_sheet (try_except m h).
Proof.
  intros Hm Hh w. unfold try_except. specialize (Hm w).
  destruct (m w) as [[a|] w1]; simpl in *; [exact Hm|].
  rewrite Hh. exact Hm.
Qed.

Lemma keeps_chat (c : chat_call) : keeps_sheet (chat c).
Proof. intros [sh sc cl ud ob]. unfold chat. unfold_monad. split_script 1 sc; reflexivity. Qed.

Lemma keeps_clear : keeps_sheet clear.
Proof. intros w. reflexivity. Qed.

Lemma keeps_set_item (key : string) (v : value) : keeps_sheet (set_item key v).
Proof. intros w. reflexivity. Qed.

Lemma keeps_get_item (key : string) : keeps_sheet (get_item key).
Proof. intros w. unfold get_item. destruct (user_data w !! key); reflexivity. Qed.

Lemma keeps_get_item_opt (key : string) : keeps_sheet (get_item_opt key).
Proof. intros w. reflexivity. Qed.

Lemma keeps_now : keeps_sheet now.
Proof. intros w. reflexivity. Qed.


Lemma find_none_all {A} (p : A -> bool) (l : list A) (x : A) :
  find p l = None -> In x l -> p x = false.
Proof. intros H Hin. exact (find_none p l H x Hin). Qed.

Section Offered.

Context {U : Py.Unicode}.


End Offered.


(** ** Runs without a fault *)

Lemma quiet_world (w : world) (f : list bool) :
  script w = f -> set_script f w = w.
Proof. destruct w. simpl. intros <-. reflexivity. Qed.

Lemma bind_step {A B} (m : M A) (k : A -> M B) (w w1 : world) (a : A) :
  m w = (Ret a, w1) -> bind m k w = k a w1.
Proof. intros E. unfold bind. rewrite E. reflexivity. Qed.

Lemma bind_raise {A B} (m : M A) (k : A -> M B) (w w1 : world) :
  m w = (Raise, w1) -> bind m k w = (Raise, w1).
Proof. intros E. unfold bind. rewrite E. reflexivity. Qed.

Lemma chat_quiet (c : chat_call) (w : world) :
  script w = [] -> chat c w = (Ret tt, set_outbox (outbox w ++ [c]) w).
Proof. destruct w as [sh sc cl ud ob]. simpl. intros ->. reflexivity. Qed.

Lemma save_to_sheet_quiet (data : Order.t) (w : world) :
  script w = [] ->
  save_to_sheet data w
  = (Ret (true, format_order_number (length (sheet w))),
     set_sheet (sheet w ++ [order_row (format_order_number (length (sheet w))) data])
               w).
Proof.
  intros H. rewrite save_to_sheet_clean by (unfold calm; rewrite H; reflexivity).
  rewrite H. simpl. f_equal. apply quiet_world. exact H.
Qed.

Section QuietPending.

Context {U : Py.Unicode}.

Lemma pending_quiet (chat_id : Z) (w : world) :
  script w = [] ->
  get_pending_orders_for_user chat_id w
  = (Ret (map entry_of_pending
              (List.filter (fun p => is_pending_for chat_id (snd p))
                           (data_rows (sheet w)))), w).
Proof.
  intros H. rewrite pending_result by (unfold calm; rewrite H; reflexivity).
  rewrite H. simpl. f_equal. apply quiet_world. exact H.
Qed.

End QuietPending.

Lemma cancel_order_quiet (row_number : Z) (w : world) :
  1 <= row_number ->
  script w = [] ->
  cancel_order row_number w
  = (Ret true,
     set_sheet
       (Worksheet.write
          (Worksheet.write (sheet w) (Z.to_nat (row_number - 1)) 8 "STORNIERT")
          (Z.to_nat (row_number - 1)) 9
          (Datetime.strftime_minutes (clock w)))
       w).
Proof.
  intros Hr. destruct w as [sh sc cl ud ob]. simpl. intros ->.
  unfold cancel_order, Worksheet.update_cell. unfold_monad.
  destruct (Z.ltb_spec row_number 1) as [Hlt | _]; [lia|]. reflexivity.
Qed.

(** ** The cancellation conversation, from the list to the cancelled row *)

Lemma find_first {A} (p : A -> bool) (l : list A) (x : A) :
  In x l -> p x = true -> exists y, find p l = Some y /\ p y = true.
Proof.
  intros Hin Hp. destruct (find p l) as [y|] eqn:F.
  - exists y. split; [reflexivity|]. apply find_some in F. tauto.
  - rewrite (find_none p l F x Hin) in Hp. discriminate.
Qed.

Lemma cancel_token_not_abort (row : Z) :
  Py.eqb (cancel_token row) "cancel_abort" = false.
Proof.
  unfold cancel_token, Py.eqb.
  destruct row as [|p|p]; [reflexivity| |].
  - rewrite str_of_int_positive.
    pose proof (digits_of_uint (Pos.to_uint p)) as H.
    destruct (NilEmpty.string_of_uint (Pos.to_uint p)) as [|c t]; [reflexivity|].
    apply andb_prop in H as [H _].
    destruct c as [[] [] [] [] [] [] [] []]; (discriminate H || reflexivity).
  - rewrite str_of_int_negative. reflexivity.
Qed.

Section StornoFlow.

Context {U : Py.Unicode}.

(** The choice of an offered row when nothing fails. *)
Lemma stornieren_callback_quiet (ADMIN_CHAT_ID : option string) (row : Z)
      (l : list Pending.t) (w : world) :
  script w = [] ->
  user_data w !! "pending_orders" = Some (VOrders l) ->
  (exists o, In o l /\ Pending.row o = row) ->
  1 <= row ->
  exists w2,
    stornieren_callback ADMIN_CHAT_ID (cancel_token row) w = (Ret END, w2)
    /\ user_data w2 = ∅
    /\ sheet w2
       = Worksheet.write
           (Worksheet.write (sheet w) (Z.to_nat (row - 1)) 8 "STORNIERT")
           (Z.to_nat (row - 1)) 9 (Datetime.strftime_minutes (clock w)).
Proof.
  intros Hq Hl (o & Hin & Hrow) Hge.
  destruct (find_first (fun o' => Pending.row o' =? row) l o Hin) as (o' & F & _).
  { apply Z.eqb_eq. exact Hrow. }
  unfold stornieren_callback.
  rewrite cancel_token_not_abort, cancel_token_parses.
  rewrite (bind_step _ _ _ _ _ (chat_quiet Answer w Hq)).
  unfold cached_orders.
  rewrite (bind_step (get_item_opt "pending_orders" ;; _) _ _
             (set_outbox (outbox w ++ [Answer]) w) l).
  2:{ unfold bind, get_item_opt. simpl. rewrite Hl. reflexivity. }
  rewrite F.
  set (w1 := set_outbox (outbox w ++ [Answer]) w).
  assert (Hq1 : script w1 = []) by exact Hq.
  unfold bind at 1. unfold bind at 1.
  rewrite (cancel_order_quiet row w1 Hge Hq1).
  set (w2 := set_sheet _ w1).
  assert (Hq2 : script w2 = []) by exact Hq.
  rewrite (bind_step _ _ _ _ _ (chat_quiet _ w2 Hq2)).
  set (w3 := set_outbox _ w2).
  assert (Hq3 : script w3 = []) by exact Hq.
  destruct (admin_configured ADMIN_CHAT_ID).
  - unfold try_except. rewrite (chat_quiet _ w3 Hq3).
    eexists. split; [reflexivity|]. split; reflexivity.
  - eexists. split; [reflexivity|]. split; reflexivity.
Qed.

(** Asking to cancel when the chat has pending orders and nothing fails. *)
Lemma stornieren_start_quiet (chat_id : Z) (w : world) (l : list Pending.t) :
  script w = [] ->
  fst (get_pending_orders_for_user chat_id w) = Ret l ->
  l <> [] ->
  stornieren_start chat_id w
  = (Ret STORNO_AUSWAHL,
     set_outbox (outbox w ++ [Send ToUser (ChooseOrder (map Pending.row l))])
       (set_user_data (<["pending_orders" := VOrders l]> (user_data w)) w)).
Proof.
  intros Hq El Hne.
  pose proof (pending_quiet chat_id w Hq) as Ep.
  rewrite Ep in El. simpl in El. injection El as El. rewrite El in Ep.
  unfold stornieren_start. rewrite (bind_step _ _ _ _ _ Ep).
  destruct w as [sh sc cl ud ob]. simpl in Hq. subst sc.
  destruct l as [|o1 l']; [congruence|]. reflexivity.
Qed.

(** X13: when nothing fails, the cancellation conversation cancels the
    order the user picks.  Asking to cancel caches the pending orders of the
    chat and waits for a choice; the token of the button of any of these
    orders then ends the conversation with the marker in the status cell of
    that row, the other cells of the sheet as they were but for the time
    cell of the row, and the session data empty. *)
Theorem storno_flow_cancels (ADMIN_CHAT_ID : option string) (chat_id : Z)
        (w : world) (l : list Pending.t) (o : Pending.t) :
  script w = [] ->
  fst (get_pending_orders_for_user chat_id w) = Ret l ->
  In o l ->
  exists w1 w2,
    stornieren_start chat_id w = (Ret STORNO_AUSWAHL, w1)
    /\ offered w1 = l
    /\ stornieren_callback ADMIN_CHAT_ID (cancel_token (Pending.row o)) w1
       = (Ret END, w2)
    /\ user_data w2 = ∅
    /\ Worksheet.cell (sheet w2) (Pending.row o) 9 = "STORNIERT"
    /\ (forall r c,
          (r, c) <> (Pending.row o, 9) -> (r, c) <> (Pending.row o, 10) ->
          Worksheet.cell (sheet w2) r c = Worksheet.cell (sheet w) r c).
Proof.
  intros Hq El Hin.
  pose proof (pending_quiet chat_id w Hq) as Ep.
  rewrite Ep in El. simpl in El. injection El as El.
  assert (Hrow : 2 <= Pending.row o).
  { destruct (pending_sound chat_id w w _ Ep o) as (i & r & Hd & _ & ->).
    - rewrite El. exact Hin.
    - apply data_rows_position in Hd. simpl. tauto. }
  set (w0 := set_user_data (<["pending_orders" := VOrders l]> (user_data w)) w).
  set (w1 := set_outbox (outbox w0 ++ [Send ToUser (ChooseOrder (map Pending.row l))])
                        w0).
  assert (E1 : stornieren_start chat_id w = (Ret STORNO_AUSWAHL, w1)).
  { assert (Hne : l <> []) by (intros ->; destruct Hin).
    assert (El' : fst (get_pending_orders_for_user chat_id w) = Ret l)
      by (rewrite Ep, El; reflexivity).
    exact (stornieren_start_quiet chat_id w l Hq El' Hne). }
  assert (Hl : user_data w1 !! "pending_orders" = Some (VOrders l)).
  { simpl. apply lookup_insert_eq. }
  destruct (stornieren_callback_quiet ADMIN_CHAT_ID (Pending.row o) l w1)
    as (w2 & E2 & Hu & Hs); [exact Hq | exact Hl | eauto | lia |].
  exists w1, w2. split; [exact E1|]. split.
  { unfold offered. rewrite Hl. reflexivity. }
  split; [exact E2|]. split; [exact Hu|].
  rewrite Hs. change (sheet w1) with (sheet w).
  change 9%nat with (Z.to_nat (10 - 1)). change 8%nat with (Z.to_nat (9 - 1)).
  split.
  - rewrite cell_write_other by (lia || congruence).
    apply cell_write_same; lia.
  - intros r c H9 H10.
    rewrite cell_write_other by (lia || assumption).
    apply cell_write_other; (lia || assumption).
Qed.

End StornoFlow.

(** Chat 42 cancels its one pending order, in row 2. *)
Lemma storno_flow_cancels_witness :
  script world_two_orders = []
  /\ fst (get_pending_orders_for_user 42 world_two_orders)
     = Ret [Pending.mk 2 "#001" "2024-03-06 10:30:15" "Toner" "2" "Normal" "Lager"]
  /\ exists w1 w2,
       stornieren_start 42 world_two_orders = (Ret STORNO_AUSWAHL, w1)
       /\ stornieren_callback None (cancel_token 2) w1 = (Ret END, w2)
       /\ Worksheet.cell (sheet w2) 2 9 = "STORNIERT".
Proof.
  assert (H1 : script world_two_orders = []) by reflexivity.
  assert (H2 : fst (get_pending_orders_for_user 42 world_two_orders)
               = Ret [Pending.mk 2 "#001" "2024-03-06 10:30:15" "Toner" "2"
                                 "Normal" "Lager"]) by reflexivity.
  split; [exact H1|]. split; [exact H2|].
  destruct (storno_flow_cancels None 42 world_two_orders _
              (Pending.mk 2 "#001" "2024-03-06 10:30:15" "Toner" "2" "Normal"
                          "Lager") H1 H2 (or_introl eq_refl))
    as (w1 & w2 & E1 & _ & E2 & _ & Hc & _).
  exists w1, w2. split; [exact E1|]. split; [exact E2 | exact Hc].
Defined.

(** ** Saving an order from the session data *)

Lemma get_item_some (key : string) (v : value) (w : world) :
  user_data w !! key = Some v -> get_item key w = (Ret v, w).
Proof. intros H. unfold get_item. rewrite H. reflexivity. Qed.

Lemma get_item_none (key : string) (w : world) :
  user_data w !! key = None -> get_item key w = (Raise, w).
Proof. intros H. unfold get_item. rewrite H. reflexivity. Qed.

Lemma chat_calm (c : chat_call) (w : world) :
  calm 1 w ->
  chat c w
  = (Ret tt, set_script (skipn 1 (script w)) (set_outbox (outbox w ++ [c]) w)).
Proof.
  destruct w as [sh sc cl ud ob]. unfold calm. simpl. intros H.
  destruct sc as [|b sc]; split_ok H; reflexivity.
Qed.

(** The notification of the administrator returns, and leaves the sheet and
    the session data alone, whether it gets through or not. *)
Lemma admin_notice_contained (ADMIN_CHAT_ID : option string)
      (m : M unit) (w : world) :
  keeps_sheet m ->
  exists w',
    (if admin_configured ADMIN_CHAT_ID then try_except m (ret tt) else ret tt) w
    = (Ret tt, w')
    /\ sheet w' = sheet w.
Proof.
  intros Hm. destruct (admin_configured ADMIN_CHAT_ID).
  - pose proof (keeps_try m (ret tt) Hm (keeps_ret tt) w) as Hs.
    destruct (try_except_returns m tt w) as ([] & w' & E).
    rewrite E in *. eauto.
  - eexists. split; reflexivity.
Qed.

Lemma field_some (w : world) (key : string) (v : value) :
  user_data w !! key = Some v -> text_of v = field w key.
Proof. intros H. unfold field. rewrite H. reflexivity. Qed.

Section SaveOrder.

Context {U : Py.Unicode}.

(** Saving when the fields are there and the calls up to the confirmation
    for the user go through. *)
Lemma save_order_runs (ADMIN_CHAT_ID : option string) (chat_id : Z)
      (user : User.t) (w : world) :
  fields_present w ->
  calm 5 w ->
  exists w',
    save_order ADMIN_CHAT_ID chat_id user w = (Ret END, w')
    /\ user_data w' = ∅
    /\ sheet w'
       = (sheet w
          ++ [order_row (format_order_number (length (sheet w)))
                        (order_of_session chat_id user w)])%list.
Proof.
  intros ([va Ha] & [vm Hm] & [vd Hd] & [vk Hk]) Hcalm.
  unfold calm in Hcalm. change 5%nat with (4 + 1)%nat in Hcalm.
  apply all_ok_plus in Hcalm as [H4 H1].
  unfold save_order.
  rewrite (bind_step now _ w w (clock w) eq_refl).
  rewrite (bind_step _ _ _ _ _ (get_item_some _ _ _ Ha)).
  rewrite (bind_step _ _ _ _ _ (get_item_some _ _ _ Hm)).
  rewrite (bind_step _ _ _ _ _ (get_item_some _ _ _ Hd)).
  rewrite (bind_step _ _ _ _ _ (get_item_some _ _ _ Hk)).
  rewrite (bind_step (get_item_opt "foto_id") _ w w (user_data w !! "foto_id") eq_refl).
  cbv zeta.
  rewrite (field_some w _ _ Ha), (field_some w _ _ Hm), (field_some w _ _ Hd),
    (field_some w _ _ Hk).
  change (match user_data w !! "foto_id" with
          | Some v => text_of v
          | None => ""
          end) with (field w "foto_id").
  change (Order.mk (Datetime.strftime_seconds (clock w)) (full_name user) chat_id
                   (field w "artikel") (field w "menge") (field w "dringlichkeit")
                   (field w "kostenstelle") (field w "foto_id"))
    with (order_of_session chat_id user w).
  rewrite (bind_step _ _ _ _ _ (save_to_sheet_clean _ w H4)).
  set (w1 := set_script _ _).
  assert (Hc1 : calm 1 w1) by exact H1.
  unfold bind at 1. unfold bind at 1.
  rewrite (chat_calm _ w1 Hc1).
  set (w2 := set_script _ (set_outbox _ w1)).
  match goal with
  | |- context [(if admin_configured ADMIN_CHAT_ID then try_except ?m _ else _) w2] =>
      destruct (admin_notice_contained ADMIN_CHAT_ID m w2) as (w3 & E3 & Hs3)
  end.
  { apply keeps_bind; [apply keeps_chat|]. intros.
    destruct (truthy _); [apply keeps_chat | apply keeps_ret]. }
  rewrite E3. eexists. split; [reflexivity|]. split; [reflexivity|].
  simpl. rewrite Hs3. reflexivity.
Qed.

(** X14: a failure to notify the administrator never touches the outcome of
    an order.  When the session data holds the four fields and the calls up
    to the confirmation for the user go through, the handler ends the
    conversation, the sheet has the order of the session data as one more
    row, and the session data is empty, whatever happens to the calls that
    follow. *)
Theorem save_order_survives_admin_failure (ADMIN_CHAT_ID : option string)
        (chat_id : Z) (user : User.t) (w : world) :
  fields_present w ->
  calm 5 w ->
  exists w',
    save_order ADMIN_CHAT_ID chat_id user w = (Ret END, w')
    /\ user_data w' = ∅
    /\ sheet w'
       = (sheet w
          ++ [order_row (format_order_number (length (sheet w)))
                        (order_of_session chat_id user w)])%list.
Proof. apply save_order_runs. Qed.

End SaveOrder.

(** The notification of administrator 7 fails. *)
Lemma save_order_survives_admin_failure_witness :
  fields_present world_confirming
  /\ calm 5 world_confirming
  /\ exists w',
       save_order (Some "7") 42 max_muster world_confirming = (Ret END, w')
       /\ user_data w' = ∅
       /\ sheet w'
          = [sample_header;
             ["#001"; "2024-03-06 10:30:15"; "Max Muster"; "42"; "Toner"; "2";
              "Normal"; "Lager"; ""; ""]].
Proof.
  assert (H1 : fields_present world_confirming).
  { repeat split; eexists; reflexivity. }
  assert (H2 : calm 5 world_confirming) by reflexivity.
  split; [exact H1|]. split; [exact H2|].
  destruct (save_order_survives_admin_failure (Some "7") 42 max_muster
              world_confirming H1 H2) as (w' & E & Hu & Hs).
  exists w'. split; [exact E|]. split; [exact Hu|].
  rewrite Hs. reflexivity.
Defined.

Section MissingField.

Context {U : Py.Unicode}.

(** X15: a field missing from the session data stops the saving at once:
    the handler raises, and the world is what it was -- no row is written,
    no message is sent and the session data is not cleared. *)
Theorem save_order_missing_field (ADMIN_CHAT_ID : option string) (chat_id : Z)
        (user : User.t) (w : world) (key : string) :
  In key ["artikel"; "menge"; "dringlichkeit"; "kostenstelle"] ->
  user_data w !! key = None ->
  save_order ADMIN_CHAT_ID chat_id user w = (Raise, w).
Proof.
  intros Hkey Hnone. unfold save_order.
  rewrite (bind_step now _ w w (clock w) eq_refl).
  destruct (user_data w !! "artikel") as [va|] eqn:Ha;
    [rewrite (bind_step _ _ _ _ _ (get_item_some _ _ _ Ha))
    | exact (bind_raise _ _ _ _ (get_item_none _ _ Ha))].
  destruct (user_data w !! "menge") as [vm|] eqn:Hm;
    [rewrite (bind_step _ _ _ _ _ (get_item_some _ _ _ Hm))
    | exact (bind_raise _ _ _ _ (get_item_none _ _ Hm))].
  destruct (user_data w !! "dringlichkeit") as [vd|] eqn:Hd;
    [rewrite (bind_step _ _ _ _ _ (get_item_some _ _ _ Hd))
    | exact (bind_raise _ _ _ _ (get_item_none _ _ Hd))].
  destruct (user_data w !! "kostenstelle") as [vk|] eqn:Hk;
    [| exact (bind_raise _ _ _ _ (get_item_none _ _ Hk))].
  exfalso. simpl in Hkey.
  destruct Hkey as [<- | [<- | [<- | [<- | []]]]]; congruence.
Qed.

End MissingField.

(** The session of chat 42 after a cancellation was offered holds no
    article. *)
Lemma save_order_missing_field_witness :
  In "artikel" ["artikel"; "menge"; "dringlichkeit"; "kostenstelle"]
  /\ user_data world_selecting !! "artikel" = None
  /\ save_order None 42 max_muster world_selecting = (Raise, world_selecting).
Proof.
  assert (H1 : In "artikel" ["artikel"; "menge"; "dringlichkeit"; "kostenstelle"])
    by (left; reflexivity).
  assert (H2 : user_data world_selecting !! "artikel" = None) by reflexivity.
  split; [exact H1|]. split; [exact H2|].
  exact (save_order_missing_field None 42 max_muster world_selecting "artikel" H1 H2).
Defined.

(** ** An order from the first question to the sheet *)

Lemma foto_skip_quiet (w : world) (va vm vd vk : value) :
  script w = [] ->
  user_data w !! "artikel" = Some va ->
  user_data w !! "menge" = Some vm ->
  user_data w !! "dringlichkeit" = Some vd ->
  user_data w !! "kostenstelle" = Some vk ->
  foto_skip w
  = (Ret BESTAETIGUNG,
     set_outbox
       (outbox w ++ [Send ToUser (Overview (text_of va) (text_of vm) (text_of vd)
                                          (text_of vk) false)])
       (set_user_data (<["foto_id" := VStr ""]> (user_data w)) w)).
Proof.
  intros Hq Ha Hm Hd Hk. unfold foto_skip, show_confirmation.
  set (w1 := set_user_data (<["foto_id" := VStr ""]> (user_data w)) w).
  rewrite (bind_step (set_item "foto_id" (VStr "")) _ w w1 tt eq_refl).
  assert (Hf : user_data w1 !! "foto_id" = Some (VStr "")) by apply lookup_insert_eq.
  rewrite (bind_step (get_item_opt "foto_id") _ w1 w1 (Some (VStr "")))
    by (unfold get_item_opt; rewrite Hf; reflexivity).
  assert (Ha1 : user_data w1 !! "artikel" = Some va)
    by (simpl; rewrite lookup_insert_ne by done; exact Ha).
  assert (Hm1 : user_data w1 !! "menge" = Some vm)
    by (simpl; rewrite lookup_insert_ne by done; exact Hm).
  assert (Hd1 : user_data w1 !! "dringlichkeit" = Some vd)
    by (simpl; rewrite lookup_insert_ne by done; exact Hd).
  assert (Hk1 : user_data w1 !! "kostenstelle" = Some vk)
    by (simpl; rewrite lookup_insert_ne by done; exact Hk).
  rewrite (bind_step _ _ _ _ _ (get_item_some _ _ _ Ha1)).
  rewrite (bind_step _ _ _ _ _ (get_item_some _ _ _ Hm1)).
  rewrite (bind_step _ _ _ _ _ (get_item_some _ _ _ Hd1)).
  rewrite (bind_step _ _ _ _ _ (get_item_some _ _ _ Hk1)).
  assert (Hq1 : script w1 = []) by exact Hq.
  rewrite (bind_step _ _ _ _ _ (chat_quiet _ w1 Hq1)). reflexivity.
Qed.

(** The five answers, when nothing fails: the session data holds them. *)
Lemma answers_quiet (a m d k : string) (w : world) :
  script w = [] ->
  exists w',
    (start ;; artikel a ;; menge m ;; dringlichkeit d ;; kostenstelle k ;;
     foto_skip) w = (Ret BESTAETIGUNG, w')
    /\ script w' = [] /\ sheet w' = sheet w /\ clock w' = clock w
    /\ user_data w'
       = <["foto_id" := VStr ""]>
           (<["kostenstelle" := VStr k]>
              (<["dringlichkeit" := VStr d]>
                 (<["menge" := VStr m]>
                    (<["artikel" := VStr a]> (user_data w))))).
Proof.
  intros Hq. destruct w as [sh sc cl ud ob]. simpl in Hq. subst sc.
  set (u4 := <["kostenstelle" := VStr k]>
               (<["dringlichkeit" := VStr d]>
                  (<["menge" := VStr m]> (<["artikel" := VStr a]> ud)))).
  set (w4 := World sh [] cl u4
               (ob ++ [Send ToUser (Question ARTIKEL)]
                   ++ [Send ToUser (Question MENGE)]
                   ++ [Send ToUser (Question DRINGLICHKEIT)]
                   ++ [Send ToUser (Question KOSTENSTELLE)]
                   ++ [Send ToUser (Question FOTO)])%list).
  assert (E : forall (rest : M state),
             (start ;; artikel a ;; menge m ;; dringlichkeit d ;; kostenstelle k ;;
              rest) (World sh [] cl ud ob) = rest w4).
  { intros rest. unfold start, artikel, menge, dringlichkeit, kostenstelle.
    unfold_monad. unfold w4, u4. rewrite <- !app_assoc. reflexivity. }
  rewrite E.
  rewrite (foto_skip_quiet w4 (VStr a) (VStr m) (VStr d) (VStr k));
    [| reflexivity | unfold w4, u4; simpl .. ].
  - eexists. split; [reflexivity|]. repeat split.
  - rewrite !lookup_insert_ne by done. apply lookup_insert_eq.
  - rewrite !lookup_insert_ne by done. apply lookup_insert_eq.
  - rewrite !lookup_insert_ne by done. apply lookup_insert_eq.
  - apply lookup_insert_eq.
Qed.

Section Dialogue.

Context {U : Py.Unicode}.

(** X16: when nothing fails, an order conversation without a photo, from
    the start command through the four answers to the confirmation, ends
    with exactly one more row on the sheet: the number made from the count
    of rows before, the time of the clock, the name of the user, the chat
    identifier, the four answers as given and two empty cells for the
    status; the session data is empty afterwards, whatever it held
    before. *)
Theorem order_dialogue_saves (ADMIN_CHAT_ID : option string) (a m d k : string)
        (chat_id : Z) (user : User.t) (w : world) :
  script w = [] ->
  exists w',
    order_dialogue ADMIN_CHAT_ID a m d k chat_id user w = (Ret END, w')
    /\ user_data w' = ∅
    /\ sheet w'
       = (sheet w
          ++ [[format_order_number (length (sheet w));
               Datetime.strftime_seconds (clock w);
               full_name user;
               Py.str_of_int chat_id;
               a; m; d; k; ""; ""]])%list.
Proof.
  intros Hq.
  destruct (answers_quiet a m d k w Hq) as (w5 & E5 & Hq5 & Hs5 & Hc5 & Hu5).
  set (w7 := set_outbox ((outbox w5 ++ [Answer]) ++ [Edit SavingNotice]) w5).
  assert (Hf : fields_present w7).
  { unfold fields_present. simpl. rewrite Hu5.
    repeat split; eexists; rewrite !lookup_insert_ne by done;
      apply lookup_insert_eq. }
  assert (Hcalm : calm 5 w7) by (unfold calm; simpl; rewrite Hq5; reflexivity).
  destruct (save_order_runs ADMIN_CHAT_ID chat_id user w7 Hf Hcalm)
    as (w' & E & Hu & Hs).
  exists w'. split; [|split; [exact Hu|]].
  - unfold order_dialogue.
    assert (Ea : forall (rest : M state),
               (start ;; artikel a ;; menge m ;; dringlichkeit d ;;
                kostenstelle k ;; foto_skip ;; rest) w = rest w5).
    { intros rest.
      change (start ;; artikel a ;; menge m ;; dringlichkeit d ;;
              kostenstelle k ;; foto_skip ;; rest)
        with (bind start (fun _ => bind (artikel a) (fun _ => bind (menge m)
                (fun _ => bind (dringlichkeit d) (fun _ => bind (kostenstelle k)
                   (fun _ => bind foto_skip (fun _ => rest))))))).
      revert E5. unfold bind.
      destruct (start w) as [[s1|] w1]; [|discriminate].
      destruct (artikel a w1) as [[s2|] w2]; [|discriminate].
      destruct (menge m w2) as [[s3|] w3]; [|discriminate].
      destruct (dringlichkeit d w3) as [[s4|] w4]; [|discriminate].
      destruct (kostenstelle k w4) as [[s5|] w6]; [|discriminate].
      destruct (foto_skip w6) as [[s6|] w8]; [|discriminate].
      intros [= _ <-]. reflexivity. }
    rewrite Ea. unfold confirmation_callback.
    rewrite (bind_step _ _ _ _ _ (chat_quiet Answer w5 Hq5)).
    change (Py.eqb "confirm_yes" "confirm_yes") with true. cbv iota.
    rewrite (bind_step _ _ _ _ _
               (chat_quiet (Edit SavingNotice)
                           (set_outbox (outbox w5 ++ [Answer]) w5) Hq5)).
    exact E.
  - rewrite Hs. change (sheet w7) with (sheet w5). rewrite Hs5. do 2 f_equal.
    unfold order_of_session, order_row, field.
    change (clock w7) with (clock w5). change (user_data w7) with (user_data w5).
    rewrite Hc5, Hu5. cbn [Order.timestamp Order.mitarbeiter Order.chat_id
      Order.artikel Order.menge Order.dringlichkeit Order.kostenstelle].
    repeat (rewrite lookup_insert_eq || rewrite lookup_insert_ne by done).
    reflexivity.
Qed.

End Dialogue.

(** The order of the sample conversation on a fresh sheet. *)
Lemma order_dialogue_saves_witness :
  script fresh_world = []
  /\ exists w',
       order_dialogue None "Toner" "2" "Normal" "Lager" 42 max_muster fresh_world
       = (Ret END, w')
       /\ sheet w'
          = [sample_header;
             ["#001"; "2024-03-06 10:30:15"; "Max Muster"; "42"; "Toner"; "2";
              "Normal"; "Lager"; ""; ""]].
Proof.
  assert (H : script fresh_world = []) by reflexivity.
  split; [exact H|].
  destruct (order_dialogue_saves None "Toner" "2" "Normal" "Lager" 42 max_muster
              fresh_world H) as (w' & E & _ & Hs).
  exists w'. split; [exact E|]. rewrite Hs. reflexivity.
Defined.

(** ** Status marks and names *)

Lemma eqb_false_of_neq (s t : string) : s <> t -> Py.eqb s t = false.
Proof. intros H. unfold Py.eqb. apply String.eqb_neq. exact H. Qed.

Section Marks.

Context {U : Py.Unicode}.

(** A status that is not empty and of which [strip] leaves nothing gets the
    mark of an ordered row. *)
Lemma blank_mark (s : string) :
  s <> "" -> Py.strip s = "" -> status_mark s = Ordered.
Proof.
  intros Hne Hst. unfold status_mark, truthy.
  rewrite (eqb_false_of_neq _ _ Hne).
  assert (Hm : s <> "STORNIERT") by (intros ->; discriminate Hst).
  rewrite (eqb_false_of_neq _ _ Hm). reflexivity.
Qed.

(** What the search returns comes from the data rows. *)
Lemma search_sound (term : string) (w w' : world) (l : list Found.t) :
  search_orders term w = (Ret l, w') ->
  forall f, In f l ->
  exists i r, In (i, r) (data_rows (sheet w)) /\ f = found_entry i r.
Proof.
  intros E f Hf.
  destruct (calm_or_fault (script w)) as [H | [H | H]].
  - rewrite (search_result term w H) in E. injection E as <- _.
    apply in_firstn in Hf. apply in_map_iff in Hf as ([i r] & <- & Hin).
    apply filter_In in Hin as [Hin _]. exists i, r. auto.
  - apply (search_fault term w 0) in H; [|lia].
    rewrite E in H. simpl in H. injection H as ->. destruct Hf.
  - apply (search_fault term w 1) in H; [|lia].
    rewrite E in H. simpl in H. injection H as ->. destruct Hf.
Qed.

(** X17: an order whose status cell is not empty and holds nothing but
    whitespace is shown in two ways.  The list of pending orders of its chat
    has it, with its position and its fields; and every entry a search
    returns for its row carries the status cell as it is, for which the
    search command shows the mark of an ordered row. *)
Theorem blank_status_shown_as_ordered (chat_id : Z) (w : world) (i : Z)
        (r : list string) :
  calm 2 w ->
  In (i, r) (data_rows (sheet w)) ->
  blank_status r = true ->
  nth 8 r "" <> "" ->
  Py.str_of_int chat_id = nth 3 r "" ->
  (exists l,
     fst (get_pending_orders_for_user chat_id w) = Ret l
     /\ In (Pending.mk i (nth 0 r "") (nth 1 r "") (nth 4 r "") (nth 5 r "")
                       (nth 6 r "") (nth 7 r "")) l)
  /\ (forall term l w' f,
        search_orders term w = (Ret l, w') ->
        In f l -> Found.row f = i ->
        Found.bestellt f = nth 8 r "" /\ status_mark (Found.bestellt f) = Ordered).
Proof.
  intros Hcalm Hin Hb Hne Hid.
  destruct (blank_status_strip r Hb) as [Hl Hst]. split.
  - eexists. split; [rewrite (pending_result chat_id w Hcalm); reflexivity|].
    apply in_map_iff. exists (i, r). split; [reflexivity|].
    apply filter_In. split; [exact Hin|]. simpl.
    unfold is_pending_for. rewrite !cell_or_empty_nth, <- Hid, Hst.
    apply Nat.leb_le in Hl. rewrite Hl. unfold Py.eqb.
    rewrite String.eqb_refl. reflexivity.
  - intros term l w' f E Hf Hrow.
    destruct (search_sound term w w' l E f Hf) as (i' & r' & Hin' & ->).
    simpl in Hrow. subst i'.
    apply data_rows_position in Hin as [_ Hr].
    apply data_rows_position in Hin' as [_ Hr'].
    rewrite Hr in Hr'. injection Hr' as <-.
    simpl. rewrite cell_or_empty_nth. split; [reflexivity|].
    apply blank_mark; assumption.
Qed.

End Marks.

(** The order of chat 42 with a blank as its status: pending for chat 42,
    and found by the search with the mark of an ordered row. *)
Lemma blank_status_shown_as_ordered_witness :
  calm 2 world_blank_status
  /\ In (2, row_of "#001" order_a " " "") (data_rows (sheet world_blank_status))
  /\ blank_status (row_of "#001" order_a " " "") = true
  /\ nth 8 (row_of "#001" order_a " " "") "" <> ""
  /\ Py.str_of_int 42 = nth 3 (row_of "#001" order_a " " "") ""
  /\ (exists l,
        fst (get_pending_orders_for_user 42 world_blank_status) = Ret l
        /\ In (Pending.mk 2 "#001" "2024-03-06 10:30:15" "Toner" "2" "Normal"
                          "Lager") l)
  /\ search_orders "toner" world_blank_status
     = (Ret [Found.mk 2 "#001" "2024-03-06 10:30:15" "Max Muster" "Toner" "2"
                      "Normal" "Lager" " "],
        world_blank_status)
  /\ status_mark " " = Ordered.
Proof.
  assert (H1 : calm 2 world_blank_status) by reflexivity.
  assert (H2 : In (2, row_of "#001" order_a " " "")
                  (data_rows (sheet world_blank_status))) by (left; reflexivity).
  assert (H3 : blank_status (row_of "#001" order_a " " "") = true) by reflexivity.
  assert (H4 : nth 8 (row_of "#001" order_a " " "") "" <> "") by discriminate.
  assert (H5 : Py.str_of_int 42 = nth 3 (row_of "#001" order_a " " "") "")
    by reflexivity.
  assert (E : search_orders "toner" world_blank_status
              = (Ret [Found.mk 2 "#001" "2024-03-06 10:30:15" "Max Muster"
                               "Toner" "2" "Normal" "Lager" " "],
                 world_blank_status)) by reflexivity.
  repeat (split; [assumption|]).
  destruct (blank_status_shown_as_ordered 42 world_blank_status 2 _
              H1 H2 H3 H4 H5) as [Hp Hs].
  split; [exact Hp|]. split; [exact E|].
  exact (proj2 (Hs "toner" _ _ _ E (or_introl eq_refl) eq_refl)).
Defined.




Section Names.

Context {U : Py.Unicode}.


End Names.


(** ** Tokens of the confirmation, and a store that is down *)

Section OtherTokens.

Context {U : Py.Unicode}.

(** X19: of all tokens the confirmation can receive, only the one of the
    submit button writes to the sheet.  Any other token leaves the sheet as
    it is, whatever fails; when nothing fails, the restart token empties the
    session data and asks for the article again, and any further token
    empties the session data and ends the conversation like the abort
    button. *)
Theorem confirmation_other_tokens (ADMIN_CHAT_ID : option string) (data : string)
        (chat_id : Z) (user : User.t) (w : world) :
  Py.eqb data "confirm_yes" = false ->
  sheet (snd (confirmation_callback ADMIN_CHAT_ID data chat_id user w)) = sheet w
  /\ (script w = [] ->
      fst (confirmation_callback ADMIN_CHAT_ID data chat_id user w)
      = Ret (if Py.eqb data "confirm_restart" then ARTIKEL else END)
      /\ user_data (snd (confirmation_callback ADMIN_CHAT_ID data chat_id user w))
         = ∅).
Proof.
  intros Hno. unfold confirmation_callback. rewrite Hno. split.
  - apply keeps_bind; [apply keeps_chat|]. intros ?.
    destruct (Py.eqb data "confirm_restart").
    + apply keeps_bind; [apply keeps_chat|]. intros ?.
      apply keeps_bind; [apply keeps_clear|]. intros ?.
      apply keeps_bind; [apply keeps_chat|]. intros ?. apply keeps_ret.
    + apply keeps_bind; [apply keeps_chat|]. intros ?.
      apply keeps_bind; [apply keeps_clear|]. intros ?. apply keeps_ret.
  - intros Hq. destruct w as [sh sc cl ud ob]. simpl in Hq. subst sc.
    destruct (Py.eqb data "confirm_restart"); split; reflexivity.
Qed.

End OtherTokens.

(** An old token of another keyboard arrives in the confirmation of chat 42,
    whose session data holds the orders offered for cancellation. *)
Lemma confirmation_other_tokens_witness :
  Py.eqb "confirm_later" "confirm_yes" = false
  /\ script world_selecting = []
  /\ sheet (snd (confirmation_callback None "confirm_later" 42 max_muster
                   world_selecting))
     = sheet world_selecting
  /\ fst (confirmation_callback None "confirm_later" 42 max_muster world_selecting)
     = Ret END
  /\ user_data (snd (confirmation_callback None "confirm_later" 42 max_muster
                       world_selecting))
     = ∅.
Proof.
  assert (H : Py.eqb "confirm_later" "confirm_yes" = false) by reflexivity.
  assert (Hq : script world_selecting = []) by reflexivity.
  split; [exact H|]. split; [exact Hq|].
  destruct (confirmation_other_tokens None "confirm_later" 42 max_muster
              world_selecting H) as [Hs Hrest].
  split; [exact Hs|]. exact (Hrest Hq).
Defined.

Section StoreDown.

Context {U : Py.Unicode}.

(** X20: a store that cannot be read looks like a chat without pending
    orders.  When the connection gives no handle, or the read of the rows
    raises, and the message to the user goes through, asking to cancel ends
    the conversation with the notice that nothing is pending; the session
    data and the sheet are untouched. *)
Theorem stornieren_start_store_down (chat_id : Z) (w : world) (k : nat) :
  (k < 2)%nat ->
  first_fault k (script w) ->
  all_ok 1 (skipn (S k) (script w)) ->
  exists w',
    stornieren_start chat_id w = (Ret END, w')
    /\ outbox w' = (outbox w ++ [Send ToUser NothingToCancel])%list
    /\ user_data w' = user_data w
    /\ sheet w' = sheet w.
Proof.
  intros Hk Hf Hok. destruct w as [sh sc cl ud ob]. simpl in *.
  destruct k as [|[|k]]; [fault_cases 0%nat Hf | fault_cases 1%nat Hf | lia];
    subst sc; destruct rest as [|[] rest]; try discriminate Hok;
    (eexists; split; [reflexivity|]; repeat split).
Qed.

End StoreDown.

(** The connection fails while chat 42, which has a pending order, asks to
    cancel. *)
Lemma stornieren_start_store_down_witness :
  (0 < 2)%nat
  /\ first_fault 0 (script world_store_down)
  /\ all_ok 1 (skipn 1 (script world_store_down))
  /\ exists w',
       stornieren_start 42 world_store_down = (Ret END, w')
       /\ outbox w' = [Send ToUser NothingToCancel].
Proof.
  assert (H1 : (0 < 2)%nat) by (apply Nat.ltb_lt; reflexivity).
  assert (H2 : first_fault 0 (script world_store_down)) by (split; reflexivity).
  assert (H3 : all_ok 1 (skipn 1 (script world_store_down))) by reflexivity.
  split; [exact H1|]. split; [exact H2|]. split; [exact H3|].
  destruct (stornieren_start_store_down 42 world_store_down 0 H1 H2 H3)
    as (w' & E & Ho & _).
  exists w'. split; [exact E | exact Ho].
Defined.

Section NotSaved.

Context {U : Py.Unicode}.

(** X21: an order that cannot be saved is lost with its answers.  When the
    session data holds the four fields, the append reports failure -- its
    connection gives no handle, or the write of the row raises -- and the
    message to the user goes through, the handler tells the user that
    saving failed, ends the conversation and empties the session data; the
    sheet is as before. *)
Theorem save_order_store_down (ADMIN_CHAT_ID : option string) (chat_id : Z)
        (user : User.t) (w w1 : world) (n : string) :
  fields_present w ->
  save_to_sheet (order_of_session chat_id user w) w = (Ret (false, n), w1) ->
  calm 1 w1 ->
  exists w',
    save_order ADMIN_CHAT_ID chat_id user w = (Ret END, w')
    /\ outbox w' = (outbox w ++ [Send ToUser SaveFailed])%list
    /\ user_data w' = ∅
    /\ sheet w' = sheet w.
Proof.
  intros ([va Ha] & [vm Hm] & [vd Hd] & [vk Hk]) E Hcalm.
  destruct (save_to_sheet_cases (order_of_session chat_id user w) w)
    as (ok & n' & w1' & E1 & Hu & Ho & Hc).
  rewrite E in E1. injection E1 as <- <- <-.
  destruct Hc as [(_ & _ & Hs) | (Hok & _)]; [|discriminate Hok].
  unfold save_order.
  rewrite (bind_step now _ w w (clock w) eq_refl).
  rewrite (bind_step _ _ _ _ _ (get_item_some _ _ _ Ha)).
  rewrite (bind_step _ _ _ _ _ (get_item_some _ _ _ Hm)).
  rewrite (bind_step _ _ _ _ _ (get_item_some _ _ _ Hd)).
  rewrite (bind_step _ _ _ _ _ (get_item_some _ _ _ Hk)).
  rewrite (bind_step (get_item_opt "foto_id") _ w w (user_data w !! "foto_id") eq_refl).
  cbv zeta.
  rewrite (field_some w _ _ Ha), (field_some w _ _ Hm), (field_some w _ _ Hd),
    (field_some w _ _ Hk).
  change (match user_data w !! "foto_id" with
          | Some v => text_of v
          | None => ""
          end) with (field w "foto_id").
  change (Order.mk (Datetime.strftime_seconds (clock w)) (full_name user) chat_id
                   (field w "artikel") (field w "menge") (field w "dringlichkeit")
                   (field w "kostenstelle") (field w "foto_id"))
    with (order_of_session chat_id user w).
  rewrite (bind_step _ _ _ _ _ E).
  unfold bind at 1. rewrite (chat_calm _ w1 Hcalm).
  eexists. split; [reflexivity|]. simpl.
  rewrite Ho, Hs. repeat split.
Qed.

End NotSaved.

(** The store is down when chat 42 confirms its order. *)
Lemma save_order_store_down_witness :
  fields_present world_store_down
  /\ save_to_sheet (order_of_session 42 max_muster world_store_down)
                   world_store_down
     = (Ret (false, ""), set_script [true] world_store_down)
  /\ calm 1 (set_script [true] world_store_down)
  /\ exists w',
       save_order None 42 max_muster world_store_down = (Ret END, w')
       /\ outbox w' = [Send ToUser SaveFailed]
       /\ user_data w' = ∅
       /\ sheet w' = sheet world_store_down.
Proof.
  assert (H1 : fields_present world_store_down).
  { repeat split; eexists; reflexivity. }
  assert (H2 : save_to_sheet (order_of_session 42 max_muster world_store_down)
                             world_store_down
               = (Ret (false, ""), set_script [true] world_store_down))
    by reflexivity.
  assert (H3 : calm 1 (set_script [true] world_store_down)) by reflexivity.
  split; [exact H1|]. split; [exact H2|]. split; [exact H3|].
  exact (save_order_store_down None 42 max_muster world_store_down _ "" H1 H2 H3).
Defined.
